(** * moto-experiments: the Preloader / BootROM serial client

    A shallow embedding of [src/utils.py], [src/commands.py],
    [src/device.py] and of the orchestration in [preloader-relay.py],
    followed by the properties of the protocol engine.

    Python integers are [Z], [bytes] values are [list byte], exceptions
    are an explicit outcome, and the serial port is an abstract byte
    transport on which every call made through [self.dev] is recorded. *)

From Stdlib Require Import String.
From Stdlib.Strings Require Import Byte.
From Stdlib Require Import ZArith List Lia Bool.
Import ListNotations.
Local Open Scope Z_scope.

Set Implicit Arguments.

(* ================================================================== *)
(** ** Exceptions and outcomes *)

Definition bytes := list byte.

(** The text of a [RuntimeError].  The source builds the text with a
    format string; the embedding keeps the format and its arguments.

    - [InvalidSize]       : ['invalid size']
    - [Expected e t]      : [f'Expected {expected}, got {test}']
    - [StatusIs c]        : ['status is 0x%04X' % c]
    - [MeIdLengthIsZero]  : ['ME ID length is 0']
    - [SocIdLengthIsZero] : ['SOC ID length is 0']
    - [DeviceNotFound]    : ['Device not found'] *)
Inductive Message : Type :=
| InvalidSize
| Expected (expected test : bytes)
| StatusIs (code : Z)
| MeIdLengthIsZero
| SocIdLengthIsZero
| DeviceNotFound.

(** [StructError] is [struct.error] (value out of range for the format,
    or a buffer whose length is not the format's size);
    [AttributeError] is a method call on [self.dev] while it is [None];
    [SerialException] is a port that cannot be opened;
    [OSError] is a payload file that cannot be read. *)
Inductive Exception : Type :=
| RuntimeError (m : Message)
| StructError
| AttributeError
| SerialException
| OSError.

(** What a call does: return, raise, or still run when the fuel given
    to an unbounded [while] loop is used up. *)
Inductive Outcome (A : Type) : Type :=
| Ok (a : A)
| Raise (e : Exception)
| OutOfFuel.

Arguments Ok {A} a.
Arguments Raise {A} e.
Arguments OutOfFuel {A}.

(* ================================================================== *)
(** ** utils.py: the byte codec *)

Definition byte_of_Z (z : Z) : byte :=
  match Byte.of_N (Z.to_N (z mod 256)) with
  | Some b => b
  | None => x00
  end.

Definition Z_of_byte (b : byte) : Z := Z.of_N (Byte.to_N b).

(** The byte order character of a [struct] format string:
    ['>'] is [Big], ['<'] is [Little]. *)
Inductive Endian : Type := Big | Little.

(** The format characters used by the source: ['B'], ['H'], ['I']. *)
Inductive Format : Type := FmtB | FmtH | FmtI.

Definition calcsize (f : Format) : nat :=
  match f with FmtB => 1 | FmtH => 2 | FmtI => 4 end%nat.

(** The [n] least significant bytes of [v], least significant first. *)
Fixpoint le_bytes (n : nat) (v : Z) : bytes :=
  match n with
  | O => []
  | S k => byte_of_Z v :: le_bytes k (v / 256)
  end.

(** The unsigned integer a byte sequence denotes, least significant
    byte first. *)
Fixpoint le_value (bs : bytes) : Z :=
  match bs with
  | [] => 0
  | b :: rest => Z_of_byte b + 256 * le_value rest
  end.

(** [struct.pack(endian + fmt, value)] for the unsigned formats: the
    value has to fit the format. *)
Definition struct_pack (endian : Endian) (fmt : Format) (value : Z)
  : Outcome bytes :=
  if (0 <=? value) && (value <? 256 ^ Z.of_nat (calcsize fmt)) then
    Ok (match endian with
        | Little => le_bytes (calcsize fmt) value
        | Big => rev (le_bytes (calcsize fmt) value)
        end)
  else Raise StructError.

(** [struct.unpack(endian + fmt, value)[0]]: the buffer has to have the
    format's size. *)
Definition struct_unpack (endian : Endian) (fmt : Format) (value : bytes)
  : Outcome Z :=
  if Nat.eqb (length value) (calcsize fmt) then
    Ok (match endian with
        | Little => le_value value
        | Big => le_value (rev value)
        end)
  else Raise StructError.

(** [to_bytes(value, size=1, endian='>')]: a dictionary of thunks keyed
    by 1, 2 and 4, with a default thunk that raises. *)
Definition to_bytes (value : Z) (size : Z) (endian : Endian)
  : Outcome bytes :=
  match size with
  | 1 => struct_pack endian FmtB value
  | 2 => struct_pack endian FmtH value
  | 4 => struct_pack endian FmtI value
  | _ => Raise (RuntimeError InvalidSize)
  end.

(** [from_bytes(value, size=1, endian='>')]. *)
Definition from_bytes (value : bytes) (size : Z) (endian : Endian)
  : Outcome Z :=
  match size with
  | 1 => struct_unpack endian FmtB value
  | 2 => struct_unpack endian FmtH value
  | 4 => struct_unpack endian FmtI value
  | _ => Raise (RuntimeError InvalidSize)
  end.

(** [bit(n)], that is [1 << n]: a negative shift count raises
    [ValueError], which is [None] here. *)
Definition bit (n : Z) : option Z :=
  if n <? 0 then None else Some (Z.shiftl 1 n).

(* ================================================================== *)
(** ** commands.py: the opcodes *)

Inductive Command : Type :=
| GET_HW_SW_VER | GET_HW_CODE | GET_PL_VER | GET_BR_VER
| LEGACY_WRITE | LEGACY_READ
| I2C_INIT | I2C_DEINIT | I2C_WRITE8 | I2C_READ8 | I2C_SET_SPEED
| PWR_INIT | PWR_DEINIT | PWR_READ16 | PWR_WRITE16
| READ16 | READ32 | WRITE16 | WRITE16_NO_ECHO | WRITE32
| JUMP_DA | JUMP_BL | SEND_DA | GET_TARGET_CONFIG | UART1_LOG_EN
| SEND_CERT | GET_ME_ID | SEND_AUTH | SLA_CHALLENGE | GET_SOC_ID
| ZEROIZATION | GET_PL_CAP.

(** [Command.X.value] *)
Definition value (c : Command) : Z :=
  match c with
  | GET_HW_SW_VER => 0xFC | GET_HW_CODE => 0xFD
  | GET_PL_VER => 0xFE | GET_BR_VER => 0xFF
  | LEGACY_WRITE => 0xA1 | LEGACY_READ => 0xA2
  | I2C_INIT => 0xB0 | I2C_DEINIT => 0xB1 | I2C_WRITE8 => 0xB2
  | I2C_READ8 => 0xB3 | I2C_SET_SPEED => 0xB4
  | PWR_INIT => 0xC4 | PWR_DEINIT => 0xC5
  | PWR_READ16 => 0xC6 | PWR_WRITE16 => 0xC7
  | READ16 => 0xD0 | READ32 => 0xD1 | WRITE16 => 0xD2
  | WRITE16_NO_ECHO => 0xD3 | WRITE32 => 0xD4
  | JUMP_DA => 0xD5 | JUMP_BL => 0xD6 | SEND_DA => 0xD7
  | GET_TARGET_CONFIG => 0xD8 | UART1_LOG_EN => 0xDB
  | SEND_CERT => 0xE0 | GET_ME_ID => 0xE1 | SEND_AUTH => 0xE2
  | SLA_CHALLENGE => 0xE3 | GET_SOC_ID => 0xE7
  | ZEROIZATION => 0xF0 | GET_PL_CAP => 0xF1
  end.

(* ================================================================== *)
(** ** The serial port and the host *)

(** The three methods of [serial.Serial] the session calls.  [t_read n]
    returns what the port delivers before its timeout (possibly fewer
    than [n] bytes, possibly none). *)
Class Transport (T : Type) : Type := {
  t_write : bytes -> T -> T;
  t_read : Z -> T -> bytes * T;
  t_reset_input_buffer : T -> T
}.

(** One call made through [self.dev]; a read is recorded with the bytes
    it returned. *)
Inductive Event : Type :=
| EvWrite (data : bytes)
| EvRead (size : Z) (data : bytes)
| EvResetInputBuffer.

(** One [logging] call, kept as its format and arguments. *)
Inductive LogRecord : Type :=
| LogWaitingForDevice                  (* 'Waiting for device...' *)
| LogDeviceAlreadyFound                (* 'Device already found!' *)
| LogFoundDevice (port : option string)(* 'Found device = %s' *)
| LogHandshakeCompleted                (* 'Handshake completed!' *)
| LogInitPMIC (reg val : Z)            (* 'Init PMIC: 0x{reg:04X} (0x{val:04X})' *)
| LogDeinitPMIC                        (* 'Deinit PMIC' *)
| LogSendDA (address da_len sig_len : Z)
      (* 'Send DA to 0x%08X (%d bytes, %d bytes signature)' *)
| LogJumpToDA (address : Z)            (* 'Jump to DA at 0x%08X' *)
| LogHwCode (hw_code : Z)              (* 'HW Code: 0x{hw_code:04X}' *)
| LogHwSubCode (hw_sub_code : Z)       (* 'HW Sub-Code: 0x{hw_sub_code:04X}' *)
| LogHwVersion (hw_ver : Z)            (* 'HW Version: 0x{hw_ver:04X}' *)
| LogSwVersion (sw_ver : Z)            (* 'SW Version: 0x{sw_ver:04X}' *)
| LogMeId (me_id : bytes)              (* 'ME ID: {me_id.hex().upper()}' *)
| LogSocId (soc_id : bytes)            (* 'SOC ID: {soc_id.hex().upper()}' *)
| LogLoadPayload (path : string) (len : Z).
      (* 'Load payload from %s = 0x%08X bytes' *)

(** An entry of [serial.tools.list_ports.comports()]. *)
Record ListPortInfo : Type := {
  device : string;
  vid : option Z;
  pid : option Z
}.

(** What the host answers: the [n]-th call of [time.time()] (in clock
    ticks), the [n]-th call of [comports()], opening a serial port and
    reading a file. *)
Record Host (T : Type) : Type := {
  time_time : nat -> Z;
  comports : nat -> list ListPortInfo;
  serial_Serial : string -> Z -> Z -> option T;
  open_read : string -> option bytes
}.

(** The attributes of a [Device] ([dev], [port], [baud], [timeout]),
    the calls made on the port so far, the log lines so far, and how
    often the clock and the port list were asked. *)
Record World (T : Type) : Type := mkWorld {
  dev : option T;
  port : option string;
  baud : Z;
  timeout : Z;
  trace : list Event;
  log : list LogRecord;
  clock_calls : nat;
  comports_calls : nat
}.

(* ================================================================== *)
(** ** Sequencing calls that may raise *)

Definition M (W A : Type) : Type := W -> Outcome A * W.

Definition ret {W A : Type} (a : A) : M W A := fun w => (Ok a, w).

Definition bind {W A B : Type} (c : M W A) (k : A -> M W B) : M W B :=
  fun w =>
    match c w with
    | (Ok a, w') => k a w'
    | (Raise e, w') => (Raise e, w')
    | (OutOfFuel, w') => (OutOfFuel, w')
    end.

Definition raise {W A : Type} (e : Exception) : M W A :=
  fun w => (Raise e, w).

Definition out_of_fuel {W A : Type} : M W A := fun w => (OutOfFuel, w).

(** The outcome of a call that does not touch the world. *)
Definition lift {W A : Type} (o : Outcome A) : M W A := fun w => (o, w).

Notation "x <- c ;; k" := (bind c (fun x => k))
  (at level 61, c at next level, right associativity).
Notation "' pat <- c ;; k" := (bind c (fun x => match x with pat => k end))
  (at level 61, pat pattern, c at next level, right associativity).
Notation "c ;; k" := (bind c (fun _ => k))
  (at level 61, right associativity).

(** [==] on [bytes]. *)
Fixpoint bytes_eqb (a b : bytes) : bool :=
  match a, b with
  | [], [] => true
  | x :: a', y :: b' => Byte.eqb x y && bytes_eqb a' b'
  | _, _ => false
  end.

(** The truth value of a string or [None] ([if port:], [if not
    self.port:]). *)
Definition truthy (s : option string) : bool :=
  match s with
  | None => false
  | Some EmptyString => false
  | Some (String _ _) => true
  end.

(** [len(...)] *)
Definition len (bs : bytes) : Z := Z.of_nat (length bs).

(* ================================================================== *)
(** ** Outcomes the commands share *)

(** The outcome of the status test every command ends with, given
    the two bytes read as status and the outcome [k] of what follows
    a zero status. *)
Definition after_status {A : Type} (status : bytes) (k : Outcome A)
  : Outcome A :=
  match from_bytes status 2 Big with
  | Ok st => if st =? 0 then k else Raise (RuntimeError (StatusIs st))
  | Raise e => Raise e
  | OutOfFuel => OutOfFuel
  end.

(** The three version fields of [get_hw_sw_ver], decoded in the order
    of the [return] statement. *)
Definition versions (sub ver sw : bytes) : Outcome (Z * Z * Z) :=
  match from_bytes sub 2 Big with
  | Ok a =>
      match from_bytes ver 2 Big with
      | Ok b =>
          match from_bytes sw 2 Big with
          | Ok c => Ok (a, b, c)
          | Raise e => Raise e
          | OutOfFuel => OutOfFuel
          end
      | Raise e => Raise e
      | OutOfFuel => OutOfFuel
      end
  | Raise e => Raise e
  | OutOfFuel => OutOfFuel
  end.

(* ================================================================== *)
(** ** utils.py: port discovery, and device.py: the session *)

Section Engine.

Context {T : Type} `{Transport T}.
Variable host : Host T.

#[local] Abbreviation W := (World T).

(** *** Primitive steps *)

Definition set_dev (d : option T) (w : W) : W :=
  mkWorld d (port w) (baud w) (timeout w) (trace w) (log w)
          (clock_calls w) (comports_calls w).

Definition set_port (p : option string) (w : W) : W :=
  mkWorld (dev w) p (baud w) (timeout w) (trace w) (log w)
          (clock_calls w) (comports_calls w).

(** The port is now [d] and the calls [evs] were made on it. *)
Definition played (d : T) (evs : list Event) (w : W) : W :=
  mkWorld (Some d) (port w) (baud w) (timeout w) (trace w ++ evs) (log w)
          (clock_calls w) (comports_calls w).

(** The lines [rs] were logged. *)
Definition logged (rs : list LogRecord) (w : W) : W :=
  mkWorld (dev w) (port w) (baud w) (timeout w) (trace w) (log w ++ rs)
          (clock_calls w) (comports_calls w).

(** The clock was read [c] more times and the port list [p] more
    times. *)
Definition polled (c p : nat) (w : W) : W :=
  mkWorld (dev w) (port w) (baud w) (timeout w) (trace w) (log w)
          (c + clock_calls w) (p + comports_calls w).

(** [self.dev.write(data)] *)
Definition dev_write (data : bytes) : M W unit :=
  fun w =>
    match dev w with
    | None => (Raise AttributeError, w)
    | Some d => (Ok tt, played (t_write data d) [EvWrite data] w)
    end.

(** [self.dev.read(size)] *)
Definition dev_read (size : Z) : M W bytes :=
  fun w =>
    match dev w with
    | None => (Raise AttributeError, w)
    | Some d =>
        let (data, d') := t_read size d in
        (Ok data, played d' [EvRead size data] w)
    end.

(** [self.dev.reset_input_buffer()] *)
Definition dev_reset_input_buffer : M W unit :=
  fun w =>
    match dev w with
    | None => (Raise AttributeError, w)
    | Some d => (Ok tt, played (t_reset_input_buffer d) [EvResetInputBuffer] w)
    end.

(** [logging.info(...)], [logging.warning(...)] *)
Definition logging_info (r : LogRecord) : M W unit :=
  fun w => (Ok tt, logged [r] w).

(** [time.time()] *)
Definition now : M W Z :=
  fun w =>
    (Ok (time_time host (clock_calls w)),
     mkWorld (dev w) (port w) (baud w) (timeout w) (trace w) (log w)
             (S (clock_calls w)) (comports_calls w)).

(** [serial.tools.list_ports.comports()] *)
Definition list_ports : M W (list ListPortInfo) :=
  fun w =>
    (Ok (comports host (comports_calls w)),
     mkWorld (dev w) (port w) (baud w) (timeout w) (trace w) (log w)
             (clock_calls w) (S (comports_calls w))).

(** *** utils.py: find_port *)

(** [port.vid == vendor_id and port.pid == product_id] *)
Definition port_matches (vendor_id product_id : Z) (p : ListPortInfo)
  : bool :=
  match vid p, pid p with
  | Some v, Some q => (v =? vendor_id) && (q =? product_id)
  | _, _ => false
  end.

(** The [while] loop of [find_port]; one unit of fuel per iteration. *)
Fixpoint find_port_loop (fuel : nat) (vendor_id product_id : Z)
         (timeout : option Z) (start : Z) : M W (option string) :=
  match fuel with
  | O => out_of_fuel
  | S fuel' =>
      go_on <- match timeout with
               | None => ret true
               | Some t => n <- now ;; ret (n - start <? t)
               end ;;
      if (go_on : bool) then
        ports <- list_ports ;;
        match find (port_matches vendor_id product_id) ports with
        | Some p => ret (Some (device p))
        | None => find_port_loop fuel' vendor_id product_id timeout start
        end
      else ret None
  end.

(** [find_port(vendor_id, product_id, timeout=None)]; [fuel] bounds the
    iterations of its loop. *)
Definition find_port (fuel : nat) (vendor_id product_id : Z)
           (timeout : option Z) : M W (option string) :=
  start <- now ;;
  find_port_loop fuel vendor_id product_id timeout start.

(** *** device.py: Device *)

(** [Device.__init__(port, baud, timeout)] *)
Definition Device_init (port : option string) (baud timeout : Z)
  : M W unit :=
  fun w =>
    let w' := mkWorld None port baud timeout (trace w) (log w)
                      (clock_calls w) (comports_calls w) in
    match port with
    | Some p =>
        if truthy port then
          match serial_Serial host p baud timeout with
          | Some d => (Ok tt, set_dev (Some d) w')
          | None => (Raise SerialException, w')
          end
        else (Ok tt, w')
    | None => (Ok tt, w')
    end.

(** [Device.check(test, expected)] *)
Definition check (test expected : bytes) : Outcome bool :=
  if negb (bytes_eqb test expected) then
    Raise (RuntimeError (Expected expected test))
  else Ok true.

(** [Device.find_device(vendor_id, product_id)] *)
Definition find_device (fuel : nat) (vendor_id product_id : Z)
  : M W unit :=
  fun w =>
    match dev w with
    | Some _ => logging_info LogDeviceAlreadyFound w
    | None =>
        (p <- find_port fuel vendor_id product_id None ;;
         (fun w1 => (Ok tt, set_port p w1)) ;;
         logging_info (LogFoundDevice p) ;;
         if negb (truthy p) then raise (RuntimeError DeviceNotFound)
         else
           fun w2 =>
             match p with
             | Some name =>
                 match serial_Serial host name (baud w2) (timeout w2) with
                 | Some d => (Ok tt, set_dev (Some d) w2)
                 | None => (Raise SerialException, w2)
                 end
             | None => (Raise SerialException, w2)
             end) w
    end.

(** [Device.echo(words, size=1)]: the echo is read and dropped. *)
Definition echo (words : bytes) (size : Z) : M W unit :=
  dev_write words ;;
  _ <- dev_read size ;;
  ret tt.

(** [Device.wr(data, size=1)] *)
Definition wr (data : bytes) (size : Z) : M W bytes :=
  dev_write data ;;
  dev_read size.

(** The [while True] loop of [Device.handshake]; one unit of fuel per
    iteration. *)
Fixpoint handshake_sync (fuel : nat) : M W unit :=
  match fuel with
  | O => out_of_fuel
  | S fuel' =>
      dev_write [xa0] ;;
      response <- dev_read 1 ;;
      if bytes_eqb response [x5f] then ret tt
      else
        dev_reset_input_buffer ;;
        handshake_sync fuel'
  end.

(** The three checked exchanges of [Device.handshake] and its log
    line. *)
Definition handshake_probes : M W unit :=
  r1 <- wr [x0a] 1 ;;
  _ <- lift (check r1 [xf5]) ;;
  r2 <- wr [x50] 1 ;;
  _ <- lift (check r2 [xaf]) ;;
  r3 <- wr [x05] 1 ;;
  _ <- lift (check r3 [xfa]) ;;
  logging_info LogHandshakeCompleted.

(** [Device.handshake()] *)
Definition handshake (fuel : nat) : M W unit :=
  handshake_sync fuel ;;
  handshake_probes.

(** [Device.get_hw_sw_ver()] *)
Definition get_hw_sw_ver : M W (Z * Z * Z) :=
  op <- lift (to_bytes (value GET_HW_SW_VER) 1 Big) ;;
  echo op 1 ;;
  hw_sub_code <- dev_read 2 ;;
  hw_ver <- dev_read 2 ;;
  sw_ver <- dev_read 2 ;;
  status <- dev_read 2 ;;
  st <- lift (from_bytes status 2 Big) ;;
  if negb (st =? 0) then
    code <- lift (from_bytes status 2 Big) ;;
    raise (RuntimeError (StatusIs code))
  else
    a <- lift (from_bytes hw_sub_code 2 Big) ;;
    b <- lift (from_bytes hw_ver 2 Big) ;;
    c <- lift (from_bytes sw_ver 2 Big) ;;
    ret (a, b, c).

(** [Device.get_hw_code()] *)
Definition get_hw_code : M W Z :=
  op <- lift (to_bytes (value GET_HW_CODE) 1 Big) ;;
  echo op 1 ;;
  hw_code <- dev_read 2 ;;
  status <- dev_read 2 ;;
  st <- lift (from_bytes status 2 Big) ;;
  if negb (st =? 0) then
    code <- lift (from_bytes status 2 Big) ;;
    raise (RuntimeError (StatusIs code))
  else lift (from_bytes hw_code 2 Big).

(** [Device.get_me_id()] *)
Definition get_me_id : M W bytes :=
  op <- lift (to_bytes (value GET_ME_ID) 1 Big) ;;
  echo op 1 ;;
  field <- dev_read 4 ;;
  length <- lift (from_bytes field 4 Big) ;;
  if length =? 0 then raise (RuntimeError MeIdLengthIsZero)
  else
    me_id <- dev_read length ;;
    status <- dev_read 2 ;;
    st <- lift (from_bytes status 2 Big) ;;
    if negb (st =? 0) then
      code <- lift (from_bytes status 2 Big) ;;
      raise (RuntimeError (StatusIs code))
    else ret me_id.

(** [Device.get_soc_id()] *)
Definition get_soc_id : M W bytes :=
  op <- lift (to_bytes (value GET_SOC_ID) 1 Big) ;;
  echo op 1 ;;
  field <- dev_read 4 ;;
  length <- lift (from_bytes field 4 Big) ;;
  if length =? 0 then raise (RuntimeError SocIdLengthIsZero)
  else
    soc_id <- dev_read length ;;
    status <- dev_read 2 ;;
    st <- lift (from_bytes status 2 Big) ;;
    if negb (st =? 0) then
      code <- lift (from_bytes status 2 Big) ;;
      raise (RuntimeError (StatusIs code))
    else ret soc_id.

(** [Device.power_init(reg, val)]: both fields go through [echo] with
    its default [size=1]. *)
Definition power_init (reg val : Z) : M W unit :=
  logging_info (LogInitPMIC reg val) ;;
  op <- lift (to_bytes (value PWR_INIT) 1 Big) ;;
  echo op 1 ;;
  r <- lift (to_bytes reg 4 Big) ;;
  echo r 1 ;;
  v <- lift (to_bytes val 4 Big) ;;
  echo v 1 ;;
  status <- dev_read 2 ;;
  st <- lift (from_bytes status 2 Big) ;;
  if negb (st =? 0) then
    code <- lift (from_bytes status 2 Big) ;;
    raise (RuntimeError (StatusIs code))
  else ret tt.

(** [Device.power_deinit()] *)
Definition power_deinit : M W unit :=
  logging_info LogDeinitPMIC ;;
  op <- lift (to_bytes (value PWR_DEINIT) 1 Big) ;;
  echo op 1 ;;
  status <- dev_read 2 ;;
  st <- lift (from_bytes status 2 Big) ;;
  if negb (st =? 0) then
    code <- lift (from_bytes status 2 Big) ;;
    raise (RuntimeError (StatusIs code))
  else ret tt.

(** [Device.get_preloader_version()]: the opcode is written without
    an echo read; [pl_ver == 0xFE] compares [bytes] with an [int] and
    is never true, so the warning is never logged. *)
Definition get_preloader_version : M W Z :=
  op <- lift (to_bytes (value GET_PL_VER) 1 Big) ;;
  dev_write op ;;
  pl_ver <- dev_read 2 ;;
  lift (from_bytes pl_ver 1 Big).

(** [Device.send_da(address, da_len, sig_len, da)] *)
Definition send_da (address da_len sig_len : Z) (da : bytes) : M W Z :=
  logging_info (LogSendDA address da_len sig_len) ;;
  op <- lift (to_bytes (value SEND_DA) 1 Big) ;;
  echo op 1 ;;
  a <- lift (to_bytes address 4 Big) ;;
  echo a 4 ;;
  l <- lift (to_bytes da_len 4 Big) ;;
  echo l 4 ;;
  s <- lift (to_bytes sig_len 4 Big) ;;
  echo s 4 ;;
  status <- dev_read 2 ;;
  st <- lift (from_bytes status 2 Big) ;;
  if negb (st =? 0) then
    code <- lift (from_bytes status 2 Big) ;;
    raise (RuntimeError (StatusIs code))
  else
    dev_write da ;;
    c <- dev_read 2 ;;
    checksum <- lift (from_bytes c 2 Big) ;;
    s2 <- dev_read 2 ;;
    status2 <- lift (from_bytes s2 2 Big) ;;
    if negb (status2 =? 0) then raise (RuntimeError (StatusIs status2))
    else ret checksum.

(** [Device.jump_da(address)]: the address goes through [echo] with
    its default [size=1]; the last read is assigned and not used. *)
Definition jump_da (address : Z) : M W unit :=
  logging_info (LogJumpToDA address) ;;
  op <- lift (to_bytes (value JUMP_DA) 1 Big) ;;
  echo op 1 ;;
  a <- lift (to_bytes address 4 Big) ;;
  echo a 1 ;;
  _ <- dev_read 2 ;;
  ret tt.

(** [Device.identify()]: returns nothing; the values are logged after
    the fourth command. *)
Definition identify : M W unit :=
  hw_code <- get_hw_code ;;
  '(hw_sub_code, hw_ver, sw_ver) <- get_hw_sw_ver ;;
  me_id <- get_me_id ;;
  soc_id <- get_soc_id ;;
  logging_info (LogHwCode hw_code) ;;
  logging_info (LogHwSubCode hw_sub_code) ;;
  logging_info (LogHwVersion hw_ver) ;;
  logging_info (LogSwVersion sw_ver) ;;
  logging_info (LogMeId me_id) ;;
  logging_info (LogSocId soc_id).

(** *** preloader-relay.py *)

(** The parsed command line. *)
Record Args : Type := {
  mode_identify : bool;
  mode_download_agent : bool;
  payload : string;
  verbose : bool;
  arg_port : option string;
  skip_handshake : bool
}.

(** [main()] from [device.handshake()] on. *)
Definition session (fuel : nat) (args : Args) : M W unit :=
  (if negb (skip_handshake args) then handshake fuel else ret tt) ;;
  identify ;;
  if negb (mode_identify args) then
    da <- (fun w => match open_read host (payload args) with
                    | Some content => (Ok content, w)
                    | None => (Raise OSError, w)
                    end) ;;
    logging_info (LogLoadPayload (payload args) (len da)) ;;
    _ <- send_da 0x200000 (len da) 0x00000100 da ;;
    jump_da 0x200000
  else ret tt.

(** [main()] after argument parsing. *)
Definition main (fuel : nat) (args : Args) : M W unit :=
  Device_init (arg_port args) 115200 5 ;;
  logging_info LogWaitingForDevice ;;
  find_device fuel 0x0E8D 0x2000 ;;
  session fuel args.

(** *** What the port answers during the synchronization loop *)

(** One write-read cycle of the sync byte from port state [d]. *)
Definition probe (d : T) : bytes * T := t_read 1 (t_write [xa0] d).

(** The port after a probe that was not answered with [0x5F]. *)
Definition miss (d : T) : T := t_reset_input_buffer (snd (probe d)).

Fixpoint misses (n : nat) (d : T) : T :=
  match n with
  | O => d
  | S k => misses k (miss d)
  end.

(** What the port returns to the first [n] probes of the loop. *)
Fixpoint replies (n : nat) (d : T) : list bytes :=
  match n with
  | O => []
  | S k => fst (probe d) :: replies k (miss d)
  end.

(** The calls of one iteration that does not leave the loop. *)
Definition missed_probe (r : bytes) : list Event :=
  [EvWrite [xa0]; EvRead 1 r; EvResetInputBuffer].

Definition garbage (r : bytes) : Prop := r <> [x5f].

(** What [get_me_id] and [get_soc_id] do after the opcode exchange,
    on a port whose state is [d0], with [empty] raised for a zero
    length. *)
Definition identity_outcome (empty : Message) (d0 : T) (pre : list Event)
           (w : W) : Outcome bytes * W :=
  let f := t_read 4 d0 in
  let pre := pre ++ [EvRead 4 (fst f)] in
  match from_bytes (fst f) 4 Big with
  | Ok n =>
      if n =? 0 then (Raise (RuntimeError empty), played (snd f) pre w)
      else
        let m := t_read n (snd f) in
        let s := t_read 2 (snd m) in
        (after_status (fst s) (Ok (fst m)),
         played (snd s) (pre ++ [EvRead n (fst m); EvRead 2 (fst s)]) w)
  | Raise x => (Raise x, played (snd f) pre w)
  | OutOfFuel => (OutOfFuel, played (snd f) pre w)
  end.

End Engine.

(* ================================================================== *)
(** ** Reading a trace *)

(** The data of the writes of a trace, in order. *)
Fixpoint writes_of (tr : list Event) : list bytes :=
  match tr with
  | [] => []
  | EvWrite data :: rest => data :: writes_of rest
  | _ :: rest => writes_of rest
  end.

(** How often the input buffer was flushed. *)
Fixpoint resets_of (tr : list Event) : nat :=
  match tr with
  | [] => O
  | EvResetInputBuffer :: rest => S (resets_of rest)
  | _ :: rest => resets_of rest
  end.

(* ================================================================== *)
(** ** A scripted device on a byte stream

    The port as [serial.Serial] presents it: [rx] is the input buffer;
    every write makes the device send its next scripted reply, which is
    queued behind what is still unread; a read takes up to [size] bytes
    from the front of the buffer (fewer when the timeout expires first);
    [reset_input_buffer] drops what is unread. *)

Record Wire : Type := mkWire {
  rx : bytes;
  script : list bytes
}.

#[export] Instance Wire_Transport : Transport Wire := {
  t_write := fun _ w =>
    match script w with
    | [] => w
    | reply :: rest => mkWire (rx w ++ reply) rest
    end;
  t_read := fun size w =>
    (firstn (Z.to_nat size) (rx w),
     mkWire (skipn (Z.to_nat size) (rx w)) (script w));
  t_reset_input_buffer := fun w => mkWire [] (script w)
}.

(** A session bound to a scripted device, with nothing done yet. *)
Definition bound (w : Wire) : World Wire :=
  mkWorld (Some w) None 115200 5 [] [] O O.

(** A host with no clock drift and one Preloader port. *)
Definition bench (w : Wire) : Host Wire := {|
  time_time := fun n => Z.of_nat n;
  comports := fun _ =>
    [ {| device := "/dev/ttyACM0"; vid := Some 0x0E8D; pid := Some 0x2000 |} ];
  serial_Serial := fun _ _ _ => Some w;
  open_read := fun _ => Some []
|}.

(** A host whose one Preloader port is listed with an empty device
    name. *)
Definition unnamed_port (w : Wire) : Host Wire := {|
  time_time := fun n => Z.of_nat n;
  comports := fun _ =>
    [ {| device := EmptyString; vid := Some 0x0E8D; pid := Some 0x2000 |} ];
  serial_Serial := fun _ _ _ => Some w;
  open_read := fun _ => Some []
|}.

(* ================================================================== *)
(** ** scripts/parse_da.py: a chip entry of a DA file *)

(** A field of a [struct] format string: [ns], [H], [I], [Q]. *)
Inductive Field : Type :=
| Fs (n : nat)
| FH
| FI
| FQ.

Definition field_size (f : Field) : nat :=
  match f with
  | Fs n => n
  | FH => 2
  | FI => 4
  | FQ => 8
  end.

(** What [struct.unpack] returns for a field: [bytes] for [ns], an
    integer for the others. *)
Inductive FieldValue : Type :=
| VBytes (b : bytes)
| VInt (v : Z).

(** [struct.calcsize('<' + fmt)]: with ['<'] there is no padding. *)
Fixpoint struct_calcsize (fmt : list Field) : nat :=
  match fmt with
  | [] => O
  | f :: rest => (field_size f + struct_calcsize rest)%nat
  end.

(** The fields of a buffer, one after the other, integers least
    significant byte first. *)
Fixpoint unpack_fields (fmt : list Field) (data : bytes)
  : list FieldValue :=
  match fmt with
  | [] => []
  | f :: rest =>
      match f with
      | Fs n => VBytes (firstn n data)
      | _ => VInt (le_value (firstn (field_size f) data))
      end :: unpack_fields rest (skipn (field_size f) data)
  end.

(** [struct.unpack('<' + fmt, data)] *)
Definition struct_unpack_le (fmt : list Field) (data : bytes)
  : Outcome (list FieldValue) :=
  if Nat.eqb (length data) (struct_calcsize fmt) then
    Ok (unpack_fields fmt data)
  else Raise StructError.

Module ParseDA.

(** The format string of [DAEntry.__init__]:
    ['<2sHIIIIIIIQIIIIIIIIIIIII128s']. *)
Definition entry_format : list Field :=
  [Fs 2; FH; FI; FI; FI; FI; FI; FI; FI; FQ;
   FI; FI; FI; FI; FI; FI; FI; FI; FI; FI; FI; FI; FI; Fs 128].

(** The attributes of a [DAEntry]. *)
Record DAEntry : Type := {
  chip_id : Z;
  chip_version : Z;
  firmware_version : Z;
  extra_version : Z
}.

(** How [DAEntry.__init__] fails: [struct.error] from [struct.unpack],
    or [ValueError('Invalid DA Entry magic.')]. *)
Inductive Failure : Type :=
| StructFailure
| InvalidEntryMagic.

(** [fields[i]] for a field that is [bytes]. *)
Definition bytes_field (i : nat) (fields : list FieldValue) : bytes :=
  match nth i fields (VBytes []) with
  | VBytes b => b
  | VInt _ => []
  end.

(** [fields[i]] for a field that is an integer. *)
Definition int_field (i : nat) (fields : list FieldValue) : Z :=
  match nth i fields (VInt 0) with
  | VInt v => v
  | VBytes _ => 0
  end.

(** [DAEntry.__init__(data)] *)
Definition DAEntry_init (data : bytes) : Failure + DAEntry :=
  match struct_unpack_le entry_format data with
  | Ok fields =>
      if negb (bytes_eqb (bytes_field 0 fields) [xda; xda]) then
        inl InvalidEntryMagic
      else
        inr {| chip_id := int_field 1 fields;
               chip_version := int_field 2 fields;
               firmware_version := int_field 3 fields;
               extra_version := int_field 4 fields |}
  | _ => inl StructFailure
  end.

End ParseDA.

(* ================================================================== *)
(** ** Scripted devices used in the examples *)

(** Answers the third sync probe; then echoes the first handshake byte
    correctly and the second one wrongly. *)
Definition late_device : Wire :=
  mkWire [] [[x00; x11]; []; [x5f]; [xf5]; [x00]; [xfa]].

(** Never answers. *)
Definition silent_device : Wire := mkWire [] [].

(** Answers the four identification commands; [h1 h0] is the hardware
    code, all statuses are zero. *)
Definition identity_device (h1 h0 : byte) : Wire :=
  mkWire []
         [[xfd; h1; h0; x00; x00];
          [xfc; x8a; x00; xca; x00; x00; x01; x00; x00];
          [xe1; x00; x00; x00; x02; xaa; xbb; x00; x00];
          [xe7; x00; x00; x00; x03; x01; x02; x03; x00; x00]].

(** Answers GET_HW_CODE and GET_HW_SW_VER, then reports an ME-ID of
    length zero. *)
Definition no_me_id_device : Wire :=
  mkWire []
         [[xfd; x12; x34; x00; x00];
          [xfc; x8a; x00; xca; x00; x00; x01; x00; x00];
          [xe1; x00; x00; x00; x00; xaa; xbb; x00; x00];
          [xe7; x00; x00; x00; x03; x01; x02; x03; x00; x00]].

(** Reports a SoC-ID of length zero. *)
Definition no_soc_id_device : Wire :=
  mkWire [] [[xe7; x00; x00; x00; x00]].

(** Echoes the SEND_DA header for address 0x200000, length 1024 and
    signature length 256 with status zero, and answers the payload with
    checksum 0xABCD and the status [s1 s0]. *)
Definition da_device (s1 s0 : byte) : Wire :=
  mkWire []
         [[xd7];
          [x00; x20; x00; x00];
          [x00; x00; x04; x00];
          [x00; x00; x01; x00; x00; x00];
          [xab; xcd; s1; s0]].

(** Refuses the SEND_DA header with status 0x1D0C. *)
Definition refusing_da_device : Wire :=
  mkWire []
         [[xd7];
          [x00; x20; x00; x00];
          [x00; x00; x04; x00];
          [x00; x00; x01; x00; x1d; x0c]].

(** A payload of 1024 bytes. *)
Definition payload_1k : bytes := repeat x5a 1024.

(** Echoes JUMP_DA and its address in full and reports status 0x0001. *)
Definition jump_device : Wire :=
  mkWire [] [[xd5]; [x00; x20; x00; x00; x00; x01]].

(** Echoes PWR_INIT, the register and the value in full, each field as
    it was sent, and reports [status] after the value. *)
Definition pmic_device (reg val : bytes) (status : bytes) : Wire :=
  mkWire [] [[xc4]; reg; val ++ status].

(** The command line [-i]. *)
Definition identify_only : Args :=
  {| mode_identify := true; mode_download_agent := false;
     payload := "bin/payload.bin"; verbose := false;
     arg_port := None; skip_handshake := false |}.

(* ================================================================== *)
(** * Properties *)

Unset Implicit Arguments.

(** ** The codec *)

Lemma Z_of_byte_range (b : byte) : 0 <= Z_of_byte b < 256.
Proof.
  unfold Z_of_byte. pose proof (Byte.to_N_bounded b). lia.
Qed.

Lemma Z_of_byte_of_Z (z : Z) : Z_of_byte (byte_of_Z z) = z mod 256.
Proof.
  unfold Z_of_byte, byte_of_Z.
  pose proof (Z.mod_pos_bound z 256 ltac:(lia)) as Hr.
  destruct (Byte.of_N (Z.to_N (z mod 256))) as [b|] eqn:E.
  - apply Byte.to_of_N in E. rewrite E. lia.
  - apply Byte.of_N_None_iff in E. lia.
Qed.

Lemma le_bytes_length (n : nat) (v : Z) : length (le_bytes n v) = n.
Proof.
  revert v. induction n as [|n IH]; intros v; simpl; [reflexivity|].
  now rewrite IH.
Qed.

Lemma le_value_le_bytes (n : nat) (v : Z) :
  le_value (le_bytes n v) = v mod 256 ^ Z.of_nat n.
Proof.
  revert v. induction n as [|n IH]; intros v.
  - simpl. now rewrite Z.mod_1_r.
  - cbn [le_bytes le_value]. rewrite IH, Z_of_byte_of_Z.
    rewrite Nat2Z.inj_succ, Z.pow_succ_r by lia.
    rewrite Z.rem_mul_r by lia. reflexivity.
Qed.

Lemma struct_round_trip (e : Endian) (f : Format) (v : Z) :
  0 <= v < 256 ^ Z.of_nat (calcsize f) ->
  exists bs, struct_pack e f v = Ok bs
             /\ length bs = calcsize f
             /\ struct_unpack e f bs = Ok v.
Proof.
  intros Hv. unfold struct_pack.
  assert ((0 <=? v) && (v <? 256 ^ Z.of_nat (calcsize f)) = true) as ->.
  { apply andb_true_intro. split; [apply Z.leb_le | apply Z.ltb_lt]; lia. }
  eexists. split; [reflexivity|].
  assert (length (match e with
                  | Little => le_bytes (calcsize f) v
                  | Big => rev (le_bytes (calcsize f) v)
                  end) = calcsize f) as Hlen.
  { destruct e; [rewrite length_rev|]; apply le_bytes_length. }
  split; [exact Hlen|].
  unfold struct_unpack. rewrite Hlen, Nat.eqb_refl.
  destruct e; [rewrite rev_involutive|];
    rewrite le_value_le_bytes, Z.mod_small by lia; reflexivity.
Qed.

(* ================================================================== *)
(** ** Properties of the codec *)

(** C1. For every width in {1,2,4}, both byte orders and every unsigned
    value that fits the width, [to_bytes] returns exactly [w] bytes and
    [from_bytes] decodes them back to the value. *)
Theorem codec_round_trip (w : Z) (e : Endian) (v : Z) :
  In w [1; 2; 4] ->
  0 <= v < 256 ^ w ->
  exists bs, to_bytes v w e = Ok bs
             /\ Z.of_nat (length bs) = w
             /\ from_bytes bs w e = Ok v.
Proof.
  intros Hw Hv.
  assert (exists f, Z.of_nat (calcsize f) = w
                    /\ to_bytes v w e = struct_pack e f v
                    /\ forall bs, from_bytes bs w e = struct_unpack e f bs)
    as (f & Hf & Hto & Hfrom).
  { simpl in Hw. destruct Hw as [<-|[<-|[<-|[]]]];
      [exists FmtB | exists FmtH | exists FmtI]; repeat split. }
  rewrite <- Hf in Hv.
  destruct (struct_round_trip e f v Hv) as (bs & Hp & Hl & Hu).
  exists bs. rewrite Hto, Hfrom, Hl. auto.
Qed.

Lemma codec_round_trip_witness :
  exists bs, to_bytes 0x1234 2 Big = Ok bs
             /\ Z.of_nat (length bs) = 2
             /\ from_bytes bs 2 Big = Ok 0x1234.
Proof.
  apply (codec_round_trip 2 Big 0x1234).
  - simpl. right. left. reflexivity.
  - lia.
Defined.

(** C2. For every width outside {1,2,4}, whatever the value, the buffer
    and the byte order, both [to_bytes] and [from_bytes] raise
    [RuntimeError('invalid size')]. *)
Theorem codec_invalid_width (w : Z) (v : Z) (buf : bytes) (e : Endian) :
  ~ In w [1; 2; 4] ->
  to_bytes v w e = Raise (RuntimeError InvalidSize)
  /\ from_bytes buf w e = Raise (RuntimeError InvalidSize).
Proof.
  intros Hw. simpl in Hw.
  unfold to_bytes, from_bytes.
  destruct w as [|p|p]; [split; reflexivity| |split; reflexivity].
  destruct p as [[[]|[]|]|[[]|[]|]|]; try (split; reflexivity);
    exfalso; apply Hw; auto.
Qed.

Lemma codec_invalid_width_witness :
  to_bytes 7 3 Little = Raise (RuntimeError InvalidSize)
  /\ from_bytes [x01; x02; x03] 3 Little = Raise (RuntimeError InvalidSize).
Proof.
  apply (codec_invalid_width 3 7 [x01; x02; x03] Little).
  simpl. intros [H|[H|[H|[]]]]; discriminate H.
Defined.

(* ================================================================== *)
(** ** More about the codec *)

Lemma le_value_range (bs : bytes) :
  0 <= le_value bs < 256 ^ Z.of_nat (length bs).
Proof.
  induction bs as [|b bs IH].
  - simpl. lia.
  - cbn [le_value length]. rewrite Nat2Z.inj_succ, Z.pow_succ_r by lia.
    pose proof (Z_of_byte_range b). lia.
Qed.

Lemma byte_of_Z_of_byte (b : byte) (x : Z) :
  byte_of_Z (Z_of_byte b + 256 * x) = b.
Proof.
  unfold byte_of_Z. pose proof (Z_of_byte_range b) as Hb.
  replace ((Z_of_byte b + 256 * x) mod 256) with (Z_of_byte b).
  - unfold Z_of_byte. rewrite N2Z.id, Byte.of_to_N. reflexivity.
  - apply (Z.mod_unique _ _ x); lia.
Qed.

Lemma le_bytes_le_value (bs : bytes) :
  le_bytes (length bs) (le_value bs) = bs.
Proof.
  induction bs as [|b bs IH]; [reflexivity|].
  cbn [length le_value le_bytes]. rewrite byte_of_Z_of_byte. f_equal.
  pose proof (Z_of_byte_range b) as Hb.
  replace ((Z_of_byte b + 256 * le_value bs) / 256) with (le_value bs);
    [exact IH|].
  apply (Z.div_unique _ _ _ (Z_of_byte b)); lia.
Qed.

Lemma struct_pack_out_of_range (e : Endian) (f : Format) (v : Z) :
  ~ (0 <= v < 256 ^ Z.of_nat (calcsize f)) ->
  struct_pack e f v = Raise StructError.
Proof.
  intros Hv. unfold struct_pack.
  destruct ((0 <=? v) && (v <? 256 ^ Z.of_nat (calcsize f))) eqn:R;
    [|reflexivity].
  apply andb_prop in R. destruct R as [R1 R2].
  apply Z.leb_le in R1. apply Z.ltb_lt in R2. lia.
Qed.

Lemma struct_unpack_pack (e : Endian) (f : Format) (bs : bytes) (v : Z) :
  struct_unpack e f bs = Ok v ->
  0 <= v < 256 ^ Z.of_nat (calcsize f) /\ struct_pack e f v = Ok bs.
Proof.
  unfold struct_unpack.
  destruct (Nat.eqb (length bs) (calcsize f)) eqn:L; [|discriminate].
  apply Nat.eqb_eq in L. intros E. injection E as <-.
  assert (0 <= match e with
               | Little => le_value bs
               | Big => le_value (rev bs)
               end < 256 ^ Z.of_nat (calcsize f)) as Hr.
  { rewrite <- L. destruct e; [rewrite <- (length_rev bs)|];
      apply le_value_range. }
  split; [exact Hr|].
  unfold struct_pack.
  assert ((0 <=? match e with
                 | Little => le_value bs
                 | Big => le_value (rev bs)
                 end)
          && (match e with
              | Little => le_value bs
              | Big => le_value (rev bs)
              end <? 256 ^ Z.of_nat (calcsize f)) = true) as ->.
  { apply andb_true_intro. split; [apply Z.leb_le | apply Z.ltb_lt]; lia. }
  f_equal. rewrite <- L. destruct e.
  - rewrite <- (length_rev bs), le_bytes_le_value. apply rev_involutive.
  - apply le_bytes_le_value.
Qed.

Lemma width_format (w : Z) :
  In w [1; 2; 4] ->
  exists f, Z.of_nat (calcsize f) = w
            /\ (forall v e, to_bytes v w e = struct_pack e f v)
            /\ (forall bs e, from_bytes bs w e = struct_unpack e f bs).
Proof.
  simpl. intros [<-|[<-|[<-|[]]]];
    [exists FmtB | exists FmtH | exists FmtI]; repeat split.
Qed.

Lemma width_not_listed (w : Z) :
  ~ In w [1; 2; 4] ->
  (forall v e, to_bytes v w e = Raise (RuntimeError InvalidSize))
  /\ (forall bs e, from_bytes bs w e = Raise (RuntimeError InvalidSize)).
Proof.
  intros Hw. simpl in Hw. unfold to_bytes, from_bytes.
  destruct w as [|p|p]; [split; reflexivity| |split; reflexivity].
  destruct p as [[[]|[]|]|[[]|[]|]|]; try (split; reflexivity);
    exfalso; apply Hw; auto.
Qed.

Lemma width_listed_dec (w : Z) : {In w [1; 2; 4]} + {~ In w [1; 2; 4]}.
Proof. apply (in_dec Z.eq_dec). Qed.

Lemma codec_round_trip_bytes (v w : Z) (e : Endian) :
  In w [1; 2; 4] ->
  0 <= v < 256 ^ w ->
  exists bs, to_bytes v w e = Ok bs
             /\ Z.of_nat (length bs) = w
             /\ from_bytes bs w e = Ok v.
Proof.
  intros Hw Hv. destruct (width_format w Hw) as (f & Hf & Hto & Hfrom).
  rewrite <- Hf in Hv.
  destruct (struct_round_trip e f v Hv) as (bs & Hp & Hl & Hu).
  exists bs. rewrite Hto, Hfrom, Hl. auto.
Qed.

Lemma to_bytes_accepts_parts (v w : Z) (e : Endian) :
  ((exists bs, to_bytes v w e = Ok bs)
   <-> In w [1; 2; 4] /\ 0 <= v < 256 ^ w)
  /\ (In w [1; 2; 4] -> ~ (0 <= v < 256 ^ w) ->
      to_bytes v w e = Raise StructError).
Proof.
  assert (In w [1; 2; 4] -> ~ (0 <= v < 256 ^ w) ->
          to_bytes v w e = Raise StructError) as Hout.
  { intros Hw Hv. destruct (width_format w Hw) as (f & Hf & Hto & _).
    rewrite Hto. apply struct_pack_out_of_range. now rewrite Hf. }
  split; [|exact Hout]. split.
  - intros (bs & E).
    destruct (width_listed_dec w) as [Hw|Hw].
    + split; [exact Hw|].
      destruct (Z_le_dec 0 v) as [H0|H0];
        [destruct (Z_lt_dec v (256 ^ w)) as [H1|H1]; [lia|]|];
        rewrite Hout in E by (auto; lia); discriminate E.
    + rewrite (proj1 (width_not_listed w Hw)) in E. discriminate E.
  - intros [Hw Hv]. destruct (width_format w Hw) as (f & Hf & Hto & _).
    rewrite <- Hf in Hv.
    destruct (struct_round_trip e f v Hv) as (bs & Hp & _).
    exists bs. now rewrite Hto.
Qed.

(** X1. [to_bytes] returns bytes exactly when the size is 1, 2 or 4 and
    the value is an unsigned integer that fits the size; with such a
    size, a negative or too large value raises [struct.error]. *)
Theorem to_bytes_accepts (v w : Z) (e : Endian) :
  ((exists bs, to_bytes v w e = Ok bs)
   <-> In w [1; 2; 4] /\ 0 <= v < 256 ^ w)
  /\ (In w [1; 2; 4] -> ~ (0 <= v < 256 ^ w) ->
      to_bytes v w e = Raise StructError).
Proof. exact (to_bytes_accepts_parts v w e). Qed.

Lemma to_bytes_accepts_witness :
  (exists bs, to_bytes 255 1 Big = Ok bs)
  /\ to_bytes 256 1 Big = Raise StructError
  /\ to_bytes (-1) 4 Little = Raise StructError.
Proof.
  split; [|split].
  - apply (proj1 (to_bytes_accepts 255 1 Big)). split; [simpl; auto | lia].
  - apply (proj2 (to_bytes_accepts 256 1 Big)); [simpl; auto | lia].
  - apply (proj2 (to_bytes_accepts (-1) 4 Little)); [simpl; auto | lia].
Defined.

Lemma from_bytes_accepts_parts (bs : bytes) (w : Z) (e : Endian) :
  ((exists v, from_bytes bs w e = Ok v)
   <-> In w [1; 2; 4] /\ Z.of_nat (length bs) = w)
  /\ (In w [1; 2; 4] -> Z.of_nat (length bs) <> w ->
      from_bytes bs w e = Raise StructError)
  /\ (forall v, from_bytes bs w e = Ok v -> 0 <= v < 256 ^ w).
Proof.
  assert (In w [1; 2; 4] -> Z.of_nat (length bs) <> w ->
          from_bytes bs w e = Raise StructError) as Hshort.
  { intros Hw Hl. destruct (width_format w Hw) as (f & Hf & _ & Hfrom).
    rewrite Hfrom. unfold struct_unpack.
    destruct (Nat.eqb (length bs) (calcsize f)) eqn:L; [|reflexivity].
    apply Nat.eqb_eq in L. lia. }
  split; [|split; [exact Hshort|]].
  - split.
    + intros (v & E). destruct (width_listed_dec w) as [Hw|Hw].
      * split; [exact Hw|].
        destruct (Z.eq_dec (Z.of_nat (length bs)) w) as [Hl|Hl]; [exact Hl|].
        rewrite (Hshort Hw Hl) in E. discriminate E.
      * rewrite (proj2 (width_not_listed w Hw)) in E. discriminate E.
    + intros [Hw Hl]. destruct (width_format w Hw) as (f & Hf & _ & Hfrom).
      rewrite Hfrom. unfold struct_unpack.
      assert (Nat.eqb (length bs) (calcsize f) = true) as ->
          by (apply Nat.eqb_eq; lia).
      eexists. reflexivity.
  - intros v E. destruct (width_listed_dec w) as [Hw|Hw].
    + destruct (width_format w Hw) as (f & Hf & _ & Hfrom).
      rewrite Hfrom in E. apply struct_unpack_pack in E. rewrite <- Hf.
      tauto.
    + rewrite (proj2 (width_not_listed w Hw)) in E. discriminate E.
Qed.

(** X2. [from_bytes] returns a value exactly when the size is 1, 2 or 4
    and the buffer has that many bytes; with such a size, a shorter or
    longer buffer raises [struct.error].  The value returned is an
    unsigned integer below [256 ^ size]. *)
Theorem from_bytes_accepts (bs : bytes) (w : Z) (e : Endian) :
  ((exists v, from_bytes bs w e = Ok v)
   <-> In w [1; 2; 4] /\ Z.of_nat (length bs) = w)
  /\ (In w [1; 2; 4] -> Z.of_nat (length bs) <> w ->
      from_bytes bs w e = Raise StructError)
  /\ (forall v, from_bytes bs w e = Ok v -> 0 <= v < 256 ^ w).
Proof. exact (from_bytes_accepts_parts bs w e). Qed.

Lemma from_bytes_accepts_witness :
  (exists v, from_bytes [x12; x34] 2 Big = Ok v)
  /\ from_bytes [x12] 2 Big = Raise StructError
  /\ 0 <= 0x1234 < 256 ^ 2.
Proof.
  destruct (from_bytes_accepts [x12; x34] 2 Big) as (Hiff & _ & Hrange).
  split; [|split].
  - apply (proj2 Hiff). split; [simpl; auto | reflexivity].
  - apply (proj1 (proj2 (from_bytes_accepts [x12] 2 Big)));
      [simpl; auto | discriminate].
  - apply (Hrange 0x1234). reflexivity.
Defined.

(** X3. Decoding then encoding gives the buffer back: when
    [from_bytes] returns [v] for a buffer, [to_bytes] of [v] with the
    same size and byte order is that buffer.  So two buffers that
    decode to the same value are equal. *)
Theorem decode_then_encode (bs : bytes) (w v : Z) (e : Endian) :
  from_bytes bs w e = Ok v ->
  to_bytes v w e = Ok bs
  /\ forall bs', from_bytes bs' w e = Ok v -> bs' = bs.
Proof.
  assert (forall b, from_bytes b w e = Ok v -> to_bytes v w e = Ok b) as Hback.
  { intros b E. destruct (width_listed_dec w) as [Hw|Hw].
    - destruct (width_format w Hw) as (f & Hf & Hto & Hfrom).
      rewrite Hfrom in E. rewrite Hto. now apply struct_unpack_pack in E.
    - rewrite (proj2 (width_not_listed w Hw)) in E. discriminate E. }
  intros E. split; [now apply Hback|].
  intros bs' E'. apply Hback in E. apply Hback in E'. congruence.
Qed.

Lemma decode_then_encode_witness :
  to_bytes 0x78563412 4 Little = Ok [x12; x34; x56; x78]
  /\ forall bs', from_bytes bs' 4 Little = Ok 0x78563412 ->
                 bs' = [x12; x34; x56; x78].
Proof.
  apply (decode_then_encode [x12; x34; x56; x78] 4 0x78563412 Little).
  reflexivity.
Defined.

(** X4. [bit(n)] is [2 ^ n] for [n >= 0] and raises for a negative
    [n]; it fits one byte, as [to_bytes(.., 1)] takes it, exactly for
    [0 <= n <= 7], and then it has binary digit [n] set and no
    other. *)
Theorem bit_of_a_byte (n : Z) (e : Endian) :
  (n < 0 -> bit n = None)
  /\ (0 <= n -> bit n = Some (2 ^ n))
  /\ (forall v, bit n = Some v ->
                ((exists bs, to_bytes v 1 e = Ok bs) <-> n <= 7)
                /\ forall m, 0 <= m -> Z.testbit v m = (n =? m)).
Proof.
  unfold bit. repeat split.
  - intros Hn. apply Z.ltb_lt in Hn. now rewrite Hn.
  - intros Hn. apply Z.ltb_ge in Hn. rewrite Hn.
    now rewrite Z.shiftl_1_l.
  - destruct (n <? 0) eqn:L; [discriminate|]. apply Z.ltb_ge in L.
    injection H as <-. rewrite Z.shiftl_1_l.
    intros Hex. apply (proj1 (to_bytes_accepts_parts (2 ^ n) 1 e)) in Hex.
    destruct Hex as [_ Hr].
    destruct (Z_le_dec n 7) as [Hle|Hgt]; [exact Hle|].
    assert (2 ^ 8 <= 2 ^ n) by (apply Z.pow_le_mono_r; lia). lia.
  - destruct (n <? 0) eqn:L; [discriminate|]. apply Z.ltb_ge in L.
    injection H as <-. rewrite Z.shiftl_1_l. intros Hn.
    apply (proj2 (proj1 (to_bytes_accepts_parts (2 ^ n) 1 e))).
    split; [simpl; auto|].
    assert (0 < 2 ^ n) by (apply Z.pow_pos_nonneg; lia).
    assert (2 ^ n <= 2 ^ 7) by (apply Z.pow_le_mono_r; lia). lia.
  - destruct (n <? 0) eqn:L; [discriminate|]. apply Z.ltb_ge in L.
    injection H as <-. rewrite Z.shiftl_1_l.
    intros m Hm. rewrite Z.pow2_bits_eqb by exact L. reflexivity.
Qed.

Lemma bit_of_a_byte_witness :
  bit (-1) = None
  /\ bit 7 = Some 128
  /\ ((exists bs, to_bytes 128 1 Big = Ok bs) <-> 7 <= 7)
  /\ Z.testbit 128 7 = true.
Proof.
  destruct (bit_of_a_byte (-1) Big) as (Hneg & _ & _).
  destruct (bit_of_a_byte 7 Big) as (_ & Hpos & Hfit).
  split; [apply Hneg; lia|]. split; [apply Hpos; lia|].
  destruct (Hfit 128 eq_refl) as [Hb Ht].
  split; [exact Hb|]. exact (Ht 7 ltac:(lia)).
Defined.

(* ================================================================== *)
(** ** The opcode table *)

Lemma opcode_range (c : Command) : 0xA1 <= value c <= 0xFF.
Proof. destruct c; cbn; lia. Qed.

(** X5. No two commands of the enumeration share a value (an [Enum]
    would make the second an alias of the first); every value lies
    between 0xA1 and 0xFF, so it is none of the handshake bytes, and
    [to_bytes(Command.X.value, 1)] is one byte that decodes back to the
    value. *)
Theorem opcodes_are_distinct_bytes :
  (forall a b : Command, a <> b -> value a <> value b)
  /\ (forall c : Command,
         0xA1 <= value c <= 0xFF
         /\ ~ In (value c) [0xA0; 0x5F; 0x0A; 0xF5; 0x50; 0xAF; 0x05; 0xFA]
         /\ exists b : byte,
              to_bytes (value c) 1 Big = Ok [b]
              /\ from_bytes [b] 1 Big = Ok (value c)).
Proof.
  split.
  - intros a b Hne E. apply Hne.
    destruct a; destruct b; try reflexivity; discriminate E.
  - intros c. pose proof (opcode_range c) as Hr. split; [exact Hr|]. split.
    + clear Hr. destruct c; simpl;
        intros [E|[E|[E|[E|[E|[E|[E|[E|[]]]]]]]]]; discriminate E.
    + assert (In 1 [1; 2; 4]) as H1 by (simpl; auto).
      assert (0 <= value c < 256 ^ 1) as H2 by lia.
      destruct (codec_round_trip_bytes (value c) 1 Big H1 H2)
        as (bs & Hto & Hl & Hfrom).
      destruct bs as [|b [|b' bs]];
        [discriminate Hl | | cbn [length] in Hl; lia].
      exists b. split; assumption.
Qed.

(* ================================================================== *)
(** ** Basic facts about the session *)

Lemma bytes_eqb_eq (a b : bytes) : bytes_eqb a b = true <-> a = b.
Proof.
  revert b. induction a as [|x a IH]; intros [|y b]; simpl;
    try (split; [discriminate | discriminate]); try tauto.
  rewrite andb_true_iff, IH. split.
  - intros [Hx ->]. apply byte_dec_bl in Hx. now subst.
  - intros E. injection E as -> ->. split; [now apply byte_dec_lb | reflexivity].
Qed.

Lemma bytes_eqb_neq (a b : bytes) : bytes_eqb a b = false <-> a <> b.
Proof.
  rewrite <- bytes_eqb_eq. destruct (bytes_eqb a b); split; congruence.
Qed.

Lemma writes_of_app (a b : list Event) :
  writes_of (a ++ b) = writes_of a ++ writes_of b.
Proof.
  induction a as [|[data|size data|] a IH]; simpl; rewrite ?IH; reflexivity.
Qed.

Lemma resets_of_app (a b : list Event) :
  resets_of (a ++ b) = (resets_of a + resets_of b)%nat.
Proof.
  induction a as [|[data|size data|] a IH]; simpl; rewrite ?IH; reflexivity.
Qed.

Section Properties.

Context {T : Type} `{Transport T}.
Variable host : Host T.

#[local] Abbreviation W := (World T).

Lemma played_played (d1 d2 : T) (e1 e2 : list Event) (w : W) :
  played d2 e2 (played d1 e1 w) = played d2 (e1 ++ e2) w.
Proof. unfold played. cbn. now rewrite <- app_assoc. Qed.

Lemma played_nil (d : T) (w : W) : dev w = Some d -> played d [] w = w.
Proof.
  destruct w; cbn. intros ->. unfold played. cbn. now rewrite app_nil_r.
Qed.

Lemma dev_played (d : T) (evs : list Event) (w : W) :
  dev (played d evs w) = Some d.
Proof. reflexivity. Qed.

(* ---------------------------------------------------------------- *)
(** *** The synchronization loop *)

Lemma handshake_sync_step (fuel : nat) (d : T) (w : W) :
  dev w = Some d ->
  handshake_sync (S fuel) w =
  if bytes_eqb (fst (probe d)) [x5f]
  then (Ok tt, played (snd (probe d))
                      [EvWrite [xa0]; EvRead 1 (fst (probe d))] w)
  else handshake_sync fuel
         (played (miss d) (missed_probe (fst (probe d))) w).
Proof.
  intros Hd. cbn [handshake_sync]. unfold bind at 1. unfold dev_write at 1.
  rewrite Hd. unfold bind at 1. unfold dev_read at 1.
  rewrite dev_played. unfold miss, probe.
  destruct (t_read 1 (t_write [xa0] d)) as [r d'] eqn:E. cbn [fst snd].
  rewrite played_played. cbn [app].
  destruct (bytes_eqb r [x5f]); [reflexivity|].
  unfold bind at 1. unfold dev_reset_input_buffer at 1.
  rewrite dev_played, played_played. reflexivity.
Qed.

Lemma replies_prefix (P : bytes -> Prop) (n : nat) :
  forall (m : nat) (d : T),
    (n <= m)%nat -> Forall P (replies m d) -> Forall P (replies n d).
Proof.
  induction n as [|n IH]; intros m d Hle HP; [constructor|].
  destruct m as [|m]; [lia|]. cbn [replies] in *.
  inversion HP; subst. constructor; [assumption|].
  apply (IH m); [lia | assumption].
Qed.

Lemma sync_all_missed (fuel : nat) :
  forall (d : T) (w : W),
    dev w = Some d ->
    Forall garbage (replies fuel d) ->
    handshake_sync fuel w =
    (OutOfFuel,
     played (misses fuel d) (flat_map missed_probe (replies fuel d)) w).
Proof.
  induction fuel as [|fuel IH]; intros d w Hd Hg.
  - cbn. unfold out_of_fuel. now rewrite played_nil.
  - rewrite (handshake_sync_step fuel d w Hd).
    cbn [replies] in Hg. inversion Hg as [|r rs Hr Hrs]; subst.
    apply bytes_eqb_neq in Hr. rewrite Hr.
    rewrite (IH (miss d) _ (dev_played _ _ _) Hrs).
    rewrite played_played. reflexivity.
Qed.

Lemma sync_hit (n : nat) :
  forall (d : T) (w : W) (fuel : nat),
    dev w = Some d ->
    Forall garbage (replies n d) ->
    fst (probe (misses n d)) = [x5f] ->
    (n < fuel)%nat ->
    handshake_sync fuel w =
    (Ok tt,
     played (snd (probe (misses n d)))
            (flat_map missed_probe (replies n d)
             ++ [EvWrite [xa0]; EvRead 1 [x5f]]) w).
Proof.
  induction n as [|n IH]; intros d w fuel Hd Hg Hhit Hlt;
    (destruct fuel as [|fuel]; [lia|]);
    rewrite (handshake_sync_step fuel d w Hd).
  - cbn [misses] in Hhit. rewrite Hhit. reflexivity.
  - cbn [replies] in Hg. inversion Hg as [|r rs Hr Hrs]; subst.
    apply bytes_eqb_neq in Hr. rewrite Hr.
    rewrite (IH (miss d) _ fuel (dev_played _ _ _) Hrs Hhit ltac:(lia)).
    rewrite played_played. reflexivity.
Qed.

Lemma writes_of_missed (rs : list bytes) :
  writes_of (flat_map missed_probe rs) = repeat [xa0] (length rs).
Proof. induction rs as [|r rs IH]; simpl; [|rewrite IH]; reflexivity. Qed.

Lemma resets_of_missed (rs : list bytes) :
  resets_of (flat_map missed_probe rs) = length rs.
Proof. induction rs as [|r rs IH]; simpl; [|rewrite IH]; reflexivity. Qed.

Lemma replies_length (n : nat) (d : T) : length (replies n d) = n.
Proof.
  revert d. induction n as [|n IH]; intros d; simpl; [|rewrite IH];
    reflexivity.
Qed.

(** C3. If the port answers the first [N-1] probes of the loop with
    something other than [0x5F] (or with nothing) and the [N]-th with
    [0x5F], then with any fuel of at least [N] the loop of
    [handshake] returns after exactly these calls: [N-1] times write
    [0xA0], read one byte, flush; then write [0xA0] and read [0x5F].
    So [0xA0] is written [N] times and the buffer flushed [N-1]
    times, and with less fuel than [N] the loop is still running.
    If [0x5F] never arrives the loop is still running after any
    number of iterations. *)
Theorem handshake_sync_spec :
  (forall (N : nat) (d : T) (w : W),
      dev w = Some d ->
      (1 <= N)%nat ->
      Forall garbage (replies (N - 1) d) ->
      fst (probe (misses (N - 1) d)) = [x5f] ->
      let calls := flat_map missed_probe (replies (N - 1) d)
                   ++ [EvWrite [xa0]; EvRead 1 [x5f]] in
      (forall fuel, (N <= fuel)%nat ->
         handshake_sync fuel w
         = (Ok tt, played (snd (probe (misses (N - 1) d))) calls w))
      /\ (forall fuel, (fuel < N)%nat ->
            fst (handshake_sync fuel w) = OutOfFuel)
      /\ writes_of calls = repeat [xa0] N
      /\ resets_of calls = (N - 1)%nat)
  /\ (forall (d : T) (w : W),
        dev w = Some d ->
        (forall n, Forall garbage (replies n d)) ->
        forall fuel,
          handshake_sync fuel w
          = (OutOfFuel,
             played (misses fuel d)
                    (flat_map missed_probe (replies fuel d)) w)).
Proof.
  split.
  - intros N d w Hd HN Hg Hhit calls. repeat split.
    + intros fuel Hf. apply sync_hit; try assumption. lia.
    + intros fuel Hf. rewrite (sync_all_missed fuel d w Hd); [reflexivity|].
      apply (replies_prefix garbage fuel (N - 1)); [lia | assumption].
    + unfold calls. rewrite writes_of_app, writes_of_missed, replies_length.
      cbn [writes_of]. replace N with ((N - 1) + 1)%nat at 2 by lia.
      now rewrite repeat_app.
    + unfold calls. rewrite resets_of_app, resets_of_missed, replies_length.
      cbn. lia.
  - intros d w Hd Hg fuel. apply sync_all_missed; auto.
Qed.

(* ---------------------------------------------------------------- *)
(** *** Single calls on a bound port *)

Lemma bind_ok {A B : Type} (c : M W A) (k : A -> M W B) (w w1 : W) (a : A) :
  c w = (Ok a, w1) -> (x <- c ;; k x) w = k a w1.
Proof. intros E. unfold bind. now rewrite E. Qed.

Lemma bind_raise {A B : Type} (c : M W A) (k : A -> M W B) (w w1 : W)
      (e : Exception) :
  c w = (Raise e, w1) -> (x <- c ;; k x) w = (Raise e, w1).
Proof. intros E. unfold bind. now rewrite E. Qed.

Lemma bind_out_of_fuel {A B : Type} (c : M W A) (k : A -> M W B)
      (w w1 : W) :
  c w = (OutOfFuel, w1) -> (x <- c ;; k x) w = (OutOfFuel, w1).
Proof. intros E. unfold bind. now rewrite E. Qed.

Lemma dev_write_run (data : bytes) (d : T) (w : W) :
  dev w = Some d ->
  dev_write data w = (Ok tt, played (t_write data d) [EvWrite data] w).
Proof. intros Hd. unfold dev_write. now rewrite Hd. Qed.

Lemma dev_read_run (size : Z) (d : T) (w : W) :
  dev w = Some d ->
  dev_read size w
  = (Ok (fst (t_read size d)),
     played (snd (t_read size d)) [EvRead size (fst (t_read size d))] w).
Proof.
  intros Hd. unfold dev_read. rewrite Hd.
  now destruct (t_read size d).
Qed.

Lemma echo_run (words : bytes) (size : Z) (d : T) (w : W) :
  dev w = Some d ->
  echo words size w
  = (Ok tt,
     played (snd (t_read size (t_write words d)))
            [EvWrite words;
             EvRead size (fst (t_read size (t_write words d)))] w).
Proof.
  intros Hd. unfold echo.
  rewrite (bind_ok _ _ _ _ _ (dev_write_run words d w Hd)).
  rewrite (bind_ok _ _ _ _ _ (dev_read_run size _ _ (dev_played _ _ _))).
  unfold ret. now rewrite played_played.
Qed.

Lemma wr_run (data : bytes) (size : Z) (d : T) (w : W) :
  dev w = Some d ->
  wr data size w
  = (Ok (fst (t_read size (t_write data d))),
     played (snd (t_read size (t_write data d)))
            [EvWrite data;
             EvRead size (fst (t_read size (t_write data d)))] w).
Proof.
  intros Hd. unfold wr.
  rewrite (bind_ok _ _ _ _ _ (dev_write_run data d w Hd)).
  rewrite (dev_read_run size _ _ (dev_played _ _ _)).
  now rewrite played_played.
Qed.

Lemma check_same (b : bytes) : check b b = Ok true.
Proof.
  unfold check. now rewrite (proj2 (bytes_eqb_eq b b) eq_refl).
Qed.

Lemma check_differ (test expected : bytes) :
  test <> expected ->
  check test expected = Raise (RuntimeError (Expected expected test)).
Proof.
  intros Hne. unfold check. apply bytes_eqb_neq in Hne. now rewrite Hne.
Qed.

(** Run the next call of a sequence on a bound port. *)
Ltac bound_port := first [eassumption | apply dev_played].
Ltac next :=
  erewrite bind_ok
    by (first [apply echo_run | apply wr_run
              | apply dev_write_run | apply dev_read_run]; bound_port);
  rewrite ?played_played; cbn [app].

(* ---------------------------------------------------------------- *)
(** *** The three checked exchanges *)

Lemma handshake_after_sync (fuel : nat) (w w1 : W) :
  handshake_sync fuel w = (Ok tt, w1) ->
  handshake fuel w = handshake_probes w1.
Proof. intros E. unfold handshake. now rewrite (bind_ok _ _ _ _ _ E). Qed.

Lemma session_stops_with_handshake (fuel : nat) (args : Args) (w w' : W)
      (e : Exception) :
  skip_handshake args = false ->
  handshake fuel w = (Raise e, w') ->
  session host fuel args w = (Raise e, w').
Proof.
  intros Hs E. unfold session. rewrite Hs. cbn [negb].
  now rewrite (bind_raise _ _ _ _ _ E).
Qed.

(** C4. Once synchronized, [handshake] writes [0x0A], [0x50], [0x05]
    in that order and reads one byte after each, which has to be
    [0xF5], [0xAF], [0xFA].  At the first exchange whose byte differs
    it raises [RuntimeError('Expected ..., got ...')] and the calls
    made on the port end with the read of that byte: no later probe
    byte is written.  The rest of the session ([identify] and what
    follows) is then not run at all. *)
Theorem handshake_mismatch_is_fatal :
  forall (fuel : nat) (w w1 : W) (d : T),
    handshake_sync fuel w = (Ok tt, w1) ->
    dev w1 = Some d ->
    let x1 := t_read 1 (t_write [x0a] d) in
    let x2 := t_read 1 (t_write [x50] (snd x1)) in
    let x3 := t_read 1 (t_write [x05] (snd x2)) in
    (fst x1 <> [xf5] ->
     handshake fuel w
     = (Raise (RuntimeError (Expected [xf5] (fst x1))),
        played (snd x1) [EvWrite [x0a]; EvRead 1 (fst x1)] w1))
    /\ (fst x1 = [xf5] -> fst x2 <> [xaf] ->
        handshake fuel w
        = (Raise (RuntimeError (Expected [xaf] (fst x2))),
           played (snd x2)
                  [EvWrite [x0a]; EvRead 1 [xf5];
                   EvWrite [x50]; EvRead 1 (fst x2)] w1))
    /\ (fst x1 = [xf5] -> fst x2 = [xaf] -> fst x3 <> [xfa] ->
        handshake fuel w
        = (Raise (RuntimeError (Expected [xfa] (fst x3))),
           played (snd x3)
                  [EvWrite [x0a]; EvRead 1 [xf5];
                   EvWrite [x50]; EvRead 1 [xaf];
                   EvWrite [x05]; EvRead 1 (fst x3)] w1))
    /\ (fst x1 = [xf5] -> fst x2 = [xaf] -> fst x3 = [xfa] ->
        handshake fuel w
        = (Ok tt,
           logged [LogHandshakeCompleted]
                  (played (snd x3)
                          [EvWrite [x0a]; EvRead 1 [xf5];
                           EvWrite [x50]; EvRead 1 [xaf];
                           EvWrite [x05]; EvRead 1 [xfa]] w1)))
    /\ (forall (args : Args) (e : Exception) (w' : W),
           skip_handshake args = false ->
           handshake fuel w = (Raise e, w') ->
           session host fuel args w = (Raise e, w')).
Proof.
  intros fuel w w1 d Hsync Hd x1 x2 x3.
  rewrite (handshake_after_sync fuel w w1 Hsync).
  assert (forall r, (_ <- lift (check r r) ;; logging_info LogHandshakeCompleted)
                    = logging_info LogHandshakeCompleted :> M W unit) as Hlast.
  { intros r. unfold bind, lift. now rewrite check_same. }
  repeat split.
  - intros H1. unfold handshake_probes. next.
    unfold bind at 1, lift at 1. fold x1. now rewrite (check_differ _ _ H1).
  - intros H1 H2. unfold handshake_probes. next. fold x1. rewrite H1.
    unfold bind at 1, lift at 1. rewrite check_same. next. fold x2.
    unfold bind at 1, lift at 1. now rewrite (check_differ _ _ H2).
  - intros H1 H2 H3. unfold handshake_probes. next. fold x1. rewrite H1.
    unfold bind at 1, lift at 1. rewrite check_same. next. fold x2.
    rewrite H2.
    unfold bind at 1, lift at 1. rewrite check_same. next. fold x3.
    unfold bind at 1, lift at 1. now rewrite (check_differ _ _ H3).
  - intros H1 H2 H3. unfold handshake_probes. next. fold x1. rewrite H1.
    unfold bind at 1, lift at 1. rewrite check_same. next. fold x2.
    rewrite H2.
    unfold bind at 1, lift at 1. rewrite check_same. next. fold x3.
    rewrite H3.
    unfold bind at 1, lift at 1. rewrite check_same. reflexivity.
  - intros args e w' Hs E.
    apply session_stops_with_handshake; [assumption|].
    now rewrite (handshake_after_sync fuel w w1 Hsync).
Qed.

(* ---------------------------------------------------------------- *)
(** *** The commands, call by call *)

Lemma bind_lift {A B : Type} (o : Outcome A) (k : A -> M W B) (w : W) :
  (x <- lift o ;; k x) w
  = match o with
    | Ok a => k a w
    | Raise e => (Raise e, w)
    | OutOfFuel => (OutOfFuel, w)
    end.
Proof. unfold bind, lift. now destruct o. Qed.

Lemma bind_log {B : Type} (r : LogRecord) (k : unit -> M W B) (w : W) :
  (x <- logging_info r ;; k x) w = k tt (logged [r] w).
Proof. reflexivity. Qed.

Lemma played_logged (d : T) (evs : list Event) (rs : list LogRecord)
      (w : W) :
  played d evs (logged rs w) = logged rs (played d evs w).
Proof. reflexivity. Qed.

Lemma logged_logged (r1 r2 : list LogRecord) (w : W) :
  logged r2 (logged r1 w) = logged (r1 ++ r2) w.
Proof. unfold logged. cbn. now rewrite <- app_assoc. Qed.

Lemma status_test_run {A : Type} (status : bytes) (k : M W A) (o : Outcome A)
      (w : W) :
  k w = (o, w) ->
  (st <- lift (from_bytes status 2 Big) ;;
   if negb (st =? 0) then
     code <- lift (from_bytes status 2 Big) ;;
     raise (RuntimeError (StatusIs code))
   else k) w
  = (after_status status o, w).
Proof.
  intros Hk. rewrite bind_lift. unfold after_status.
  destruct (from_bytes status 2 Big) as [st|e|] eqn:E; try reflexivity.
  destruct (st =? 0); cbn [negb]; [exact Hk|].
  now rewrite bind_lift.
Qed.

Lemma get_hw_code_run (d : T) (w : W) :
  dev w = Some d ->
  let e := t_read 1 (t_write [xfd] d) in
  let h := t_read 2 (snd e) in
  let s := t_read 2 (snd h) in
  get_hw_code w
  = (after_status (fst s) (from_bytes (fst h) 2 Big),
     played (snd s)
            [EvWrite [xfd]; EvRead 1 (fst e);
             EvRead 2 (fst h); EvRead 2 (fst s)] w).
Proof.
  intros Hd. cbv zeta. unfold get_hw_code. rewrite bind_lift.
  change (to_bytes (value GET_HW_CODE) 1 Big) with (Ok [xfd]). cbv iota beta.
  do 3 next. now apply status_test_run.
Qed.

Lemma get_hw_sw_ver_run (d : T) (w : W) :
  dev w = Some d ->
  let e := t_read 1 (t_write [xfc] d) in
  let a := t_read 2 (snd e) in
  let b := t_read 2 (snd a) in
  let c := t_read 2 (snd b) in
  let s := t_read 2 (snd c) in
  get_hw_sw_ver w
  = (after_status (fst s) (versions (fst a) (fst b) (fst c)),
     played (snd s)
            [EvWrite [xfc]; EvRead 1 (fst e); EvRead 2 (fst a);
             EvRead 2 (fst b); EvRead 2 (fst c); EvRead 2 (fst s)] w).
Proof.
  intros Hd. cbv zeta. unfold get_hw_sw_ver. rewrite bind_lift.
  change (to_bytes (value GET_HW_SW_VER) 1 Big) with (Ok [xfc]).
  cbv iota beta. do 5 next. apply status_test_run.
  rewrite !bind_lift. unfold versions.
  repeat match goal with
         | |- context [from_bytes ?x 2 Big] =>
             destruct (from_bytes x 2 Big); try reflexivity
         end.
Qed.

Lemma get_me_id_run (d : T) (w : W) :
  dev w = Some d ->
  let e := t_read 1 (t_write [xe1] d) in
  get_me_id w
  = identity_outcome MeIdLengthIsZero (snd e)
                     [EvWrite [xe1]; EvRead 1 (fst e)] w.
Proof.
  intros Hd. cbv zeta. unfold get_me_id, identity_outcome.
  rewrite bind_lift.
  change (to_bytes (value GET_ME_ID) 1 Big) with (Ok [xe1]). cbv iota beta.
  do 2 next. rewrite bind_lift. cbn [app].
  destruct (from_bytes _ 4 Big) as [n|x|]; try reflexivity.
  destruct (n =? 0); [reflexivity|].
  do 2 next. now apply status_test_run.
Qed.

Lemma get_soc_id_run (d : T) (w : W) :
  dev w = Some d ->
  let e := t_read 1 (t_write [xe7] d) in
  get_soc_id w
  = identity_outcome SocIdLengthIsZero (snd e)
                     [EvWrite [xe7]; EvRead 1 (fst e)] w.
Proof.
  intros Hd. cbv zeta. unfold get_soc_id, identity_outcome.
  rewrite bind_lift.
  change (to_bytes (value GET_SOC_ID) 1 Big) with (Ok [xe7]). cbv iota beta.
  do 2 next. rewrite bind_lift. cbn [app].
  destruct (from_bytes _ 4 Big) as [n|x|]; try reflexivity.
  destruct (n =? 0); [reflexivity|].
  do 2 next. now apply status_test_run.
Qed.

(* ---------------------------------------------------------------- *)
(** *** What a command leaves behind *)

Lemma identity_outcome_io (empty : Message) (d0 : T) (pre : list Event)
      (w : W) :
  exists (d' : T) (evs : list Event),
    snd (identity_outcome empty d0 pre w) = played d' (pre ++ evs) w
    /\ writes_of evs = [].
Proof.
  unfold identity_outcome. cbv zeta.
  destruct (from_bytes _ 4 Big) as [n|x|];
    [destruct (n =? 0)| |]; cbn [snd]; rewrite <- ?app_assoc;
    eexists; eexists; (split; [reflexivity|reflexivity]).
Qed.

Lemma get_hw_code_io (d : T) (w : W) :
  dev w = Some d ->
  exists (d' : T) (evs : list Event),
    snd (get_hw_code w) = played d' evs w /\ writes_of evs = [[xfd]].
Proof.
  intros Hd. rewrite (get_hw_code_run d w Hd). cbn [snd].
  eexists; eexists; split; reflexivity.
Qed.

Lemma get_hw_sw_ver_io (d : T) (w : W) :
  dev w = Some d ->
  exists (d' : T) (evs : list Event),
    snd (get_hw_sw_ver w) = played d' evs w /\ writes_of evs = [[xfc]].
Proof.
  intros Hd. rewrite (get_hw_sw_ver_run d w Hd). cbn [snd].
  eexists; eexists; split; reflexivity.
Qed.

Lemma get_me_id_io (d : T) (w : W) :
  dev w = Some d ->
  exists (d' : T) (evs : list Event),
    snd (get_me_id w) = played d' evs w /\ writes_of evs = [[xe1]].
Proof.
  intros Hd. rewrite (get_me_id_run d w Hd).
  destruct (identity_outcome_io MeIdLengthIsZero
              (snd (t_read 1 (t_write [xe1] d)))
              [EvWrite [xe1]; EvRead 1 (fst (t_read 1 (t_write [xe1] d)))] w)
    as (d' & evs & -> & Hw).
  eexists; eexists; split; [reflexivity|].
  rewrite writes_of_app, Hw. reflexivity.
Qed.

Lemma get_soc_id_io (d : T) (w : W) :
  dev w = Some d ->
  exists (d' : T) (evs : list Event),
    snd (get_soc_id w) = played d' evs w /\ writes_of evs = [[xe7]].
Proof.
  intros Hd. rewrite (get_soc_id_run d w Hd).
  destruct (identity_outcome_io SocIdLengthIsZero
              (snd (t_read 1 (t_write [xe7] d)))
              [EvWrite [xe7]; EvRead 1 (fst (t_read 1 (t_write [xe7] d)))] w)
    as (d' & evs & -> & Hw).
  eexists; eexists; split; [reflexivity|].
  rewrite writes_of_app, Hw. reflexivity.
Qed.

(** The port is still bound after each of the four commands, the log
    is untouched, and exactly the four opcodes were written. *)
Lemma identification_io (d : T) (w : W) :
  dev w = Some d ->
  let w1 := snd (get_hw_code w) in
  let w2 := snd (get_hw_sw_ver w1) in
  let w3 := snd (get_me_id w2) in
  let w4 := snd (get_soc_id w3) in
  (log w1 = log w /\ log w2 = log w /\ log w3 = log w /\ log w4 = log w)
  /\ writes_of (trace w4)
     = writes_of (trace w) ++ [[xfd]; [xfc]; [xe1]; [xe7]].
Proof.
  intros Hd. cbv zeta.
  destruct (get_hw_code_io d w Hd) as (d1 & ev1 & -> & Hw1).
  destruct (get_hw_sw_ver_io d1 (played d1 ev1 w) eq_refl)
    as (d2 & ev2 & -> & Hw2).
  destruct (get_me_id_io d2 (played d2 ev2 (played d1 ev1 w)) eq_refl)
    as (d3 & ev3 & -> & Hw3).
  destruct (get_soc_id_io d3
              (played d3 ev3 (played d2 ev2 (played d1 ev1 w))) eq_refl)
    as (d4 & ev4 & -> & Hw4).
  rewrite !played_played. cbn [log trace played].
  repeat split.
  rewrite !writes_of_app, Hw1, Hw2, Hw3, Hw4. reflexivity.
Qed.

Lemma identify_aborts (w : W) (e : Exception) :
  (forall w1, get_hw_code w = (Raise e, w1) -> identify w = (Raise e, w1))
  /\ (forall hw w1 w2,
         get_hw_code w = (Ok hw, w1) ->
         get_hw_sw_ver w1 = (Raise e, w2) ->
         identify w = (Raise e, w2))
  /\ (forall hw vs w1 w2 w3,
         get_hw_code w = (Ok hw, w1) ->
         get_hw_sw_ver w1 = (Ok vs, w2) ->
         get_me_id w2 = (Raise e, w3) ->
         identify w = (Raise e, w3))
  /\ (forall hw vs me w1 w2 w3 w4,
         get_hw_code w = (Ok hw, w1) ->
         get_hw_sw_ver w1 = (Ok vs, w2) ->
         get_me_id w2 = (Ok me, w3) ->
         get_soc_id w3 = (Raise e, w4) ->
         identify w = (Raise e, w4)).
Proof.
  unfold identify. repeat split.
  - intros w1 E1. now rewrite (bind_raise _ _ _ _ _ E1).
  - intros hw w1 w2 E1 E2. rewrite (bind_ok _ _ _ _ _ E1).
    now rewrite (bind_raise _ _ _ _ _ E2).
  - intros hw [[a b] c] w1 w2 w3 E1 E2 E3. rewrite (bind_ok _ _ _ _ _ E1).
    rewrite (bind_ok _ _ _ _ _ E2). now rewrite (bind_raise _ _ _ _ _ E3).
  - intros hw [[a b] c] me w1 w2 w3 w4 E1 E2 E3 E4.
    rewrite (bind_ok _ _ _ _ _ E1), (bind_ok _ _ _ _ _ E2).
    rewrite (bind_ok _ _ _ _ _ E3). now rewrite (bind_raise _ _ _ _ _ E4).
Qed.

Lemma identify_success (w w1 w2 w3 w4 : W) (hw : Z) (vs : Z * Z * Z)
      (me soc : bytes) :
  get_hw_code w = (Ok hw, w1) ->
  get_hw_sw_ver w1 = (Ok vs, w2) ->
  get_me_id w2 = (Ok me, w3) ->
  get_soc_id w3 = (Ok soc, w4) ->
  identify w
  = (Ok tt,
     logged [LogHwCode hw; LogHwSubCode (fst (fst vs));
             LogHwVersion (snd (fst vs)); LogSwVersion (snd vs);
             LogMeId me; LogSocId soc] w4).
Proof.
  intros E1 E2 E3 E4. destruct vs as [[a b] c]. unfold identify.
  rewrite (bind_ok _ _ _ _ _ E1), (bind_ok _ _ _ _ _ E2).
  rewrite (bind_ok _ _ _ _ _ E3), (bind_ok _ _ _ _ _ E4).
  rewrite !bind_log. unfold logging_info. rewrite !logged_logged.
  reflexivity.
Qed.

Lemma identify_failure_logs_nothing (d : T) (w w' : W) (e : Exception) :
  dev w = Some d ->
  identify w = (Raise e, w') ->
  log w' = log w.
Proof.
  intros Hd E.
  destruct (identification_io d w Hd) as ((L1 & L2 & L3 & L4) & _).
  cbv zeta in *. unfold identify in E.
  destruct (get_hw_code w) as [[hw|e1|] w1] eqn:E1; cbn [snd] in *;
    [rewrite (bind_ok _ _ _ _ _ E1) in E
    |rewrite (bind_raise _ _ _ _ _ E1) in E; injection E as <- <-; exact L1
    |rewrite (bind_out_of_fuel _ _ _ _ E1) in E; discriminate E].
  destruct (get_hw_sw_ver w1) as [[[[a b] c]|e2|] w2] eqn:E2; cbn [snd] in *;
    [rewrite (bind_ok _ _ _ _ _ E2) in E
    |rewrite (bind_raise _ _ _ _ _ E2) in E; injection E as <- <-; exact L2
    |rewrite (bind_out_of_fuel _ _ _ _ E2) in E; discriminate E].
  destruct (get_me_id w2) as [[me|e3|] w3] eqn:E3; cbn [snd] in *;
    [rewrite (bind_ok _ _ _ _ _ E3) in E
    |rewrite (bind_raise _ _ _ _ _ E3) in E; injection E as <- <-; exact L3
    |rewrite (bind_out_of_fuel _ _ _ _ E3) in E; discriminate E].
  destruct (get_soc_id w3) as [[soc|e4|] w4] eqn:E4; cbn [snd] in *;
    [rewrite (bind_ok _ _ _ _ _ E4) in E
    |rewrite (bind_raise _ _ _ _ _ E4) in E; injection E as <- <-; exact L4
    |rewrite (bind_out_of_fuel _ _ _ _ E4) in E; discriminate E].
  discriminate E.
Qed.

Lemma after_status_ok {A : Type} (status : bytes) (k : Outcome A) (v : A) :
  after_status status k = Ok v ->
  from_bytes status 2 Big = Ok 0 /\ k = Ok v.
Proof.
  unfold after_status.
  destruct (from_bytes status 2 Big) as [st|e|]; try discriminate.
  destruct (st =? 0) eqn:E; [|discriminate].
  apply Z.eqb_eq in E. subst st. auto.
Qed.

Lemma after_status_zero {A : Type} (status : bytes) (k : Outcome A) :
  from_bytes status 2 Big = Ok 0 -> after_status status k = k.
Proof. intros E. unfold after_status. now rewrite E. Qed.

Lemma after_status_nonzero {A : Type} (status : bytes) (k : Outcome A)
      (st : Z) :
  from_bytes status 2 Big = Ok st -> st <> 0 ->
  after_status status k = Raise (RuntimeError (StatusIs st)).
Proof.
  intros E Hne. unfold after_status. rewrite E.
  apply Z.eqb_neq in Hne. now rewrite Hne.
Qed.

(* ---------------------------------------------------------------- *)
(** *** identify *)

(** C5, as the code has it.  [identify] runs GET_HW_CODE,
    GET_HW_SW_VER, GET_ME_ID, GET_SOC_ID in that order (their opcodes
    are the only bytes written, in that order).  When all four
    succeed it returns nothing ([None]) without error, and what it
    obtained is reported as six log lines written after the fourth
    command: hw-code, hw-sub-code, hw-version, sw-version, ME-ID,
    SoC-ID.  The logged hw-code is the big-endian value of the two
    bytes read after the opcode echo, and the status read after them
    was zero. *)
Theorem identify_logs_identification :
  forall (d : T) (w w1 w2 w3 w4 : W) (hw : Z) (vs : Z * Z * Z)
         (me soc : bytes),
    dev w = Some d ->
    get_hw_code w = (Ok hw, w1) ->
    get_hw_sw_ver w1 = (Ok vs, w2) ->
    get_me_id w2 = (Ok me, w3) ->
    get_soc_id w3 = (Ok soc, w4) ->
    let e := t_read 1 (t_write [xfd] d) in
    let h := t_read 2 (snd e) in
    let s := t_read 2 (snd h) in
    identify w
    = (Ok tt,
       logged [LogHwCode hw; LogHwSubCode (fst (fst vs));
               LogHwVersion (snd (fst vs)); LogSwVersion (snd vs);
               LogMeId me; LogSocId soc] w4)
    /\ writes_of (trace w4)
       = writes_of (trace w) ++ [[xfd]; [xfc]; [xe1]; [xe7]]
    /\ log w4 = log w
    /\ from_bytes (fst h) 2 Big = Ok hw
    /\ from_bytes (fst s) 2 Big = Ok 0.
Proof.
  intros d w w1 w2 w3 w4 hw vs me soc Hd E1 E2 E3 E4 e h s.
  split; [now apply (identify_success w w1 w2 w3 w4)|].
  destruct (identification_io d w Hd) as ((_ & _ & _ & L4) & Hw).
  cbv zeta in L4, Hw. rewrite E1 in L4, Hw. cbn [snd] in L4, Hw.
  rewrite E2 in L4, Hw. cbn [snd] in L4, Hw.
  rewrite E3 in L4, Hw. cbn [snd] in L4, Hw.
  rewrite E4 in L4, Hw. cbn [snd] in L4, Hw.
  split; [exact Hw|]. split; [exact L4|].
  rewrite (get_hw_code_run d w Hd) in E1. injection E1 as E1 _.
  apply after_status_ok in E1. destruct E1 as [Es Eh].
  split; [exact Eh | exact Es].
Qed.

(** C6. When the four bytes read as length decode to 0, [get_me_id]
    and [get_soc_id] raise [RuntimeError('ME ID length is 0')] and
    [RuntimeError('SOC ID length is 0')] right after that read: the
    calls on the port are the opcode write, the echo read and the
    length read, and nothing else.  In [identify] the first command
    that raises ends the sequence with its exception, in the world
    that command left, and no line has been logged. *)
Theorem empty_identity_aborts :
  (forall (d : T) (w : W),
      dev w = Some d ->
      let e := t_read 1 (t_write [xe1] d) in
      let f := t_read 4 (snd e) in
      from_bytes (fst f) 4 Big = Ok 0 ->
      get_me_id w
      = (Raise (RuntimeError MeIdLengthIsZero),
         played (snd f)
                [EvWrite [xe1]; EvRead 1 (fst e); EvRead 4 (fst f)] w))
  /\ (forall (d : T) (w : W),
         dev w = Some d ->
         let e := t_read 1 (t_write [xe7] d) in
         let f := t_read 4 (snd e) in
         from_bytes (fst f) 4 Big = Ok 0 ->
         get_soc_id w
         = (Raise (RuntimeError SocIdLengthIsZero),
            played (snd f)
                   [EvWrite [xe7]; EvRead 1 (fst e); EvRead 4 (fst f)] w))
  /\ (forall (w : W) (e : Exception),
         (forall w1,
             get_hw_code w = (Raise e, w1) -> identify w = (Raise e, w1))
         /\ (forall hw w1 w2,
                get_hw_code w = (Ok hw, w1) ->
                get_hw_sw_ver w1 = (Raise e, w2) ->
                identify w = (Raise e, w2))
         /\ (forall hw vs w1 w2 w3,
                get_hw_code w = (Ok hw, w1) ->
                get_hw_sw_ver w1 = (Ok vs, w2) ->
                get_me_id w2 = (Raise e, w3) ->
                identify w = (Raise e, w3))
         /\ (forall hw vs me w1 w2 w3 w4,
                get_hw_code w = (Ok hw, w1) ->
                get_hw_sw_ver w1 = (Ok vs, w2) ->
                get_me_id w2 = (Ok me, w3) ->
                get_soc_id w3 = (Raise e, w4) ->
                identify w = (Raise e, w4)))
  /\ (forall (d : T) (w w' : W) (e : Exception),
         dev w = Some d ->
         identify w = (Raise e, w') ->
         log w' = log w).
Proof.
  split; [|split; [|split]].
  - intros d w Hd e f Hz. rewrite (get_me_id_run d w Hd).
    unfold identity_outcome. cbv zeta. fold e. fold f. now rewrite Hz.
  - intros d w Hd e f Hz. rewrite (get_soc_id_run d w Hd).
    unfold identity_outcome. cbv zeta. fold e. fold f. now rewrite Hz.
  - exact identify_aborts.
  - exact identify_failure_logs_nothing.
Qed.

(* ---------------------------------------------------------------- *)
(** *** The download agent *)

Lemma to_bytes_4_inv (v : Z) (a : bytes) :
  to_bytes v 4 Big = Ok a ->
  length a = 4%nat /\ from_bytes a 4 Big = Ok v.
Proof.
  intros E. change (to_bytes v 4 Big) with (struct_pack Big FmtI v) in E.
  unfold struct_pack in E.
  destruct ((0 <=? v) && (v <? 256 ^ Z.of_nat (calcsize FmtI))) eqn:R;
    [|discriminate].
  apply andb_prop in R. destruct R as [R1 R2].
  apply Z.leb_le in R1. apply Z.ltb_lt in R2.
  destruct (struct_round_trip Big FmtI v (conj R1 R2)) as (bs & Hp & Hl & Hu).
  unfold struct_pack in Hp.
  assert ((0 <=? v) && (v <? 256 ^ Z.of_nat (calcsize FmtI)) = true) as R.
  { apply andb_true_intro. split; [apply Z.leb_le | apply Z.ltb_lt]; lia. }
  rewrite R in Hp. rewrite Hp in E. injection E as <-. auto.
Qed.

Lemma send_da_run (d : T) (w : W) (address da_len sig_len : Z)
      (da a l s : bytes) :
  dev w = Some d ->
  to_bytes address 4 Big = Ok a ->
  to_bytes da_len 4 Big = Ok l ->
  to_bytes sig_len 4 Big = Ok s ->
  let e0 := t_read 1 (t_write [xd7] d) in
  let e1 := t_read 4 (t_write a (snd e0)) in
  let e2 := t_read 4 (t_write l (snd e1)) in
  let e3 := t_read 4 (t_write s (snd e2)) in
  let s1 := t_read 2 (snd e3) in
  let c := t_read 2 (t_write da (snd s1)) in
  let s2 := t_read 2 (snd c) in
  let header :=
    [EvWrite [xd7]; EvRead 1 (fst e0);
     EvWrite a; EvRead 4 (fst e1);
     EvWrite l; EvRead 4 (fst e2);
     EvWrite s; EvRead 4 (fst e3);
     EvRead 2 (fst s1)] in
  let w0 := logged [LogSendDA address da_len sig_len] w in
  send_da address da_len sig_len da w
  = match from_bytes (fst s1) 2 Big with
    | Ok st =>
        if st =? 0 then
          match from_bytes (fst c) 2 Big with
          | Ok checksum =>
              (after_status (fst s2) (Ok checksum),
               played (snd s2)
                      (header ++ [EvWrite da; EvRead 2 (fst c);
                                  EvRead 2 (fst s2)]) w0)
          | Raise x =>
              (Raise x,
               played (snd c) (header ++ [EvWrite da; EvRead 2 (fst c)]) w0)
          | OutOfFuel =>
              (OutOfFuel,
               played (snd c) (header ++ [EvWrite da; EvRead 2 (fst c)]) w0)
          end
        else (Raise (RuntimeError (StatusIs st)), played (snd s1) header w0)
    | Raise x => (Raise x, played (snd s1) header w0)
    | OutOfFuel => (OutOfFuel, played (snd s1) header w0)
    end.
Proof.
  intros Hd Ha Hl Hs. cbv zeta. unfold send_da. rewrite bind_log.
  rewrite bind_lift.
  change (to_bytes (value SEND_DA) 1 Big) with (Ok [xd7]). cbv iota beta.
  assert (dev (logged [LogSendDA address da_len sig_len] w) = Some d) as Hd'
      by exact Hd.
  next. rewrite bind_lift, Ha; cbv iota beta. next. rewrite bind_lift, Hl; cbv iota beta. next.
  rewrite bind_lift, Hs; cbv iota beta. do 2 next. rewrite bind_lift.
  match goal with
  | |- match from_bytes ?b 2 Big with _ => _ end = _ =>
      destruct (from_bytes b 2 Big) as [st|x|] eqn:E1; try reflexivity
  end.
  destruct (st =? 0); cbn [negb].
  - do 2 next. rewrite bind_lift.
    match goal with
    | |- match from_bytes ?b 2 Big with _ => _ end = _ =>
        destruct (from_bytes b 2 Big) as [checksum|x|]; try reflexivity
    end.
    next. rewrite bind_lift. unfold after_status.
    match goal with
    | |- match from_bytes ?b 2 Big with _ => _ end = _ =>
        destruct (from_bytes b 2 Big) as [st2|x|]; try reflexivity
    end.
    destruct (st2 =? 0); reflexivity.
  - now rewrite bind_lift.
Qed.

(** C7. [send_da] writes the opcode [0xD7] and reads one byte, writes
    each of the 4-byte big-endian fields address, da_len, sig_len and
    reads four bytes after each (all dropped), and reads two bytes of
    status.  If that status is nonzero it raises with the code and
    the payload is not written.  If it is zero the payload is
    written in one call with no read of an echo, then two bytes of
    checksum and two bytes of status are read: with a zero status the
    checksum read is returned as it is, with a nonzero status
    [RuntimeError('status is ...')] carries the code and no checksum
    is returned. *)
Theorem send_da_spec :
  forall (d : T) (w : W) (address da_len sig_len : Z) (da a l s : bytes),
    dev w = Some d ->
    to_bytes address 4 Big = Ok a ->
    to_bytes da_len 4 Big = Ok l ->
    to_bytes sig_len 4 Big = Ok s ->
    let e0 := t_read 1 (t_write [xd7] d) in
    let e1 := t_read 4 (t_write a (snd e0)) in
    let e2 := t_read 4 (t_write l (snd e1)) in
    let e3 := t_read 4 (t_write s (snd e2)) in
    let s1 := t_read 2 (snd e3) in
    let c := t_read 2 (t_write da (snd s1)) in
    let s2 := t_read 2 (snd c) in
    let header :=
      [EvWrite [xd7]; EvRead 1 (fst e0);
       EvWrite a; EvRead 4 (fst e1);
       EvWrite l; EvRead 4 (fst e2);
       EvWrite s; EvRead 4 (fst e3);
       EvRead 2 (fst s1)] in
    let transfer := [EvWrite da; EvRead 2 (fst c); EvRead 2 (fst s2)] in
    let w0 := logged [LogSendDA address da_len sig_len] w in
    (length a = 4%nat /\ from_bytes a 4 Big = Ok address)
    /\ (length l = 4%nat /\ from_bytes l 4 Big = Ok da_len)
    /\ (length s = 4%nat /\ from_bytes s 4 Big = Ok sig_len)
    /\ (forall st,
           from_bytes (fst s1) 2 Big = Ok st -> st <> 0 ->
           send_da address da_len sig_len da w
           = (Raise (RuntimeError (StatusIs st)), played (snd s1) header w0))
    /\ (forall checksum,
           from_bytes (fst s1) 2 Big = Ok 0 ->
           from_bytes (fst c) 2 Big = Ok checksum ->
           from_bytes (fst s2) 2 Big = Ok 0 ->
           send_da address da_len sig_len da w
           = (Ok checksum, played (snd s2) (header ++ transfer) w0))
    /\ (forall checksum st,
           from_bytes (fst s1) 2 Big = Ok 0 ->
           from_bytes (fst c) 2 Big = Ok checksum ->
           from_bytes (fst s2) 2 Big = Ok st -> st <> 0 ->
           send_da address da_len sig_len da w
           = (Raise (RuntimeError (StatusIs st)),
              played (snd s2) (header ++ transfer) w0)).
Proof.
  intros d w address da_len sig_len da a l s Hd Ha Hl Hs.
  pose proof (send_da_run d w address da_len sig_len da a l s Hd Ha Hl Hs)
    as Hrun.
  cbv zeta in *.
  split; [now apply to_bytes_4_inv|].
  split; [now apply to_bytes_4_inv|].
  split; [now apply to_bytes_4_inv|].
  split; [|split].
  - intros st E1 Hne. rewrite Hrun, E1.
    apply Z.eqb_neq in Hne. now rewrite Hne.
  - intros checksum E1 E2 E3. rewrite Hrun, E1, E2. cbn [Z.eqb].
    now rewrite (after_status_zero _ _ E3).
  - intros checksum st E1 E2 E3 Hne. rewrite Hrun, E1, E2. cbn [Z.eqb].
    now rewrite (after_status_nonzero _ _ st E3 Hne).
Qed.

(** [jump_da] on any port: it writes the opcode [0xD5] and the 4-byte
    big-endian address, reads one byte after each write and drops it,
    reads two more bytes and drops them too, and returns: whatever
    bytes the port delivers, it raises nothing. *)
Theorem jump_da_ignores_status :
  forall (d : T) (w : W) (address : Z) (a : bytes),
    dev w = Some d ->
    to_bytes address 4 Big = Ok a ->
    let e0 := t_read 1 (t_write [xd5] d) in
    let e1 := t_read 1 (t_write a (snd e0)) in
    let s := t_read 2 (snd e1) in
    (length a = 4%nat /\ from_bytes a 4 Big = Ok address)
    /\ jump_da address w
       = (Ok tt,
          played (snd s)
                 [EvWrite [xd5]; EvRead 1 (fst e0);
                  EvWrite a; EvRead 1 (fst e1);
                  EvRead 2 (fst s)]
                 (logged [LogJumpToDA address] w)).
Proof.
  intros d w address a Hd Ha. cbv zeta.
  split; [now apply to_bytes_4_inv|].
  unfold jump_da. rewrite bind_log, bind_lift.
  change (to_bytes (value JUMP_DA) 1 Big) with (Ok [xd5]). cbv iota beta.
  assert (dev (logged [LogJumpToDA address] w) = Some d) as Hd' by exact Hd.
  next. rewrite bind_lift, Ha; cbv iota beta. do 2 next. reflexivity.
Qed.

(* ---------------------------------------------------------------- *)
(** *** The power commands *)

Lemma power_init_run (d : T) (w : W) (reg val : Z) (r v : bytes) :
  dev w = Some d ->
  to_bytes reg 4 Big = Ok r ->
  to_bytes val 4 Big = Ok v ->
  let e0 := t_read 1 (t_write [xc4] d) in
  let e1 := t_read 1 (t_write r (snd e0)) in
  let e2 := t_read 1 (t_write v (snd e1)) in
  let s := t_read 2 (snd e2) in
  power_init reg val w
  = (after_status (fst s) (Ok tt),
     played (snd s)
            [EvWrite [xc4]; EvRead 1 (fst e0);
             EvWrite r; EvRead 1 (fst e1);
             EvWrite v; EvRead 1 (fst e2);
             EvRead 2 (fst s)]
            (logged [LogInitPMIC reg val] w)).
Proof.
  intros Hd Hr Hv. cbv zeta. unfold power_init. rewrite bind_log, bind_lift.
  change (to_bytes (value PWR_INIT) 1 Big) with (Ok [xc4]). cbv iota beta.
  assert (dev (logged [LogInitPMIC reg val] w) = Some d) as Hd' by exact Hd.
  next. rewrite bind_lift, Hr; cbv iota beta. next. rewrite bind_lift, Hv; cbv iota beta. do 2 next.
  now apply status_test_run.
Qed.

Lemma power_deinit_run (d : T) (w : W) :
  dev w = Some d ->
  let e0 := t_read 1 (t_write [xc5] d) in
  let s := t_read 2 (snd e0) in
  power_deinit w
  = (after_status (fst s) (Ok tt),
     played (snd s)
            [EvWrite [xc5]; EvRead 1 (fst e0); EvRead 2 (fst s)]
            (logged [LogDeinitPMIC] w)).
Proof.
  intros Hd. cbv zeta. unfold power_deinit. rewrite bind_log, bind_lift.
  change (to_bytes (value PWR_DEINIT) 1 Big) with (Ok [xc5]). cbv iota beta.
  assert (dev (logged [LogDeinitPMIC] w) = Some d) as Hd' by exact Hd.
  do 2 next. now apply status_test_run.
Qed.

(* ---------------------------------------------------------------- *)
(** *** Port discovery *)

Lemma find_port_loop_step (fuel : nat) (vendor_id product_id : Z)
      (tmo : option Z) (start : Z) (w : W) :
  find_port_loop host (S fuel) vendor_id product_id tmo start w
  = let w1 := match tmo with
              | None => w
              | Some _ => snd (now host w)
              end in
    let go_on := match tmo with
                 | None => true
                 | Some t => time_time host (clock_calls w) - start <? t
                 end in
    if go_on then
      match find (port_matches vendor_id product_id)
                 (comports host (comports_calls w1)) with
      | Some p => (Ok (Some (device p)), snd (list_ports host w1))
      | None => find_port_loop host fuel vendor_id product_id tmo start
                               (snd (list_ports host w1))
      end
    else (Ok None, w1).
Proof.
  cbn [find_port_loop]. destruct tmo as [t|]; cbv zeta.
  - unfold bind at 1. unfold bind at 1. unfold now at 1. unfold ret at 1.
    cbn [snd].
    destruct (time_time host (clock_calls w) - start <? t); [|reflexivity].
    unfold bind at 1. unfold list_ports at 1. cbn [comports_calls].
    now destruct (find _ _).
  - unfold bind at 1. unfold ret at 1.
    unfold bind at 1. unfold list_ports at 1.
    now destruct (find _ _).
Qed.

Lemma find_port_loop_unbounded (fuel : nat) :
  forall (vendor_id product_id start : Z) (w w' : W)
         (o : Outcome (option string)),
    find_port_loop host fuel vendor_id product_id None start w = (o, w') ->
    o = OutOfFuel
    \/ exists (p : ListPortInfo) (n : nat),
         o = Ok (Some (device p))
         /\ find (port_matches vendor_id product_id) (comports host n)
            = Some p.
Proof.
  induction fuel as [|fuel IH]; intros vendor_id product_id start w w' o E.
  - cbn in E. injection E as <- _. now left.
  - rewrite find_port_loop_step in E. cbv zeta in E.
    destruct (find _ (comports host (comports_calls w))) as [p|] eqn:F.
    + injection E as <- _. right. now exists p, (comports_calls w).
    + exact (IH _ _ _ _ _ _ E).
Qed.

Lemma find_port_loop_none (fuel : nat) :
  forall (vendor_id product_id : Z) (tmo : option Z) (start : Z)
         (w w' : W),
    find_port_loop host fuel vendor_id product_id tmo start w
    = (Ok None, w') ->
    exists (t : Z) (k : nat),
      tmo = Some t
      /\ (clock_calls w <= k)%nat
      /\ t <= time_time host k - start
      /\ forall n, (comports_calls w <= n < comports_calls w')%nat ->
                   find (port_matches vendor_id product_id)
                        (comports host n) = None.
Proof.
  induction fuel as [|fuel IH];
    intros vendor_id product_id tmo start w w' E.
  - discriminate E.
  - rewrite find_port_loop_step in E. cbv zeta in E.
    destruct tmo as [t|].
    + destruct (time_time host (clock_calls w) - start <? t) eqn:L.
      * cbn [now snd comports_calls] in E.
        destruct (find _ (comports host (comports_calls w))) as [p|] eqn:F;
          [discriminate E|].
        destruct (IH _ _ _ _ _ _ E) as (t' & k & Ht & Hk & Hel & Hn).
        injection Ht as <-. cbn [list_ports snd clock_calls comports_calls]
          in Hk, Hn.
        exists t, k. repeat split; try assumption; try lia.
        intros n Hr. destruct (Nat.eq_dec n (comports_calls w)) as [->|Hne];
          [exact F | apply Hn; lia].
      * injection E as <-. apply Z.ltb_ge in L.
        exists t, (clock_calls w). repeat split; try assumption; try lia.
        cbn [now snd comports_calls]. intros n Hr. lia.
    + destruct (find _ (comports host (comports_calls w))) as [p|] eqn:F;
        [discriminate E|].
      destruct (IH _ _ _ _ _ _ E) as (t' & k & Ht & _). discriminate Ht.
Qed.

Lemma find_port_loop_never (fuel : nat) :
  forall (vendor_id product_id start : Z) (w : W),
    (forall j, find (port_matches vendor_id product_id)
                    (comports host (comports_calls w + j)) = None) ->
    fst (find_port_loop host fuel vendor_id product_id None start w)
    = OutOfFuel.
Proof.
  induction fuel as [|fuel IH]; intros vendor_id product_id start w Hno;
    [reflexivity|].
  rewrite find_port_loop_step. cbv zeta.
  pose proof (Hno O) as H0. rewrite Nat.add_0_r in H0. rewrite H0.
  apply IH. intros j. cbn [list_ports snd comports_calls].
  replace (S (comports_calls w) + j)%nat with (comports_calls w + S j)%nat
    by lia.
  apply Hno.
Qed.

Lemma find_port_loop_finds (k : nat) :
  forall (fuel : nat) (vendor_id product_id start : Z) (w : W)
         (p : ListPortInfo),
    (forall j, (j < k)%nat ->
               find (port_matches vendor_id product_id)
                    (comports host (comports_calls w + j)) = None) ->
    find (port_matches vendor_id product_id)
         (comports host (comports_calls w + k)) = Some p ->
    (k < fuel)%nat ->
    fst (find_port_loop host fuel vendor_id product_id None start w)
    = Ok (Some (device p)).
Proof.
  induction k as [|k IH];
    intros fuel vendor_id product_id start w p Hno Hyes Hf;
    (destruct fuel as [|fuel]; [lia|]);
    rewrite find_port_loop_step; cbv zeta.
  - rewrite Nat.add_0_r in Hyes. now rewrite Hyes.
  - pose proof (Hno O ltac:(lia)) as H0. rewrite Nat.add_0_r in H0.
    rewrite H0. apply IH; [| |lia]; cbn [list_ports snd comports_calls].
    + intros j Hj.
      replace (S (comports_calls w) + j)%nat
        with (comports_calls w + S j)%nat by lia.
      apply Hno. lia.
    + replace (S (comports_calls w) + k)%nat
        with (comports_calls w + S k)%nat by lia.
      exact Hyes.
Qed.

Lemma find_port_as_loop (fuel : nat) (vendor_id product_id : Z)
      (tmo : option Z) (w : W) :
  find_port host fuel vendor_id product_id tmo w
  = find_port_loop host fuel vendor_id product_id tmo
                   (time_time host (clock_calls w)) (snd (now host w)).
Proof. reflexivity. Qed.

Lemma truthy_named (name : string) :
  name <> EmptyString -> truthy (Some name) = true.
Proof. intros Hne. now destruct name. Qed.

Lemma find_device_not_found (fuel : nat) (vendor_id product_id : Z)
      (w w' : W) :
  dev w = None ->
  find_device host fuel vendor_id product_id w
  = (Raise (RuntimeError DeviceNotFound), w') ->
  port w' = Some EmptyString
  /\ exists (p : ListPortInfo) (n : nat),
       find (port_matches vendor_id product_id) (comports host n) = Some p
       /\ device p = EmptyString.
Proof.
  intros Hd E. unfold find_device in E. rewrite Hd in E.
  destruct (find_port host fuel vendor_id product_id None w)
    as [[q|e|] w1] eqn:F.
  - rewrite (bind_ok _ _ _ _ _ F) in E.
    rewrite find_port_as_loop in F.
    destruct (find_port_loop_unbounded _ _ _ _ _ _ _ F)
      as [Ho|(p & n & Ho & Hp)]; [discriminate Ho|].
    injection Ho as ->.
    unfold bind at 1 in E. unfold bind at 1 in E.
    unfold logging_info at 1 in E.
    destruct (device p) as [|c name] eqn:Hname.
    + cbn [truthy negb] in E. injection E as <-.
      split; [reflexivity|]. now exists p, n.
    + cbn [truthy negb] in E.
      destruct (serial_Serial host (String c name) _ _); discriminate E.
  - rewrite (bind_raise _ _ _ _ _ F) in E. injection E as -> _.
    rewrite find_port_as_loop in F.
    destruct (find_port_loop_unbounded _ _ _ _ _ _ _ F)
      as [Ho|(p & n & Ho & _)]; discriminate Ho.
  - rewrite (bind_out_of_fuel _ _ _ _ F) in E. discriminate E.
Qed.

Lemma find_device_found (fuel : nat) (vendor_id product_id : Z)
      (w w' : W) (o : Outcome unit) :
  dev w = None ->
  (forall n p, In p (comports host n) -> device p <> EmptyString) ->
  find_device host fuel vendor_id product_id w = (o, w') ->
  o <> Raise (RuntimeError DeviceNotFound).
Proof.
  intros Hd Hnames E. unfold find_device in E. rewrite Hd in E.
  destruct (find_port host fuel vendor_id product_id None w)
    as [[q|e|] w1] eqn:F.
  - rewrite (bind_ok _ _ _ _ _ F) in E.
    rewrite find_port_as_loop in F.
    destruct (find_port_loop_unbounded _ _ _ _ _ _ _ F)
      as [Ho|(p & n & Ho & Hp)]; [discriminate Ho|].
    injection Ho as ->.
    apply find_some in Hp. destruct Hp as [Hin _].
    pose proof (truthy_named _ (Hnames n p Hin)) as Ht.
    unfold bind at 1 in E. unfold bind at 1 in E.
    unfold logging_info at 1 in E. rewrite Ht in E. cbn [negb] in E.
    destruct (serial_Serial host (device p) _ _); injection E as <- _;
      discriminate.
  - rewrite (bind_raise _ _ _ _ _ F) in E. injection E as <- _.
    rewrite find_port_as_loop in F.
    destruct (find_port_loop_unbounded _ _ _ _ _ _ _ F)
      as [Ho|(p & n & Ho & _)]; discriminate Ho.
  - rewrite (bind_out_of_fuel _ _ _ _ F) in E. injection E as <- _.
    discriminate.
Qed.

(** C10, as the code has it.  [find_port] returns [None] only when it
    was given a timeout and a clock reading showed that much time
    elapsed since the start, no port list polled so far having a
    match.  Without a
    timeout it returns the device name of a matching port as soon as
    a polled list has one, and while no list has one it is still
    running after any number of iterations: it never returns [None]
    and never raises.  So [find_device] on an unbound session, which
    calls it without a timeout, never gets [None]: when it raises
    ['Device not found'] the port it got is the empty name of a
    matching port, the test being [if not self.port]; provided every
    listed port has a nonempty name it never raises ['Device not
    found']. *)
Theorem find_port_none_needs_timeout :
  forall (vendor_id product_id : Z) (w : W),
    (forall fuel tmo w',
        find_port host fuel vendor_id product_id tmo w = (Ok None, w') ->
        exists (t : Z) (k : nat),
          tmo = Some t
          /\ (clock_calls w <= k)%nat
          /\ t <= time_time host k - time_time host (clock_calls w)
          /\ forall n, (comports_calls w <= n < comports_calls w')%nat ->
                       find (port_matches vendor_id product_id)
                            (comports host n) = None)
    /\ (forall fuel o w',
           find_port host fuel vendor_id product_id None w = (o, w') ->
           o = OutOfFuel
           \/ exists (p : ListPortInfo) (n : nat),
                o = Ok (Some (device p))
                /\ find (port_matches vendor_id product_id)
                        (comports host n) = Some p)
    /\ (forall k p,
           (forall j, (j < k)%nat ->
                      find (port_matches vendor_id product_id)
                           (comports host (comports_calls w + j)) = None) ->
           find (port_matches vendor_id product_id)
                (comports host (comports_calls w + k)) = Some p ->
           forall fuel, (k < fuel)%nat ->
             fst (find_port host fuel vendor_id product_id None w)
             = Ok (Some (device p)))
    /\ ((forall j, find (port_matches vendor_id product_id)
                        (comports host (comports_calls w + j)) = None) ->
        forall fuel,
          fst (find_port host fuel vendor_id product_id None w) = OutOfFuel)
    /\ (dev w = None ->
        forall fuel w',
          find_device host fuel vendor_id product_id w
          = (Raise (RuntimeError DeviceNotFound), w') ->
          port w' = Some EmptyString
          /\ exists (p : ListPortInfo) (n : nat),
               find (port_matches vendor_id product_id) (comports host n)
               = Some p
               /\ device p = EmptyString)
    /\ (dev w = None ->
        (forall n p, In p (comports host n) -> device p <> EmptyString) ->
        forall fuel o w',
          find_device host fuel vendor_id product_id w = (o, w') ->
          o <> Raise (RuntimeError DeviceNotFound)).
Proof.
  intros vendor_id product_id w.
  split; [|split; [|split; [|split; [|split]]]].
  - intros fuel tmo w' E. rewrite find_port_as_loop in E.
    destruct (find_port_loop_none _ _ _ _ _ _ _ E)
      as (t & k & Ht & Hk & Hel & Hn).
    cbn [now snd clock_calls comports_calls] in Hk, Hn.
    exists t, k. repeat split; try assumption. lia.
  - intros fuel o w' E. rewrite find_port_as_loop in E.
    exact (find_port_loop_unbounded _ _ _ _ _ _ _ E).
  - intros k p Hno Hyes fuel Hf. rewrite find_port_as_loop.
    now apply (find_port_loop_finds k).
  - intros Hno fuel. rewrite find_port_as_loop.
    now apply find_port_loop_never.
  - intros Hd fuel w' E.
    exact (find_device_not_found fuel vendor_id product_id w w' Hd E).
  - intros Hd Hnames fuel o w' E.
    exact (find_device_found fuel vendor_id product_id w w' o Hd Hnames E).
Qed.


(* ---------------------------------------------------------------- *)
(** *** A session that was never bound *)

Lemma dev_write_unbound (data : bytes) (w : W) :
  dev w = None -> dev_write data w = (Raise AttributeError, w).
Proof. intros Hd. unfold dev_write. now rewrite Hd. Qed.

Lemma echo_unbound (words : bytes) (size : Z) (w : W) :
  dev w = None -> echo words size w = (Raise AttributeError, w).
Proof.
  intros Hd. unfold echo.
  now rewrite (bind_raise _ _ _ _ _ (dev_write_unbound words w Hd)).
Qed.

(** X6. On a session whose [dev] is still [None], [handshake], the
    identification commands, [get_preloader_version] and [identify]
    raise [AttributeError] at their first write, with nothing logged
    and nothing else changed; [power_init], [power_deinit], [send_da]
    and [jump_da] raise it too, after their log line and before the
    arguments are even encoded. *)
Theorem unbound_session_raises :
  forall w : W,
    dev w = None ->
    (forall fuel, handshake (S fuel) w = (Raise AttributeError, w))
    /\ get_hw_code w = (Raise AttributeError, w)
    /\ get_hw_sw_ver w = (Raise AttributeError, w)
    /\ get_me_id w = (Raise AttributeError, w)
    /\ get_soc_id w = (Raise AttributeError, w)
    /\ get_preloader_version w = (Raise AttributeError, w)
    /\ identify w = (Raise AttributeError, w)
    /\ (forall reg val,
           power_init reg val w
           = (Raise AttributeError, logged [LogInitPMIC reg val] w))
    /\ power_deinit w = (Raise AttributeError, logged [LogDeinitPMIC] w)
    /\ (forall address da_len sig_len da,
           send_da address da_len sig_len da w
           = (Raise AttributeError,
              logged [LogSendDA address da_len sig_len] w))
    /\ (forall address,
           jump_da address w
           = (Raise AttributeError, logged [LogJumpToDA address] w)).
Proof.
  intros w Hd.
  assert (get_hw_code w = (Raise AttributeError, w)) as Hhw.
  { unfold get_hw_code. rewrite bind_lift.
    change (to_bytes (value GET_HW_CODE) 1 Big) with (Ok [xfd]).
    cbv iota beta. now rewrite (bind_raise _ _ _ _ _ (echo_unbound _ _ w Hd)). }
  repeat split.
  - intros fuel. unfold handshake. cbn [handshake_sync].
    assert ((dev_write [xa0] ;;
             response <- dev_read 1 ;;
             (if bytes_eqb response [x5f] then ret tt
              else dev_reset_input_buffer ;; handshake_sync fuel)) w
            = (Raise AttributeError, w)) as E
        by now rewrite (bind_raise _ _ _ _ _ (dev_write_unbound _ w Hd)).
    now rewrite (bind_raise _ _ _ _ _ E).
  - exact Hhw.
  - unfold get_hw_sw_ver. rewrite bind_lift.
    change (to_bytes (value GET_HW_SW_VER) 1 Big) with (Ok [xfc]).
    cbv iota beta. now rewrite (bind_raise _ _ _ _ _ (echo_unbound _ _ w Hd)).
  - unfold get_me_id. rewrite bind_lift.
    change (to_bytes (value GET_ME_ID) 1 Big) with (Ok [xe1]).
    cbv iota beta. now rewrite (bind_raise _ _ _ _ _ (echo_unbound _ _ w Hd)).
  - unfold get_soc_id. rewrite bind_lift.
    change (to_bytes (value GET_SOC_ID) 1 Big) with (Ok [xe7]).
    cbv iota beta. now rewrite (bind_raise _ _ _ _ _ (echo_unbound _ _ w Hd)).
  - unfold get_preloader_version. rewrite bind_lift.
    change (to_bytes (value GET_PL_VER) 1 Big) with (Ok [xfe]).
    cbv iota beta.
    now rewrite (bind_raise _ _ _ _ _ (dev_write_unbound _ w Hd)).
  - unfold identify. now rewrite (bind_raise _ _ _ _ _ Hhw).
  - intros reg val. unfold power_init. rewrite bind_log, bind_lift.
    change (to_bytes (value PWR_INIT) 1 Big) with (Ok [xc4]).
    cbv iota beta.
    now rewrite (bind_raise _ _ _ _ _
                   (echo_unbound _ _ (logged [LogInitPMIC reg val] w) Hd)).
  - unfold power_deinit. rewrite bind_log, bind_lift.
    change (to_bytes (value PWR_DEINIT) 1 Big) with (Ok [xc5]).
    cbv iota beta.
    now rewrite (bind_raise _ _ _ _ _
                   (echo_unbound _ _ (logged [LogDeinitPMIC] w) Hd)).
  - intros address da_len sig_len da. unfold send_da.
    rewrite bind_log, bind_lift.
    change (to_bytes (value SEND_DA) 1 Big) with (Ok [xd7]).
    cbv iota beta.
    now rewrite (bind_raise _ _ _ _ _
                   (echo_unbound _ _
                      (logged [LogSendDA address da_len sig_len] w) Hd)).
  - intros address. unfold jump_da. rewrite bind_log, bind_lift.
    change (to_bytes (value JUMP_DA) 1 Big) with (Ok [xd5]).
    cbv iota beta.
    now rewrite (bind_raise _ _ _ _ _
                   (echo_unbound _ _ (logged [LogJumpToDA address] w) Hd)).
Qed.

(* ---------------------------------------------------------------- *)
(** *** Short reads and the range of what is returned *)

Lemma from_bytes_2_length (b : bytes) (v : Z) :
  from_bytes b 2 Big = Ok v -> length b = 2%nat /\ 0 <= v < 65536.
Proof.
  intros E. destruct (from_bytes_accepts_parts b 2 Big) as (Hiff & _ & Hr).
  split.
  - destruct (proj1 Hiff (ex_intro _ v E)) as [_ Hl]. lia.
  - exact (Hr v E).
Qed.

Lemma from_bytes_2_short (b : bytes) :
  length b <> 2%nat -> from_bytes b 2 Big = Raise StructError.
Proof.
  intros Hl. change (from_bytes b 2 Big) with (struct_unpack Big FmtH b).
  unfold struct_unpack. cbn [calcsize].
  destruct (Nat.eqb (length b) 2) eqn:L; [|reflexivity].
  apply Nat.eqb_eq in L. contradiction.
Qed.

Lemma from_bytes_2_cases (b : bytes) :
  (exists v, from_bytes b 2 Big = Ok v /\ length b = 2%nat)
  \/ (from_bytes b 2 Big = Raise StructError /\ length b <> 2%nat).
Proof.
  destruct (Nat.eq_dec (length b) 2) as [L|L].
  - left. change (from_bytes b 2 Big) with (struct_unpack Big FmtH b).
    unfold struct_unpack. cbn [calcsize].
    rewrite (proj2 (Nat.eqb_eq (length b) 2) L).
    eexists. split; [reflexivity | exact L].
  - right. split; [now apply from_bytes_2_short | exact L].
Qed.

Lemma versions_short (a b c : bytes) :
  (length a <> 2 \/ length b <> 2 \/ length c <> 2)%nat ->
  versions a b c = Raise StructError.
Proof.
  intros Hl. unfold versions.
  destruct (from_bytes_2_cases a) as [(x & -> & La)|(-> & La)];
    [|reflexivity].
  destruct (from_bytes_2_cases b) as [(y & -> & Lb)|(-> & Lb)];
    [|reflexivity].
  destruct (from_bytes_2_cases c) as [(z & -> & Lc)|(-> & Lc)];
    [|reflexivity].
  exfalso. destruct Hl as [Hl|[Hl|Hl]]; contradiction.
Qed.

Lemma after_status_short {A : Type} (status : bytes) (k : Outcome A) :
  length status <> 2%nat -> after_status status k = Raise StructError.
Proof.
  intros Hl. unfold after_status. now rewrite (from_bytes_2_short _ Hl).
Qed.

(** X7. [get_hw_code] writes [0xFD], reads one byte and drops it, and
    reads two bytes of hardware code and two of status.  A status read
    of fewer than two bytes (a timeout) raises [struct.error]; a
    nonzero status raises with the code, which lies in 1..0xFFFF; with
    a zero status a short hardware code raises [struct.error] and a
    full one is returned as a big-endian value in 0..0xFFFF. *)
Theorem get_hw_code_spec :
  forall (d : T) (w : W),
    dev w = Some d ->
    let e := t_read 1 (t_write [xfd] d) in
    let h := t_read 2 (snd e) in
    let s := t_read 2 (snd h) in
    snd (get_hw_code w)
    = played (snd s)
             [EvWrite [xfd]; EvRead 1 (fst e);
              EvRead 2 (fst h); EvRead 2 (fst s)] w
    /\ (length (fst s) <> 2%nat -> fst (get_hw_code w) = Raise StructError)
    /\ (forall st, from_bytes (fst s) 2 Big = Ok st -> st <> 0 ->
                   fst (get_hw_code w) = Raise (RuntimeError (StatusIs st))
                   /\ 0 < st < 65536)
    /\ (from_bytes (fst s) 2 Big = Ok 0 -> length (fst h) <> 2%nat ->
        fst (get_hw_code w) = Raise StructError)
    /\ (forall v, from_bytes (fst s) 2 Big = Ok 0 ->
                  from_bytes (fst h) 2 Big = Ok v ->
                  fst (get_hw_code w) = Ok v /\ 0 <= v < 65536).
Proof.
  intros d w Hd. cbv zeta. rewrite (get_hw_code_run d w Hd). cbn [fst snd].
  split; [reflexivity|]. split; [|split; [|split]].
  - intros Hl. now apply after_status_short.
  - intros st Es Hne. split; [now apply after_status_nonzero|].
    destruct (from_bytes_2_length _ _ Es). lia.
  - intros Es Hl. rewrite (after_status_zero _ _ Es).
    now apply from_bytes_2_short.
  - intros v Es Eh. rewrite (after_status_zero _ _ Es).
    split; [exact Eh|]. now destruct (from_bytes_2_length _ _ Eh).
Qed.

(** X8. [get_hw_sw_ver] writes [0xFC], reads one byte and drops it, and
    reads four 2-byte fields: hw-sub-code, hw-version, sw-version and
    status.  The status is tested first: short it raises
    [struct.error], nonzero it raises with the code and the three
    fields are not decoded.  With a zero status the three big-endian
    values are returned in the order read, each in 0..0xFFFF, and a
    short field raises [struct.error]. *)
Theorem get_hw_sw_ver_spec :
  forall (d : T) (w : W),
    dev w = Some d ->
    let e := t_read 1 (t_write [xfc] d) in
    let a := t_read 2 (snd e) in
    let b := t_read 2 (snd a) in
    let c := t_read 2 (snd b) in
    let s := t_read 2 (snd c) in
    snd (get_hw_sw_ver w)
    = played (snd s)
             [EvWrite [xfc]; EvRead 1 (fst e); EvRead 2 (fst a);
              EvRead 2 (fst b); EvRead 2 (fst c); EvRead 2 (fst s)] w
    /\ (length (fst s) <> 2%nat -> fst (get_hw_sw_ver w) = Raise StructError)
    /\ (forall st, from_bytes (fst s) 2 Big = Ok st -> st <> 0 ->
                   fst (get_hw_sw_ver w)
                   = Raise (RuntimeError (StatusIs st)))
    /\ (from_bytes (fst s) 2 Big = Ok 0 ->
        (length (fst a) <> 2 \/ length (fst b) <> 2 \/ length (fst c) <> 2)%nat ->
        fst (get_hw_sw_ver w) = Raise StructError)
    /\ (forall x y z,
           from_bytes (fst s) 2 Big = Ok 0 ->
           from_bytes (fst a) 2 Big = Ok x ->
           from_bytes (fst b) 2 Big = Ok y ->
           from_bytes (fst c) 2 Big = Ok z ->
           fst (get_hw_sw_ver w) = Ok (x, y, z)
           /\ 0 <= x < 65536 /\ 0 <= y < 65536 /\ 0 <= z < 65536).
Proof.
  intros d w Hd. cbv zeta. rewrite (get_hw_sw_ver_run d w Hd). cbn [fst snd].
  split; [reflexivity|]. split; [|split; [|split]].
  - intros Hl. now apply after_status_short.
  - intros st Es Hne. now apply after_status_nonzero.
  - intros Es Hl. rewrite (after_status_zero _ _ Es).
    now apply versions_short.
  - intros x y z Es Ea Eb Ec. rewrite (after_status_zero _ _ Es).
    unfold versions. rewrite Ea, Eb, Ec.
    destruct (from_bytes_2_length _ _ Ea).
    destruct (from_bytes_2_length _ _ Eb).
    destruct (from_bytes_2_length _ _ Ec). auto.
Qed.

(** X9. [get_preloader_version] writes [0xFE] and, with no echo read,
    reads two bytes, which it decodes with size 1.  So when the device
    delivers the two bytes asked for it raises [struct.error]; a value
    is returned only when exactly one byte arrives, and it is that
    byte.  Nothing is logged: the comparison of the [bytes] read with
    the integer [0xFE] is never true. *)
Theorem get_preloader_version_spec :
  forall (d : T) (w : W),
    dev w = Some d ->
    let r := t_read 2 (t_write [xfe] d) in
    snd (get_preloader_version w)
    = played (snd r) [EvWrite [xfe]; EvRead 2 (fst r)] w
    /\ (length (fst r) <> 1%nat ->
        fst (get_preloader_version w) = Raise StructError)
    /\ (forall b, fst r = [b] ->
                  fst (get_preloader_version w) = Ok (Z_of_byte b)).
Proof.
  intros d w Hd. cbv zeta.
  assert (get_preloader_version w
          = (from_bytes (fst (t_read 2 (t_write [xfe] d))) 1 Big,
             played (snd (t_read 2 (t_write [xfe] d)))
                    [EvWrite [xfe];
                     EvRead 2 (fst (t_read 2 (t_write [xfe] d)))] w)) as ->.
  { unfold get_preloader_version. rewrite bind_lift.
    change (to_bytes (value GET_PL_VER) 1 Big) with (Ok [xfe]).
    cbv iota beta. do 2 next. reflexivity. }
  cbn [fst snd]. split; [reflexivity|]. split.
  - intros Hl.
    change (from_bytes ?t 1 Big) with (struct_unpack Big FmtB t).
    unfold struct_unpack. cbn [calcsize].
    destruct (Nat.eqb _ 1) eqn:L; [|reflexivity].
    apply Nat.eqb_eq in L. contradiction.
  - intros b ->. cbn. f_equal. lia.
Qed.


(* ---------------------------------------------------------------- *)
(** *** The identities, the power commands and the header fields *)

Lemma identity_outcome_nonzero (empty : Message) (d0 : T) (pre : list Event)
      (w : W) (n : Z) :
  from_bytes (fst (t_read 4 d0)) 4 Big = Ok n ->
  n <> 0 ->
  identity_outcome empty d0 pre w
  = (after_status (fst (t_read 2 (snd (t_read n (snd (t_read 4 d0))))))
                  (Ok (fst (t_read n (snd (t_read 4 d0))))),
     played (snd (t_read 2 (snd (t_read n (snd (t_read 4 d0))))))
            ((pre ++ [EvRead 4 (fst (t_read 4 d0))])
             ++ [EvRead n (fst (t_read n (snd (t_read 4 d0))));
                 EvRead 2 (fst (t_read 2 (snd (t_read n
                                                  (snd (t_read 4 d0))))))])
            w).
Proof.
  intros E Hn. unfold identity_outcome. cbv zeta. rewrite E.
  apply Z.eqb_neq in Hn. now rewrite Hn.
Qed.

Lemma from_bytes_4_range (b : bytes) (v : Z) :
  from_bytes b 4 Big = Ok v -> length b = 4%nat /\ 0 <= v < 256 ^ 4.
Proof.
  intros E. destruct (from_bytes_accepts_parts b 4 Big) as (Hiff & _ & Hr).
  split.
  - destruct (proj1 Hiff (ex_intro _ v E)) as [_ Hl]. lia.
  - exact (Hr v E).
Qed.

(** X10. When the four bytes read as length decode to a nonzero [n],
    [get_me_id] and [get_soc_id] ask the port for exactly [n] bytes and
    then for two bytes of status.  With a zero status they return what
    the [n]-byte read delivered, as it is: its length is not compared
    with [n].  A nonzero status raises with the code and a short status
    raises [struct.error].  [n] is below [256 ^ 4]. *)
Theorem identity_is_what_was_read :
  forall (d : T) (w : W) (n : Z),
    dev w = Some d ->
    (let e := t_read 1 (t_write [xe1] d) in
     let f := t_read 4 (snd e) in
     let m := t_read n (snd f) in
     let s := t_read 2 (snd m) in
     from_bytes (fst f) 4 Big = Ok n -> n <> 0 ->
     0 < n < 256 ^ 4
     /\ snd (get_me_id w)
        = played (snd s)
                 [EvWrite [xe1]; EvRead 1 (fst e); EvRead 4 (fst f);
                  EvRead n (fst m); EvRead 2 (fst s)] w
     /\ (from_bytes (fst s) 2 Big = Ok 0 -> fst (get_me_id w) = Ok (fst m))
     /\ (forall st, from_bytes (fst s) 2 Big = Ok st -> st <> 0 ->
                    fst (get_me_id w) = Raise (RuntimeError (StatusIs st)))
     /\ (length (fst s) <> 2%nat -> fst (get_me_id w) = Raise StructError))
    /\ (let e := t_read 1 (t_write [xe7] d) in
        let f := t_read 4 (snd e) in
        let m := t_read n (snd f) in
        let s := t_read 2 (snd m) in
        from_bytes (fst f) 4 Big = Ok n -> n <> 0 ->
        0 < n < 256 ^ 4
        /\ snd (get_soc_id w)
           = played (snd s)
                    [EvWrite [xe7]; EvRead 1 (fst e); EvRead 4 (fst f);
                     EvRead n (fst m); EvRead 2 (fst s)] w
        /\ (from_bytes (fst s) 2 Big = Ok 0 ->
            fst (get_soc_id w) = Ok (fst m))
        /\ (forall st, from_bytes (fst s) 2 Big = Ok st -> st <> 0 ->
                       fst (get_soc_id w)
                       = Raise (RuntimeError (StatusIs st)))
        /\ (length (fst s) <> 2%nat ->
            fst (get_soc_id w) = Raise StructError)).
Proof.
  intros d w n Hd. cbv zeta. split.
  - intros E Hn. rewrite (get_me_id_run d w Hd). cbv zeta.
    rewrite (identity_outcome_nonzero _ _ _ _ n E Hn). cbn [fst snd app].
    destruct (from_bytes_4_range _ _ E) as [_ Hr].
    split; [lia|]. split; [reflexivity|]. split; [|split].
    + intros Es. now apply after_status_zero.
    + intros st Es Hne. now apply after_status_nonzero.
    + intros Hl. now apply after_status_short.
  - intros E Hn. rewrite (get_soc_id_run d w Hd). cbv zeta.
    rewrite (identity_outcome_nonzero _ _ _ _ n E Hn). cbn [fst snd app].
    destruct (from_bytes_4_range _ _ E) as [_ Hr].
    split; [lia|]. split; [reflexivity|]. split; [|split].
    + intros Es. now apply after_status_zero.
    + intros st Es Hne. now apply after_status_nonzero.
    + intros Hl. now apply after_status_short.
Qed.

(** X11. [power_deinit] logs its line, writes [0xC5], reads one byte
    and drops it, and reads two bytes of status: it returns normally
    exactly when they decode to zero, raises with the code when they
    decode to something else, and raises [struct.error] when fewer than
    two bytes arrive. *)
Theorem power_deinit_spec :
  forall (d : T) (w : W),
    dev w = Some d ->
    let e0 := t_read 1 (t_write [xc5] d) in
    let s := t_read 2 (snd e0) in
    snd (power_deinit w)
    = played (snd s) [EvWrite [xc5]; EvRead 1 (fst e0); EvRead 2 (fst s)]
             (logged [LogDeinitPMIC] w)
    /\ (fst (power_deinit w) = Ok tt <-> from_bytes (fst s) 2 Big = Ok 0)
    /\ (forall st, from_bytes (fst s) 2 Big = Ok st -> st <> 0 ->
                   fst (power_deinit w) = Raise (RuntimeError (StatusIs st)))
    /\ (length (fst s) <> 2%nat -> fst (power_deinit w) = Raise StructError).
Proof.
  intros d w Hd. cbv zeta. rewrite (power_deinit_run d w Hd). cbn [fst snd].
  split; [reflexivity|]. split; [|split].
  - split.
    + intros E. now apply after_status_ok in E.
    + intros Es. now apply after_status_zero.
  - intros st Es Hne. now apply after_status_nonzero.
  - intros Hl. now apply after_status_short.
Qed.

Lemma to_bytes_4_out_of_range (v : Z) :
  ~ (0 <= v < 256 ^ 4) -> to_bytes v 4 Big = Raise StructError.
Proof.
  intros Hv. apply (proj2 (to_bytes_accepts_parts v 4 Big)); [|exact Hv].
  simpl. auto.
Qed.

(** X12. A header field that is negative or does not fit four bytes
    makes [send_da] raise [struct.error] in the middle of the command:
    the opcode, and the fields before the offending one, have already
    been written and their echoes read, and neither the remaining
    fields nor the payload are written.  [jump_da] with such an address
    raises [struct.error] after the opcode exchange. *)
Theorem header_field_out_of_range :
  forall (d : T) (w : W) (address da_len sig_len : Z) (da : bytes),
    dev w = Some d ->
    let e0 := t_read 1 (t_write [xd7] d) in
    let w0 := logged [LogSendDA address da_len sig_len] w in
    (~ (0 <= address < 256 ^ 4) ->
     send_da address da_len sig_len da w
     = (Raise StructError,
        played (snd e0) [EvWrite [xd7]; EvRead 1 (fst e0)] w0))
    /\ (forall a,
           to_bytes address 4 Big = Ok a ->
           ~ (0 <= da_len < 256 ^ 4) ->
           let e1 := t_read 4 (t_write a (snd e0)) in
           send_da address da_len sig_len da w
           = (Raise StructError,
              played (snd e1)
                     [EvWrite [xd7]; EvRead 1 (fst e0);
                      EvWrite a; EvRead 4 (fst e1)] w0))
    /\ (forall a l,
           to_bytes address 4 Big = Ok a ->
           to_bytes da_len 4 Big = Ok l ->
           ~ (0 <= sig_len < 256 ^ 4) ->
           let e1 := t_read 4 (t_write a (snd e0)) in
           let e2 := t_read 4 (t_write l (snd e1)) in
           send_da address da_len sig_len da w
           = (Raise StructError,
              played (snd e2)
                     [EvWrite [xd7]; EvRead 1 (fst e0);
                      EvWrite a; EvRead 4 (fst e1);
                      EvWrite l; EvRead 4 (fst e2)] w0))
    /\ (~ (0 <= address < 256 ^ 4) ->
        let j0 := t_read 1 (t_write [xd5] d) in
        jump_da address w
        = (Raise StructError,
           played (snd j0) [EvWrite [xd5]; EvRead 1 (fst j0)]
                  (logged [LogJumpToDA address] w))).
Proof.
  intros d w address da_len sig_len da Hd. cbv zeta.
  assert (dev (logged [LogSendDA address da_len sig_len] w) = Some d) as Hd'
      by exact Hd.
  assert (dev (logged [LogJumpToDA address] w) = Some d) as Hd'' by exact Hd.
  split; [|split; [|split]].
  - intros Ha. unfold send_da. rewrite bind_log, bind_lift.
    change (to_bytes (value SEND_DA) 1 Big) with (Ok [xd7]). cbv iota beta.
    next. rewrite bind_lift, (to_bytes_4_out_of_range _ Ha). reflexivity.
  - intros a Ea Hl. unfold send_da. rewrite bind_log, bind_lift.
    change (to_bytes (value SEND_DA) 1 Big) with (Ok [xd7]). cbv iota beta.
    next. rewrite bind_lift, Ea; cbv iota beta. next.
    rewrite bind_lift, (to_bytes_4_out_of_range _ Hl). reflexivity.
  - intros a l Ea El Hs. unfold send_da. rewrite bind_log, bind_lift.
    change (to_bytes (value SEND_DA) 1 Big) with (Ok [xd7]). cbv iota beta.
    next. rewrite bind_lift, Ea; cbv iota beta. next.
    rewrite bind_lift, El; cbv iota beta. next.
    rewrite bind_lift, (to_bytes_4_out_of_range _ Hs). reflexivity.
  - intros Ha. unfold jump_da. rewrite bind_log, bind_lift.
    change (to_bytes (value JUMP_DA) 1 Big) with (Ok [xd5]). cbv iota beta.
    next. rewrite bind_lift, (to_bytes_4_out_of_range _ Ha). reflexivity.
Qed.

(* ---------------------------------------------------------------- *)
(** *** What the handshake writes and logs *)

Lemma handshake_sync_shape (fuel : nat) :
  forall (d : T) (w : W),
    dev w = Some d ->
    exists (d' : T) (evs : list Event) (k : nat),
      (k <= fuel)%nat
      /\ snd (handshake_sync fuel w) = played d' evs w
      /\ writes_of evs = repeat [xa0] k
      /\ (fst (handshake_sync fuel w) = Ok tt /\ (1 <= k)%nat
          \/ fst (handshake_sync fuel w) = OutOfFuel /\ k = fuel).
Proof.
  induction fuel as [|fuel IH]; intros d w Hd.
  - exists d, [], O. cbn. rewrite (played_nil d w Hd).
    split; [lia|]. split; [reflexivity|]. split; [reflexivity|].
    right. split; reflexivity.
  - rewrite (handshake_sync_step fuel d w Hd).
    destruct (bytes_eqb (fst (probe d)) [x5f]).
    + exists (snd (probe d)), [EvWrite [xa0]; EvRead 1 (fst (probe d))], 1%nat.
      cbn [fst snd]. split; [lia|]. split; [reflexivity|].
      split; [reflexivity|]. left. split; [reflexivity | lia].
    + destruct (IH (miss d) (played (miss d) (missed_probe (fst (probe d))) w)
                   (dev_played _ _ _)) as (d' & evs & k & Hk & Hw & Hwr & Ho).
      exists d', (missed_probe (fst (probe d)) ++ evs), (S k).
      rewrite Hw, played_played, writes_of_app, Hwr.
      split; [lia|]. split; [reflexivity|]. split; [reflexivity|].
      destruct Ho as [[Ho Hk1]|[Ho ->]]; [left | right];
        (split; [exact Ho | lia]).
Qed.

Lemma handshake_probes_shape (d : T) (w : W) :
  dev w = Some d ->
  exists (d' : T) (evs : list Event) (j : nat),
    (1 <= j <= 3)%nat
    /\ writes_of evs = firstn j [[x0a]; [x50]; [x05]]
    /\ resets_of evs = O
    /\ (handshake_probes w
        = (Ok tt, logged [LogHandshakeCompleted] (played d' evs w))
        /\ j = 3%nat
        \/ exists expected got,
             handshake_probes w
             = (Raise (RuntimeError (Expected expected got)),
                played d' evs w)
             /\ got <> expected).
Proof.
  intros Hd. unfold handshake_probes. next. rewrite bind_lift.
  destruct (bytes_eqb (fst (t_read 1 (t_write [x0a] d))) [xf5]) eqn:E1.
  - apply bytes_eqb_eq in E1. rewrite E1, check_same. cbv iota beta.
    next. rewrite bind_lift.
    match goal with
    | |- context [check ?r [xaf]] => destruct (bytes_eqb r [xaf]) eqn:E2
    end.
    + apply bytes_eqb_eq in E2. rewrite E2, check_same. cbv iota beta.
      next. rewrite bind_lift.
      match goal with
      | |- context [check ?r [xfa]] => destruct (bytes_eqb r [xfa]) eqn:E3
      end.
      * apply bytes_eqb_eq in E3. rewrite E3, check_same. cbv iota beta.
        eexists; eexists; exists 3%nat.
        split; [lia|]. split; [|split]; cycle 2.
        { left. split; reflexivity. }
        { reflexivity. }
        { reflexivity. }
      * apply bytes_eqb_neq in E3. rewrite (check_differ _ _ E3).
        eexists; eexists; exists 3%nat.
        split; [lia|]. split; [|split]; cycle 2.
        { right. eexists; eexists. split; [reflexivity | exact E3]. }
        { reflexivity. }
        { reflexivity. }
    + apply bytes_eqb_neq in E2. rewrite (check_differ _ _ E2).
      eexists; eexists; exists 2%nat.
      split; [lia|]. split; [|split]; cycle 2.
      { right. eexists; eexists. split; [reflexivity | exact E2]. }
      { reflexivity. }
      { reflexivity. }
  - apply bytes_eqb_neq in E1. rewrite (check_differ _ _ E1).
    eexists; eexists; exists 1%nat.
    split; [lia|]. split; [|split]; cycle 2.
    { right. eexists; eexists. split; [reflexivity | exact E1]. }
    { reflexivity. }
    { reflexivity. }
Qed.

(** X13. On a bound port [handshake] only ever writes the sync byte
    [0xA0], at most once per iteration, followed by a prefix of [0x0A],
    [0x50], [0x05].  It ends in one of three ways: it returns, having
    written all three and logged ['Handshake completed!'] once; it
    raises [RuntimeError('Expected ..., got ...')] for an echo that
    differs, with nothing logged; or the loop is still running, with no
    probe byte written and nothing logged. *)
Theorem handshake_writes_and_logs :
  forall (fuel : nat) (d : T) (w : W),
    dev w = Some d ->
    exists (k j : nat),
      (k <= fuel)%nat /\ (j <= 3)%nat
      /\ writes_of (trace (snd (handshake fuel w)))
         = writes_of (trace w) ++ repeat [xa0] k
           ++ firstn j [[x0a]; [x50]; [x05]]
      /\ (fst (handshake fuel w) = Ok tt
          /\ (1 <= k)%nat /\ j = 3%nat
          /\ log (snd (handshake fuel w)) = log w ++ [LogHandshakeCompleted]
          \/ (exists expected got,
                fst (handshake fuel w)
                = Raise (RuntimeError (Expected expected got))
                /\ got <> expected)
             /\ (1 <= k)%nat /\ (1 <= j)%nat
             /\ log (snd (handshake fuel w)) = log w
          \/ fst (handshake fuel w) = OutOfFuel
             /\ k = fuel /\ j = O
             /\ log (snd (handshake fuel w)) = log w).
Proof.
  intros fuel d w Hd.
  destruct (handshake_sync_shape fuel d w Hd)
    as (d1 & ev1 & k & Hk & Hw & Hwr & Ho).
  destruct (handshake_sync fuel w) as [o w1] eqn:Es. cbn [fst snd] in *.
  subst w1. exists k.
  destruct Ho as [[-> Hk1]|[-> ->]].
  - rewrite (handshake_after_sync fuel w _ Es).
    destruct (handshake_probes_shape d1 (played d1 ev1 w) (dev_played _ _ _))
      as (d2 & ev2 & j & Hj & Hwr2 & _ & Hp).
    exists j. split; [exact Hk|]. split; [lia|].
    destruct Hp as [[-> ->]|(ex & got & -> & Hne)]; cbn [fst snd];
      rewrite played_played; cbn [trace log logged played];
      rewrite !writes_of_app, Hwr, Hwr2;
      (split; [reflexivity|]).
    + left. split; [reflexivity|]. split; [exact Hk1|]. split; reflexivity.
    + right. left. split; [now exists ex, got|].
      split; [exact Hk1|]. split; [lia | reflexivity].
  - exists O. unfold handshake. rewrite (bind_out_of_fuel _ _ _ _ Es).
    cbn [fst snd trace log played firstn].
    rewrite writes_of_app, Hwr, app_nil_r.
    split; [lia|]. split; [lia|]. split; [reflexivity|].
    right. right. split; [reflexivity|]. split; [reflexivity|].
    split; reflexivity.
Qed.


(* ---------------------------------------------------------------- *)
(** *** More about port discovery *)

Lemma polled_polled (c c' p p' : nat) (w : W) :
  polled c p (polled c' p' w) = polled (c + c') (p + p') w.
Proof. unfold polled. cbn. f_equal; lia. Qed.

Lemma port_matches_ids (vendor_id product_id : Z) (p : ListPortInfo) :
  port_matches vendor_id product_id p = true ->
  vid p = Some vendor_id /\ pid p = Some product_id.
Proof.
  unfold port_matches. destruct (vid p) as [v|]; [|discriminate].
  destruct (pid p) as [q|]; [|discriminate].
  intros E. apply andb_prop in E. destruct E as [E1 E2].
  apply Z.eqb_eq in E1. apply Z.eqb_eq in E2. now subst.
Qed.

Lemma find_first {A : Type} (f : A -> bool) (l : list A) (x : A) :
  find f l = Some x ->
  f x = true
  /\ exists l1 l2, l = l1 ++ x :: l2 /\ forall y, In y l1 -> f y = false.
Proof.
  induction l as [|a l IH]; [discriminate|]. cbn [find].
  destruct (f a) eqn:Fa.
  - intros E. injection E as <-. split; [exact Fa|].
    exists [], l. split; [reflexivity|]. intros y [].
  - intros E. destruct (IH E) as (Hx & l1 & l2 & -> & Hl1).
    split; [exact Hx|]. exists (a :: l1), l2. split; [reflexivity|].
    intros y [<-|Hy]; [exact Fa | now apply Hl1].
Qed.

Lemma find_port_loop_sound (fuel : nat) :
  forall (vendor_id product_id : Z) (tmo : option Z) (start : Z)
         (w w' : W) (name : string),
    find_port_loop host fuel vendor_id product_id tmo start w
    = (Ok (Some name), w') ->
    exists (p : ListPortInfo) (n : nat),
      (comports_calls w <= n)%nat
      /\ comports_calls w' = S n
      /\ find (port_matches vendor_id product_id) (comports host n) = Some p
      /\ device p = name
      /\ forall m, (comports_calls w <= m < n)%nat ->
                   find (port_matches vendor_id product_id) (comports host m)
                   = None.
Proof.
  induction fuel as [|fuel IH];
    intros vendor_id product_id tmo start w w' name E; [discriminate E|].
  rewrite find_port_loop_step in E. cbv zeta in E.
  assert (forall w1 : W,
             comports_calls w1 = comports_calls w ->
             match find (port_matches vendor_id product_id)
                        (comports host (comports_calls w1)) with
             | Some p => (Ok (Some (device p)), snd (list_ports host w1))
             | None => find_port_loop host fuel vendor_id product_id tmo
                                      start (snd (list_ports host w1))
             end = (Ok (Some name), w') ->
             exists (p : ListPortInfo) (n : nat),
               (comports_calls w <= n)%nat
               /\ comports_calls w' = S n
               /\ find (port_matches vendor_id product_id) (comports host n)
                  = Some p
               /\ device p = name
               /\ forall m, (comports_calls w <= m < n)%nat ->
                            find (port_matches vendor_id product_id)
                                 (comports host m) = None) as Hpoll.
  { intros w1 Hc E1. rewrite Hc in E1.
    destruct (find _ (comports host (comports_calls w))) as [p|] eqn:F.
    - injection E1 as E1 <-.
      exists p, (comports_calls w).
      cbn [list_ports snd comports_calls]. rewrite Hc.
      split; [lia|]. split; [reflexivity|]. split; [exact F|].
      split; [exact E1|]. intros m Hm. lia.
    - destruct (IH _ _ _ _ _ _ _ E1) as (p & n & Hn & Hw' & Hf & Hd & Hno).
      cbn [list_ports snd comports_calls] in Hn, Hno. rewrite Hc in Hn, Hno.
      exists p, n. split; [lia|]. split; [exact Hw'|]. split; [exact Hf|].
      split; [exact Hd|]. intros m Hm.
      destruct (Nat.eq_dec m (comports_calls w)) as [->|Hne];
        [exact F | apply Hno; lia]. }
  destruct tmo as [t|].
  - destruct (time_time host (clock_calls w) - start <? t);
      [|discriminate E].
    exact (Hpoll (snd (now host w)) eq_refl E).
  - exact (Hpoll w eq_refl E).
Qed.

(** X14. Whatever the timeout, a name returned by [find_port] is the
    device name of the first entry, in the order of the list, of the
    first polled port list that has an entry whose [vid] and [pid] are
    the requested ones; the lists polled before had no such entry, and
    no list is polled after it. *)
Theorem find_port_returns_first_match :
  forall (fuel : nat) (vendor_id product_id : Z) (tmo : option Z)
         (w w' : W) (name : string),
    find_port host fuel vendor_id product_id tmo w = (Ok (Some name), w') ->
    exists (p : ListPortInfo) (n : nat) (before after : list ListPortInfo),
      (comports_calls w <= n)%nat
      /\ comports_calls w' = S n
      /\ comports host n = before ++ p :: after
      /\ vid p = Some vendor_id /\ pid p = Some product_id
      /\ device p = name
      /\ (forall q, In q before ->
                    port_matches vendor_id product_id q = false)
      /\ (forall m q, (comports_calls w <= m < n)%nat ->
                      In q (comports host m) ->
                      port_matches vendor_id product_id q = false).
Proof.
  intros fuel vendor_id product_id tmo w w' name E.
  rewrite find_port_as_loop in E.
  destruct (find_port_loop_sound _ _ _ _ _ _ _ _ E)
    as (p & n & Hn & Hw' & Hf & Hd & Hno).
  cbn [now snd comports_calls] in Hn, Hno.
  destruct (find_first _ _ _ Hf) as (Hp & l1 & l2 & Hl & Hl1).
  destruct (port_matches_ids _ _ _ Hp) as [Hv Hq].
  exists p, n, l1, l2.
  split; [exact Hn|]. split; [exact Hw'|]. split; [exact Hl|].
  split; [exact Hv|]. split; [exact Hq|]. split; [exact Hd|].
  split; [exact Hl1|].
  intros m q Hm Hin. exact (find_none _ _ (Hno m Hm) q Hin).
Qed.

(** X15. When the first clock reading after the start already shows
    the timeout elapsed, [find_port] returns [None] without reading the
    port list at all; so with a timeout of zero or less, on a clock
    that does not run backwards, an attached device is never found. *)
Theorem find_port_elapsed_at_once :
  forall (fuel : nat) (vendor_id product_id t : Z) (w : W),
    (t <= time_time host (S (clock_calls w)) - time_time host (clock_calls w)
     -> find_port host (S fuel) vendor_id product_id (Some t) w
        = (Ok None, polled 2 0 w))
    /\ (t <= 0 ->
        time_time host (clock_calls w) <= time_time host (S (clock_calls w)) ->
        find_port host (S fuel) vendor_id product_id (Some t) w
        = (Ok None, polled 2 0 w)).
Proof.
  intros fuel vendor_id product_id t w.
  assert (t <= time_time host (S (clock_calls w))
               - time_time host (clock_calls w)
          -> find_port host (S fuel) vendor_id product_id (Some t) w
             = (Ok None, polled 2 0 w)) as Hgen.
  { intros Hel. rewrite find_port_as_loop, find_port_loop_step. cbv zeta.
    cbn [now snd clock_calls].
    apply Z.ltb_ge in Hel. rewrite Hel. reflexivity. }
  split; [exact Hgen|]. intros Ht Hmono. apply Hgen. lia.
Qed.

Lemma find_port_loop_finds_world (k : nat) :
  forall (fuel : nat) (vendor_id product_id start : Z) (w : W)
         (p : ListPortInfo),
    (forall j, (j < k)%nat ->
               find (port_matches vendor_id product_id)
                    (comports host (comports_calls w + j)) = None) ->
    find (port_matches vendor_id product_id)
         (comports host (comports_calls w + k)) = Some p ->
    (k < fuel)%nat ->
    find_port_loop host fuel vendor_id product_id None start w
    = (Ok (Some (device p)), polled 0 (S k) w).
Proof.
  induction k as [|k IH];
    intros fuel vendor_id product_id start w p Hno Hyes Hf;
    (destruct fuel as [|fuel]; [lia|]);
    rewrite find_port_loop_step; cbv zeta.
  - rewrite Nat.add_0_r in Hyes. now rewrite Hyes.
  - pose proof (Hno O ltac:(lia)) as H0. rewrite Nat.add_0_r in H0.
    rewrite H0.
    change (snd (list_ports host w)) with (polled 0 1 w).
    rewrite (IH fuel vendor_id product_id start (polled 0 1 w) p).
    + rewrite polled_polled. f_equal. f_equal; lia.
    + intros j Hj. cbn [polled comports_calls].
      replace (1 + comports_calls w + j)%nat
        with (comports_calls w + S j)%nat by lia.
      apply Hno. lia.
    + cbn [polled comports_calls].
      replace (1 + comports_calls w + k)%nat
        with (comports_calls w + S k)%nat by lia.
      exact Hyes.
    + lia.
Qed.

(** X16. [find_device] on an unbound session takes the first matching
    port: when the [k]-th port list polled is the first with a match
    and the loop is given more than [k] iterations, [self.port] becomes
    that port's device name and ['Found device = ...'] is logged.  If
    the name is not empty, [self.dev] is then the port opened under
    that name with the session's baud rate and timeout, and if opening
    fails the exception is raised with [self.port] already set and
    [self.dev] still [None].  If the name is empty, ['Device not
    found'] is raised instead, after the log line, with [self.port]
    the empty name and no port opened. *)
Theorem find_device_binds_first_match :
  forall (fuel k : nat) (vendor_id product_id : Z) (w : W)
         (p : ListPortInfo),
    dev w = None ->
    (forall j, (j < k)%nat ->
               find (port_matches vendor_id product_id)
                    (comports host (comports_calls w + j)) = None) ->
    find (port_matches vendor_id product_id)
         (comports host (comports_calls w + k)) = Some p ->
    (k < fuel)%nat ->
    let found := logged [LogFoundDevice (Some (device p))]
                        (set_port (Some (device p)) (polled 1 (S k) w)) in
    (device p <> EmptyString ->
     (forall d,
         serial_Serial host (device p) (baud w) (timeout w) = Some d ->
         find_device host fuel vendor_id product_id w
         = (Ok tt, set_dev (Some d) found))
     /\ (serial_Serial host (device p) (baud w) (timeout w) = None ->
         find_device host fuel vendor_id product_id w
         = (Raise SerialException, found)))
    /\ (device p = EmptyString ->
        find_device host fuel vendor_id product_id w
        = (Raise (RuntimeError DeviceNotFound), found))
    /\ dev found = None
    /\ vid p = Some vendor_id /\ pid p = Some product_id.
Proof.
  intros fuel k vendor_id product_id w p Hd Hno Hyes Hf. cbv zeta.
  assert (find_port host fuel vendor_id product_id None w
          = (Ok (Some (device p)), polled 1 (S k) w)) as Hfp.
  { rewrite find_port_as_loop.
    change (snd (now host w)) with (polled 1 0 w).
    rewrite (find_port_loop_finds_world k fuel vendor_id product_id _
               (polled 1 0 w) p); [| | |exact Hf].
    - rewrite polled_polled. f_equal. f_equal; lia.
    - intros j Hj. cbn [polled comports_calls]. now apply Hno.
    - cbn [polled comports_calls]. exact Hyes. }
  assert (device p <> EmptyString ->
          forall o,
             match serial_Serial host (device p) (baud w) (timeout w) with
             | Some d0 =>
                 (Ok tt,
                  set_dev (Some d0)
                    (logged [LogFoundDevice (Some (device p))]
                       (set_port (Some (device p)) (polled 1 (S k) w))))
             | None =>
                 (Raise SerialException,
                  logged [LogFoundDevice (Some (device p))]
                    (set_port (Some (device p)) (polled 1 (S k) w)))
             end = o ->
             find_device host fuel vendor_id product_id w = o) as Hrun.
  { intros Hname o <-. unfold find_device. rewrite Hd.
    rewrite (bind_ok _ _ _ _ _ Hfp).
    unfold bind at 1. unfold bind at 1. unfold logging_info at 1.
    rewrite (truthy_named _ Hname). cbn [negb]. reflexivity. }
  split; [|split; [|split]].
  - intros Hname. split.
    + intros d Ed. apply (Hrun Hname). now rewrite Ed.
    + intros Ed. apply (Hrun Hname). now rewrite Ed.
  - intros Hname. unfold find_device. rewrite Hd.
    rewrite (bind_ok _ _ _ _ _ Hfp).
    unfold bind at 1. unfold bind at 1. unfold logging_info at 1.
    rewrite Hname. reflexivity.
  - cbn. exact Hd.
  - apply port_matches_ids. apply find_some in Hyes. tauto.
Qed.

(* ---------------------------------------------------------------- *)
(** *** The run of the tool *)

(** X17. After the handshake (or without it, with [-s]) and a
    successful [identify]: with [-i] the session ends there and the
    payload file is not read.  Otherwise the payload file is read only
    now, and a file that cannot be read raises [OSError] with the
    device already identified; [send_da] gets load address 0x200000,
    the byte length of the payload as DA length and 0x100 as signature
    length; if it raises, the session ends with its exception and
    [jump_da] is not run; if it returns, its checksum is dropped and
    the session is [jump_da(0x200000)]. *)
Theorem session_download_order :
  forall (fuel : nat) (args : Args) (w w0 w1 : W),
    (if negb (skip_handshake args) then handshake fuel else ret tt) w
    = (Ok tt, w0) ->
    identify w0 = (Ok tt, w1) ->
    (mode_identify args = true ->
     session host fuel args w = (Ok tt, w1))
    /\ (mode_identify args = false ->
        open_read host (payload args) = None ->
        session host fuel args w = (Raise OSError, w1))
    /\ (mode_identify args = false ->
        forall da,
          open_read host (payload args) = Some da ->
          let w2 := logged [LogLoadPayload (payload args) (len da)] w1 in
          (forall e w3,
              send_da 0x200000 (len da) 0x100 da w2 = (Raise e, w3) ->
              session host fuel args w = (Raise e, w3))
          /\ (forall checksum w3,
                 send_da 0x200000 (len da) 0x100 da w2 = (Ok checksum, w3) ->
                 session host fuel args w = jump_da 0x200000 w3)).
Proof.
  intros fuel args w w0 w1 Hpre Hid.
  assert (forall k : M W unit,
             ((if negb (skip_handshake args) then handshake fuel else ret tt) ;;
              identify ;; k) w = k w1) as Hstart.
  { intros k. rewrite (bind_ok _ _ _ _ _ Hpre).
    now rewrite (bind_ok _ _ _ _ _ Hid). }
  unfold session. rewrite Hstart.
  split; [|split].
  - intros ->. reflexivity.
  - intros -> Hf. cbn [negb]. unfold bind at 1. now rewrite Hf.
  - intros -> da Hf. cbv zeta. cbn [negb].
    assert (forall k : bytes -> M W unit,
               (content <- (fun w2 : W =>
                              match open_read host (payload args) with
                              | Some content => (Ok content, w2)
                              | None => (Raise OSError, w2)
                              end) ;;
                k content) w1 = k da w1) as Hread.
    { intros k. unfold bind at 1. now rewrite Hf. }
    rewrite Hread, bind_log.
    split.
    + intros e w3 E. now rewrite (bind_raise _ _ _ _ _ E).
    + intros checksum w3 E. now rewrite (bind_ok _ _ _ _ _ E).
Qed.

(** X18. With [-p name] (a nonempty name) the tool opens that port in
    the constructor, with 115200 baud and a 5 second timeout, and
    [find_device] then only logs ['Device already found!']: neither the
    clock nor the port list is read, and the session runs on the port
    opened.  If the port cannot be opened the constructor's exception
    ends the run before anything is logged. *)
Theorem main_with_port :
  forall (fuel : nat) (args : Args) (w : W) (name : string),
    arg_port args = Some name ->
    name <> EmptyString ->
    (forall d,
        serial_Serial host name 115200 5 = Some d ->
        main host fuel args w
        = session host fuel args
            (logged [LogWaitingForDevice; LogDeviceAlreadyFound]
                    (mkWorld (Some d) (Some name) 115200 5 (trace w) (log w)
                             (clock_calls w) (comports_calls w))))
    /\ (serial_Serial host name 115200 5 = None ->
        main host fuel args w
        = (Raise SerialException,
           mkWorld None (Some name) 115200 5 (trace w) (log w)
                   (clock_calls w) (comports_calls w))).
Proof.
  intros fuel args w name Hp Hname. unfold main. rewrite Hp.
  unfold bind at 1. unfold Device_init. rewrite (truthy_named _ Hname).
  split.
  - intros d Ed. rewrite Ed. rewrite bind_log.
    unfold bind at 1. unfold find_device. cbn [dev set_dev logged].
    unfold logging_info. unfold logged, set_dev. cbn.
    rewrite <- app_assoc. reflexivity.
  - intros Ed. now rewrite Ed.
Qed.


Lemma jump_da_run (d : T) (w : W) (address : Z) (a : bytes) :
  dev w = Some d ->
  to_bytes address 4 Big = Ok a ->
  jump_da address w
  = (Ok tt,
     played (snd (t_read 2 (snd (t_read 1 (t_write a
                    (snd (t_read 1 (t_write [xd5] d))))))))
            [EvWrite [xd5]; EvRead 1 (fst (t_read 1 (t_write [xd5] d)));
             EvWrite a;
             EvRead 1 (fst (t_read 1 (t_write a
                         (snd (t_read 1 (t_write [xd5] d))))));
             EvRead 2 (fst (t_read 2 (snd (t_read 1 (t_write a
                         (snd (t_read 1 (t_write [xd5] d))))))))]
            (logged [LogJumpToDA address] w)).
Proof.
  intros Hd Ha. unfold jump_da. rewrite bind_log, bind_lift.
  change (to_bytes (value JUMP_DA) 1 Big) with (Ok [xd5]). cbv iota beta.
  assert (dev (logged [LogJumpToDA address] w) = Some d) as Hd' by exact Hd.
  next. rewrite bind_lift, Ha; cbv iota beta. do 2 next. reflexivity.
Qed.

End Properties.

(* ================================================================== *)
(** ** The properties on scripted devices *)

Lemma silent_device_never_answers :
  forall n, Forall garbage (replies n silent_device).
Proof.
  induction n as [|n IH]; [constructor|].
  cbn [replies]. constructor; [discriminate | exact IH].
Qed.

Lemma handshake_sync_spec_witness :
  handshake_sync 5 (bound late_device)
  = (Ok tt,
     played (mkWire [] [[xf5]; [x00]; [xfa]])
            [EvWrite [xa0]; EvRead 1 [x00]; EvResetInputBuffer;
             EvWrite [xa0]; EvRead 1 []; EvResetInputBuffer;
             EvWrite [xa0]; EvRead 1 [x5f]]
            (bound late_device))
  /\ fst (handshake_sync 2 (bound late_device)) = OutOfFuel
  /\ forall fuel,
       fst (handshake_sync fuel (bound silent_device)) = OutOfFuel.
Proof.
  assert (Forall garbage (replies (3 - 1) late_device)) as Hg.
  { repeat constructor; discriminate. }
  destruct (proj1 (@handshake_sync_spec Wire Wire_Transport)
                  3%nat late_device (bound late_device)
                  eq_refl (le_S _ _ (le_S _ _ (le_n 1))) Hg eq_refl)
    as (Hret & Hrun & _ & _).
  split; [exact (Hret 5%nat ltac:(lia))|].
  split; [exact (Hrun 2%nat ltac:(lia))|].
  intros fuel.
  rewrite (proj2 (@handshake_sync_spec Wire Wire_Transport)
                 silent_device (bound silent_device)
                 eq_refl silent_device_never_answers fuel).
  reflexivity.
Defined.

Lemma handshake_mismatch_is_fatal_witness :
  let stopped :=
    played (mkWire [] [[xfa]])
           [EvWrite [xa0]; EvRead 1 [x00]; EvResetInputBuffer;
            EvWrite [xa0]; EvRead 1 []; EvResetInputBuffer;
            EvWrite [xa0]; EvRead 1 [x5f];
            EvWrite [x0a]; EvRead 1 [xf5];
            EvWrite [x50]; EvRead 1 [x00]]
           (bound late_device) in
  handshake 5 (bound late_device)
  = (Raise (RuntimeError (Expected [xaf] [x00])), stopped)
  /\ session (bench late_device) 5 identify_only (bound late_device)
     = (Raise (RuntimeError (Expected [xaf] [x00])), stopped).
Proof.
  assert (handshake_sync 5 (bound late_device)
          = (Ok tt,
             played (mkWire [] [[xf5]; [x00]; [xfa]])
                    [EvWrite [xa0]; EvRead 1 [x00]; EvResetInputBuffer;
                     EvWrite [xa0]; EvRead 1 []; EvResetInputBuffer;
                     EvWrite [xa0]; EvRead 1 [x5f]]
                    (bound late_device))) as Hsync by reflexivity.
  destruct (@handshake_mismatch_is_fatal Wire Wire_Transport
              (bench late_device) 5%nat (bound late_device) _
              (mkWire [] [[xf5]; [x00]; [xfa]]) Hsync eq_refl)
    as (_ & H2 & _ & _ & Hstop).
  assert ([x00] <> [xaf]) as Hne by discriminate.
  pose proof (H2 eq_refl Hne) as Hfail.
  split; [exact Hfail|].
  exact (Hstop identify_only _ _ eq_refl Hfail).
Defined.

Lemma identify_logs_identification_witness :
  identify (bound (identity_device x12 x34))
  = (Ok tt,
     logged [LogHwCode 0x1234; LogHwSubCode 0x8A00; LogHwVersion 0xCA00;
             LogSwVersion 1; LogMeId [xaa; xbb]; LogSocId [x01; x02; x03]]
            (played (mkWire [] [])
                    [EvWrite [xfd]; EvRead 1 [xfd];
                     EvRead 2 [x12; x34]; EvRead 2 [x00; x00];
                     EvWrite [xfc]; EvRead 1 [xfc];
                     EvRead 2 [x8a; x00]; EvRead 2 [xca; x00];
                     EvRead 2 [x00; x01]; EvRead 2 [x00; x00];
                     EvWrite [xe1]; EvRead 1 [xe1];
                     EvRead 4 [x00; x00; x00; x02];
                     EvRead 2 [xaa; xbb]; EvRead 2 [x00; x00];
                     EvWrite [xe7]; EvRead 1 [xe7];
                     EvRead 4 [x00; x00; x00; x03];
                     EvRead 3 [x01; x02; x03]; EvRead 2 [x00; x00]]
                    (bound (identity_device x12 x34)))).
Proof.
  pose (w := bound (identity_device x12 x34)).
  pose (w1 := snd (get_hw_code w)).
  pose (w2 := snd (get_hw_sw_ver w1)).
  pose (w3 := snd (get_me_id w2)).
  pose (w4 := snd (get_soc_id w3)).
  assert (get_hw_code w = (Ok 0x1234, w1)) as E1
      by (vm_compute; reflexivity).
  assert (get_hw_sw_ver w1 = (Ok (0x8A00, 0xCA00, 1), w2)) as E2
      by (vm_compute; reflexivity).
  assert (get_me_id w2 = (Ok [xaa; xbb], w3)) as E3
      by (vm_compute; reflexivity).
  assert (get_soc_id w3 = (Ok [x01; x02; x03], w4)) as E4
      by (vm_compute; reflexivity).
  destruct (@identify_logs_identification Wire Wire_Transport
              (identity_device x12 x34) w w1 w2 w3 w4
              0x1234 (0x8A00, 0xCA00, 1) [xaa; xbb] [x01; x02; x03]
              eq_refl E1 E2 E3 E4) as (Hid & _).
  fold w. rewrite Hid. vm_compute. reflexivity.
Defined.

(** C5, as the claim has it, fails: [identify] returns the same value
    ([None]) on a device whose hardware code is 0x1234 and on one whose
    hardware code is 0x4321, so no hardware code can be read off what
    it returns. *)
Lemma identify_returns_no_record :
  fst (identify (bound (identity_device x12 x34))) = Ok tt
  /\ fst (identify (bound (identity_device x43 x21))) = Ok tt
  /\ ~ exists hw_code_of : unit -> Z,
         (forall r, fst (identify (bound (identity_device x12 x34))) = Ok r ->
                    hw_code_of r = 0x1234)
         /\ (forall r, fst (identify (bound (identity_device x43 x21))) = Ok r ->
                       hw_code_of r = 0x4321).
Proof.
  split; [reflexivity|]. split; [reflexivity|].
  intros (f & H1 & H2).
  specialize (H1 tt eq_refl). specialize (H2 tt eq_refl).
  rewrite H1 in H2. discriminate H2.
Qed.

Lemma empty_identity_aborts_witness :
  get_me_id (bound (mkWire [] [[xe1; x00; x00; x00; x00; xaa]]))
  = (Raise (RuntimeError MeIdLengthIsZero),
     played (mkWire [xaa] [])
            [EvWrite [xe1]; EvRead 1 [xe1]; EvRead 4 [x00; x00; x00; x00]]
            (bound (mkWire [] [[xe1; x00; x00; x00; x00; xaa]])))
  /\ get_soc_id (bound no_soc_id_device)
     = (Raise (RuntimeError SocIdLengthIsZero),
        played (mkWire [] [])
               [EvWrite [xe7]; EvRead 1 [xe7]; EvRead 4 [x00; x00; x00; x00]]
               (bound no_soc_id_device))
  /\ fst (identify (bound no_me_id_device))
     = Raise (RuntimeError MeIdLengthIsZero)
  /\ log (snd (identify (bound no_me_id_device))) = [].
Proof.
  destruct (@empty_identity_aborts Wire Wire_Transport)
    as (Hme & Hsoc & Habort & Hlog).
  split.
  { pose proof (Hme (mkWire [] [[xe1; x00; x00; x00; x00; xaa]])
                    (bound (mkWire [] [[xe1; x00; x00; x00; x00; xaa]]))
                    eq_refl) as X.
    cbv zeta in X. rewrite X; vm_compute; reflexivity. }
  split.
  { pose proof (Hsoc no_soc_id_device (bound no_soc_id_device) eq_refl) as X.
    cbv zeta in X. rewrite X; vm_compute; reflexivity. }
  pose (w := bound no_me_id_device).
  pose (w1 := snd (get_hw_code w)).
  pose (w2 := snd (get_hw_sw_ver w1)).
  pose (w3 := snd (get_me_id w2)).
  assert (get_hw_code w = (Ok 0x1234, w1)) as E1
      by (vm_compute; reflexivity).
  assert (get_hw_sw_ver w1 = (Ok (0x8A00, 0xCA00, 1), w2)) as E2
      by (vm_compute; reflexivity).
  assert (get_me_id w2 = (Raise (RuntimeError MeIdLengthIsZero), w3)) as E3
      by (vm_compute; reflexivity).
  destruct (Habort w (RuntimeError MeIdLengthIsZero)) as (_ & _ & H3 & _).
  pose proof (H3 0x1234 (0x8A00, 0xCA00, 1) w1 w2 w3 E1 E2 E3) as Hid.
  fold w. rewrite Hid. split; [reflexivity|]. cbn [snd].
  rewrite (Hlog no_me_id_device w w3 _ eq_refl Hid). reflexivity.
Defined.

Lemma send_da_spec_witness :
  fst (send_da 0x200000 1024 256 payload_1k (bound (da_device x00 x00)))
  = Ok 0xABCD
  /\ fst (send_da 0x200000 1024 256 payload_1k (bound (da_device x00 x01)))
     = Raise (RuntimeError (StatusIs 0x0001))
  /\ send_da 0x200000 1024 256 payload_1k (bound refusing_da_device)
     = (Raise (RuntimeError (StatusIs 0x1D0C)),
        played (mkWire [] [])
               [EvWrite [xd7]; EvRead 1 [xd7];
                EvWrite [x00; x20; x00; x00]; EvRead 4 [x00; x20; x00; x00];
                EvWrite [x00; x00; x04; x00]; EvRead 4 [x00; x00; x04; x00];
                EvWrite [x00; x00; x01; x00]; EvRead 4 [x00; x00; x01; x00];
                EvRead 2 [x1d; x0c]]
               (logged [LogSendDA 0x200000 1024 256]
                       (bound refusing_da_device))).
Proof.
  assert (0x1D0C <> 0) as Hn1 by discriminate.
  assert (0x0001 <> 0) as Hn2 by discriminate.
  split; [|split].
  - destruct (@send_da_spec Wire Wire_Transport (da_device x00 x00)
                (bound (da_device x00 x00)) 0x200000 1024 256 payload_1k
                _ _ _ eq_refl eq_refl eq_refl eq_refl)
      as (_ & _ & _ & _ & Hok & _).
    now rewrite (Hok 0xABCD eq_refl eq_refl eq_refl).
  - destruct (@send_da_spec Wire Wire_Transport (da_device x00 x01)
                (bound (da_device x00 x01)) 0x200000 1024 256 payload_1k
                _ _ _ eq_refl eq_refl eq_refl eq_refl)
      as (_ & _ & _ & _ & _ & Hfail).
    now rewrite (Hfail 0xABCD 0x0001 eq_refl eq_refl eq_refl Hn2).
  - destruct (@send_da_spec Wire Wire_Transport refusing_da_device
                (bound refusing_da_device) 0x200000 1024 256 payload_1k
                _ _ _ eq_refl eq_refl eq_refl eq_refl)
      as (_ & _ & _ & Hrefused & _).
    exact (Hrefused 0x1D0C eq_refl Hn1).
Defined.

Lemma jump_da_ignores_status_witness :
  jump_da 0x200000 (bound jump_device)
  = (Ok tt,
     played (mkWire [x00; x00; x01] [])
            [EvWrite [xd5]; EvRead 1 [xd5];
             EvWrite [x00; x20; x00; x00]; EvRead 1 [x00];
             EvRead 2 [x20; x00]]
            (logged [LogJumpToDA 0x200000] (bound jump_device))).
Proof.
  exact (proj2 (@jump_da_ignores_status Wire Wire_Transport jump_device
                  (bound jump_device) 0x200000 [x00; x20; x00; x00]
                  eq_refl eq_refl)).
Defined.

(** C8, where the code departs from it.  A device echoes JUMP_DA and
    the 4-byte address in full and then sends its 2-byte status.
    [jump_da] reads one byte after the address, so the two bytes it
    then reads and drops are the second and third byte of the address
    echo, not the status: with address 0x200000 and device status
    0x0001 it drops [20 00], with address 0x12345678 and device status
    0x0000 it drops [34 56]; in both runs it returns with the fourth
    echo byte and the status the device sent still unread in the input
    buffer. *)
Theorem jump_da_misreads_status :
  jump_da 0x200000
          (bound (mkWire [] [[xd5]; [x00; x20; x00; x00; x00; x01]]))
  = (Ok tt,
     played (mkWire [x00; x00; x01] [])
            [EvWrite [xd5]; EvRead 1 [xd5];
             EvWrite [x00; x20; x00; x00]; EvRead 1 [x00];
             EvRead 2 [x20; x00]]
            (logged [LogJumpToDA 0x200000]
                    (bound (mkWire [] [[xd5];
                                       [x00; x20; x00; x00; x00; x01]]))))
  /\ jump_da 0x12345678
             (bound (mkWire [] [[xd5]; [x12; x34; x56; x78; x00; x00]]))
     = (Ok tt,
        played (mkWire [x78; x00; x00] [])
               [EvWrite [xd5]; EvRead 1 [xd5];
                EvWrite [x12; x34; x56; x78]; EvRead 1 [x12];
                EvRead 2 [x34; x56]]
               (logged [LogJumpToDA 0x12345678]
                       (bound (mkWire [] [[xd5];
                                          [x12; x34; x56; x78;
                                           x00; x00]])))).
Proof. split; reflexivity. Qed.

Lemma low_half_of_word (r0 r1 r2 r3 : byte) (reg : Z) :
  from_bytes [r0; r1; r2; r3] 4 Big = Ok reg ->
  from_bytes [r2; r3] 2 Big = Ok (reg mod 65536).
Proof.
  intros E.
  change (from_bytes [r0; r1; r2; r3] 4 Big)
    with (Ok (le_value [r3; r2; r1; r0])) in E.
  change (from_bytes [r2; r3] 2 Big) with (Ok (le_value [r3; r2])).
  assert (reg = le_value [r3; r2; r1; r0]) as -> by congruence.
  cbn [le_value].
  pose proof (Z_of_byte_range r0). pose proof (Z_of_byte_range r1).
  pose proof (Z_of_byte_range r2). pose proof (Z_of_byte_range r3).
  f_equal.
  apply (Z.mod_unique _ _ (Z_of_byte r1 + 256 * Z_of_byte r0)); lia.
Qed.

(** X19. On every device that echoes PWR_INIT and its two fields in
    full, whatever status it reports afterwards, what [power_init]
    tests as status is the low half of the register: it returns
    normally exactly when [reg mod 0x10000 = 0] and raises with
    [reg mod 0x10000] as the code otherwise. *)
Lemma power_init_tests_register_echo (reg val : Z) (r v status : bytes) :
  to_bytes reg 4 Big = Ok r ->
  to_bytes val 4 Big = Ok v ->
  fst (power_init reg val (bound (pmic_device r v status)))
  = if reg mod 65536 =? 0 then Ok tt
    else Raise (RuntimeError (StatusIs (reg mod 65536))).
Proof.
  intros Hr Hv.
  destruct (to_bytes_4_inv reg r Hr) as [Lr Dr].
  destruct (to_bytes_4_inv val v Hv) as [Lv _].
  destruct r as [|r0 [|r1 [|r2 [|r3 [|]]]]]; try discriminate Lr.
  destruct v as [|v0 [|v1 [|v2 [|v3 [|]]]]]; try discriminate Lv.
  rewrite (power_init_run (pmic_device [r0; r1; r2; r3] [v0; v1; v2; v3] status)
             (bound (pmic_device [r0; r1; r2; r3] [v0; v1; v2; v3] status))
             reg val _ _ eq_refl Hr Hv).
  cbn [fst]. unfold after_status.
  change (fst (t_read 2 _)) with [r2; r3].
  now rewrite (low_half_of_word r0 r1 r2 r3 reg Dr).
Qed.

(** C9, where the code departs from it.  A device echoes PWR_INIT, the
    register and the value in full and then reports its status.
    [power_init] reads one byte after each 4-byte field, so the two
    bytes it takes for the status are the low half of the register's
    echo: with register 0x1234 and device status 0x0000 it raises
    ['status is 0x1234'], and with register 0x10000 and device status
    0x0001 it returns normally; in both runs the status the device
    reported is still unread in the input buffer. *)
Theorem power_init_misreads_status :
  power_init 0x1234 0
             (bound (pmic_device [x00; x00; x12; x34] [x00; x00; x00; x00]
                                 [x00; x00]))
  = (Raise (RuntimeError (StatusIs 0x1234)),
     played (mkWire [x00; x00; x00; x00; x00; x00] [])
            [EvWrite [xc4]; EvRead 1 [xc4];
             EvWrite [x00; x00; x12; x34]; EvRead 1 [x00];
             EvWrite [x00; x00; x00; x00]; EvRead 1 [x00];
             EvRead 2 [x12; x34]]
            (logged [LogInitPMIC 0x1234 0]
                    (bound (pmic_device [x00; x00; x12; x34]
                                        [x00; x00; x00; x00] [x00; x00]))))
  /\ power_init 0x10000 0
                (bound (pmic_device [x00; x01; x00; x00] [x00; x00; x00; x00]
                                    [x00; x01]))
     = (Ok tt,
        played (mkWire [x00; x00; x00; x00; x00; x01] [])
               [EvWrite [xc4]; EvRead 1 [xc4];
                EvWrite [x00; x01; x00; x00]; EvRead 1 [x00];
                EvWrite [x00; x00; x00; x00]; EvRead 1 [x01];
                EvRead 2 [x00; x00]]
               (logged [LogInitPMIC 0x10000 0]
                       (bound (pmic_device [x00; x01; x00; x00]
                                           [x00; x00; x00; x00]
                                           [x00; x01])))).
Proof. split; reflexivity. Qed.

Lemma find_port_none_needs_timeout_witness :
  fst (find_port (bench silent_device) 3 0x0E8D 0x2000 None
                 (bound silent_device))
  = Ok (Some "/dev/ttyACM0"%string)
  /\ forall fuel o w',
       find_device (bench silent_device) fuel 0x0E8D 0x2000
                   (mkWorld None None 115200 5 [] [] O O) = (o, w') ->
       o <> Raise (RuntimeError DeviceNotFound).
Proof.
  destruct (@find_port_none_needs_timeout Wire
              (bench silent_device) 0x0E8D 0x2000 (bound silent_device))
    as (_ & _ & Hfinds & _ & _ & _).
  split.
  - apply (Hfinds O
             {| device := "/dev/ttyACM0"; vid := Some 0x0E8D;
                pid := Some 0x2000 |}); [intros j Hj; lia|reflexivity|lia].
  - destruct (@find_port_none_needs_timeout Wire
                (bench silent_device) 0x0E8D 0x2000
                (mkWorld None None 115200 5 [] [] O O))
      as (_ & _ & _ & _ & _ & Hdev).
    apply Hdev; [reflexivity|].
    intros n p [<-|[]]. discriminate.
Defined.

(** C10, as the claim has it, fails: on a host whose matching port is
    listed with an empty device name, [find_port] without a timeout
    returns that name, not [None], and [find_device] on an unbound
    session still takes its ['Device not found'] branch, the test being
    [if not self.port]: it raises after ['Found device = '] is logged,
    with [self.port] the empty name and no port opened. *)
Lemma find_device_reaches_not_found :
  find_port (unnamed_port silent_device) 1 0x0E8D 0x2000 None
            (mkWorld None None 115200 5 [] [] O O)
  = (Ok (Some EmptyString),
     polled 1 1 (mkWorld None None 115200 5 [] [] O O))
  /\ find_device (unnamed_port silent_device) 1 0x0E8D 0x2000
                 (mkWorld None None 115200 5 [] [] O O)
     = (Raise (RuntimeError DeviceNotFound),
        logged [LogFoundDevice (Some EmptyString)]
               (set_port (Some EmptyString)
                         (polled 1 1
                                 (mkWorld None None 115200 5 [] [] O O)))).
Proof. split; reflexivity. Qed.

(* ================================================================== *)
(** ** Further properties on scripted devices *)

Lemma opcodes_are_distinct_bytes_witness :
  value SEND_DA <> value JUMP_DA
  /\ ~ In (value GET_HW_CODE)
          [0xA0; 0x5F; 0x0A; 0xF5; 0x50; 0xAF; 0x05; 0xFA].
Proof.
  split.
  - apply (proj1 opcodes_are_distinct_bytes SEND_DA JUMP_DA). discriminate.
  - exact (proj1 (proj2 (proj2 opcodes_are_distinct_bytes GET_HW_CODE))).
Defined.

(** X20. [check] returns [True] exactly when the two byte strings are
    equal and raises otherwise, with the expected and the received
    bytes in the exception: it never returns [False]. *)
Theorem check_never_returns_false :
  forall test expected : bytes,
    (check test expected = Ok true <-> test = expected)
    /\ (test <> expected ->
        check test expected = Raise (RuntimeError (Expected expected test)))
    /\ check test expected <> Ok false.
Proof.
  intros test expected. unfold check.
  destruct (bytes_eqb test expected) eqn:E; cbn [negb].
  - apply bytes_eqb_eq in E. split; [tauto|]. split; [tauto | discriminate].
  - apply bytes_eqb_neq in E. split; [|split; [reflexivity | discriminate]].
    split; [discriminate | contradiction].
Qed.

Lemma check_never_returns_false_witness :
  check [xf5] [xf5] = Ok true
  /\ check [x00] [xf5] = Raise (RuntimeError (Expected [xf5] [x00])).
Proof.
  split.
  - apply (proj1 (check_never_returns_false [xf5] [xf5])). reflexivity.
  - apply (proj1 (proj2 (check_never_returns_false [x00] [xf5]))).
    discriminate.
Defined.

Lemma unbound_session_raises_witness :
  let w := mkWorld (T := Wire) None None 115200 5 [] [] O O in
  get_hw_code w = (Raise AttributeError, w)
  /\ identify w = (Raise AttributeError, w)
  /\ send_da 0x200000 4 0x100 [x01; x02; x03; x04] w
     = (Raise AttributeError, logged [LogSendDA 0x200000 4 0x100] w).
Proof.
  intros w.
  destruct (@unbound_session_raises Wire Wire_Transport w eq_refl)
    as (_ & Hhw & _ & _ & _ & _ & Hid & _ & _ & Hda & _).
  split; [exact Hhw|]. split; [exact Hid|]. apply Hda.
Defined.

Lemma get_hw_code_spec_witness :
  fst (get_hw_code (bound (mkWire [] [[xfd; x12; x34; x00; x00]])))
  = Ok 0x1234
  /\ fst (get_hw_code (bound (mkWire [] [[xfd; x12; x34; x00]])))
     = Raise StructError
  /\ fst (get_hw_code (bound (mkWire [] [[xfd; x12; x34; x1d; x0c]])))
     = Raise (RuntimeError (StatusIs 0x1D0C)).
Proof.
  split; [|split].
  - pose proof (@get_hw_code_spec Wire Wire_Transport
                  (mkWire [] [[xfd; x12; x34; x00; x00]])
                  (bound (mkWire [] [[xfd; x12; x34; x00; x00]])) eq_refl)
      as X.
    cbv zeta in X. destruct X as (_ & _ & _ & _ & Hok).
    exact (proj1 (Hok 0x1234 ltac:(vm_compute; reflexivity)
                      ltac:(vm_compute; reflexivity))).
  - pose proof (@get_hw_code_spec Wire Wire_Transport
                  (mkWire [] [[xfd; x12; x34; x00]])
                  (bound (mkWire [] [[xfd; x12; x34; x00]])) eq_refl) as X.
    cbv zeta in X. destruct X as (_ & Hshort & _).
    apply Hshort. vm_compute. discriminate.
  - pose proof (@get_hw_code_spec Wire Wire_Transport
                  (mkWire [] [[xfd; x12; x34; x1d; x0c]])
                  (bound (mkWire [] [[xfd; x12; x34; x1d; x0c]])) eq_refl)
      as X.
    cbv zeta in X. destruct X as (_ & _ & Hst & _).
    apply (Hst 0x1D0C); [vm_compute; reflexivity | discriminate].
Defined.

Lemma get_hw_sw_ver_spec_witness :
  fst (get_hw_sw_ver
         (bound (mkWire [] [[xfc; x8a; x00; xca; x00; x00; x01; x00; x00]])))
  = Ok (0x8A00, 0xCA00, 1)
  /\ fst (get_hw_sw_ver
            (bound (mkWire [] [[xfc; x8a; x00; xca; x00; x00; x01; x00]])))
     = Raise StructError
  /\ fst (get_hw_sw_ver
            (bound (mkWire [] [[xfc; x8a; x00; xca; x00; x00; x01; x00; x07]])))
     = Raise (RuntimeError (StatusIs 7)).
Proof.
  split; [|split].
  - pose proof (@get_hw_sw_ver_spec Wire Wire_Transport _
                  (bound (mkWire []
                            [[xfc; x8a; x00; xca; x00; x00; x01; x00; x00]]))
                  eq_refl) as X.
    cbv zeta in X. destruct X as (_ & _ & _ & _ & Hok).
    exact (proj1 (Hok 0x8A00 0xCA00 1
                      ltac:(vm_compute; reflexivity)
                      ltac:(vm_compute; reflexivity)
                      ltac:(vm_compute; reflexivity)
                      ltac:(vm_compute; reflexivity))).
  - pose proof (@get_hw_sw_ver_spec Wire Wire_Transport _
                  (bound (mkWire []
                            [[xfc; x8a; x00; xca; x00; x00; x01; x00]]))
                  eq_refl) as X.
    cbv zeta in X. destruct X as (_ & Hshort & _).
    apply Hshort. vm_compute. discriminate.
  - pose proof (@get_hw_sw_ver_spec Wire Wire_Transport _
                  (bound (mkWire []
                            [[xfc; x8a; x00; xca; x00; x00; x01; x00; x07]]))
                  eq_refl) as X.
    cbv zeta in X. destruct X as (_ & _ & Hst & _).
    apply (Hst 7); [vm_compute; reflexivity | discriminate].
Defined.

Lemma get_preloader_version_spec_witness :
  fst (get_preloader_version (bound (mkWire [] [[x00; x03]])))
  = Raise StructError
  /\ fst (get_preloader_version (bound (mkWire [] [[x03]]))) = Ok 3.
Proof.
  split.
  - pose proof (@get_preloader_version_spec Wire Wire_Transport _
                  (bound (mkWire [] [[x00; x03]])) eq_refl) as X.
    cbv zeta in X. destruct X as (_ & Hfull & _).
    apply Hfull. vm_compute. discriminate.
  - pose proof (@get_preloader_version_spec Wire Wire_Transport _
                  (bound (mkWire [] [[x03]])) eq_refl) as X.
    cbv zeta in X. destruct X as (_ & _ & Hone).
    exact (Hone x03 ltac:(vm_compute; reflexivity)).
Defined.

Lemma identity_is_what_was_read_witness :
  fst (get_me_id
         (bound (mkWire [] [[xe1; x00; x00; x00; x02; xaa; xbb; x00; x00]])))
  = Ok [xaa; xbb]
  /\ fst (get_soc_id
            (bound (mkWire [] [[xe7; x00; x00; x00; x02; x01; x02; x00; x09]])))
     = Raise (RuntimeError (StatusIs 9)).
Proof.
  split.
  - pose proof (proj1 (@identity_is_what_was_read Wire Wire_Transport _
                         (bound (mkWire []
                                   [[xe1; x00; x00; x00; x02;
                                     xaa; xbb; x00; x00]]))
                         2 eq_refl)) as X.
    cbv zeta in X.
    specialize (X ltac:(vm_compute; reflexivity) ltac:(discriminate)).
    destruct X as (_ & _ & Hok & _).
    apply Hok. vm_compute. reflexivity.
  - pose proof (proj2 (@identity_is_what_was_read Wire Wire_Transport _
                         (bound (mkWire []
                                   [[xe7; x00; x00; x00; x02;
                                     x01; x02; x00; x09]]))
                         2 eq_refl)) as X.
    cbv zeta in X.
    specialize (X ltac:(vm_compute; reflexivity) ltac:(discriminate)).
    destruct X as (_ & _ & _ & Hst & _).
    apply (Hst 9); [vm_compute; reflexivity | discriminate].
Defined.

Lemma power_deinit_spec_witness :
  fst (power_deinit (bound (mkWire [] [[xc5; x00; x00]]))) = Ok tt
  /\ fst (power_deinit (bound (mkWire [] [[xc5; x00; x02]])))
     = Raise (RuntimeError (StatusIs 2))
  /\ fst (power_deinit (bound (mkWire [] [[xc5]]))) = Raise StructError.
Proof.
  split; [|split].
  - pose proof (@power_deinit_spec Wire Wire_Transport _
                  (bound (mkWire [] [[xc5; x00; x00]])) eq_refl) as X.
    cbv zeta in X. destruct X as (_ & Hiff & _).
    apply (proj2 Hiff). vm_compute. reflexivity.
  - pose proof (@power_deinit_spec Wire Wire_Transport _
                  (bound (mkWire [] [[xc5; x00; x02]])) eq_refl) as X.
    cbv zeta in X. destruct X as (_ & _ & Hst & _).
    apply (Hst 2); [vm_compute; reflexivity | discriminate].
  - pose proof (@power_deinit_spec Wire Wire_Transport _
                  (bound (mkWire [] [[xc5]])) eq_refl) as X.
    cbv zeta in X. destruct X as (_ & _ & _ & Hshort).
    apply Hshort. vm_compute. discriminate.
Defined.

Lemma header_field_out_of_range_witness :
  send_da 0x200000 0x100000000 0x100 [x01] (bound (da_device x00 x00))
  = (Raise StructError,
     played (mkWire [] [[x00; x00; x04; x00];
                        [x00; x00; x01; x00; x00; x00];
                        [xab; xcd; x00; x00]])
            [EvWrite [xd7]; EvRead 1 [xd7];
             EvWrite [x00; x20; x00; x00]; EvRead 4 [x00; x20; x00; x00]]
            (logged [LogSendDA 0x200000 0x100000000 0x100]
                    (bound (da_device x00 x00))))
  /\ jump_da (-1) (bound jump_device)
     = (Raise StructError,
        played (mkWire [] [[x00; x20; x00; x00; x00; x01]])
               [EvWrite [xd5]; EvRead 1 [xd5]]
               (logged [LogJumpToDA (-1)] (bound jump_device))).
Proof.
  split.
  - pose proof (@header_field_out_of_range Wire Wire_Transport
                  (da_device x00 x00) (bound (da_device x00 x00))
                  0x200000 0x100000000 0x100 [x01] eq_refl) as X.
    cbv zeta in X. destruct X as (_ & Hlen & _).
    rewrite (Hlen [x00; x20; x00; x00] ltac:(vm_compute; reflexivity)
                  ltac:(lia)).
    vm_compute. reflexivity.
  - pose proof (@header_field_out_of_range Wire Wire_Transport
                  jump_device (bound jump_device)
                  (-1) 0 0 [] eq_refl) as X.
    cbv zeta in X. destruct X as (_ & _ & _ & Hjump).
    rewrite (Hjump ltac:(lia)). vm_compute. reflexivity.
Defined.

Lemma handshake_writes_and_logs_witness :
  exists k j : nat,
    (k <= 5)%nat /\ (j <= 3)%nat
    /\ writes_of (trace (snd (handshake 5 (bound late_device))))
       = repeat [xa0] k ++ firstn j [[x0a]; [x50]; [x05]]
    /\ log (snd (handshake 5 (bound late_device))) = [].
Proof.
  destruct (@handshake_writes_and_logs Wire Wire_Transport 5%nat
              late_device (bound late_device) eq_refl)
    as (k & j & Hk & Hj & Hw & Hcases).
  exists k, j. split; [exact Hk|]. split; [exact Hj|]. split; [exact Hw|].
  destruct Hcases as [(Hok & _)|[(_ & _ & _ & Hlog)|(_ & _ & _ & Hlog)]];
    [|exact Hlog|exact Hlog].
  exfalso. revert Hok. vm_compute. discriminate.
Defined.

Lemma find_port_returns_first_match_witness :
  exists (p : ListPortInfo) (n : nat) (before after : list ListPortInfo),
    comports (bench silent_device) n = before ++ p :: after
    /\ vid p = Some 0x0E8D /\ pid p = Some 0x2000
    /\ device p = "/dev/ttyACM0"%string.
Proof.
  destruct (@find_port_returns_first_match Wire (bench silent_device)
              3%nat 0x0E8D 0x2000 (Some 10) (bound silent_device)
              (snd (find_port (bench silent_device) 3 0x0E8D 0x2000
                              (Some 10) (bound silent_device)))
              "/dev/ttyACM0"%string ltac:(vm_compute; reflexivity))
    as (p & n & l1 & l2 & _ & _ & Hl & Hv & Hq & Hd & _).
  exists p, n, l1, l2. auto.
Defined.

Lemma find_port_elapsed_at_once_witness :
  find_port (bench silent_device) 4 0x0E8D 0x2000 (Some 0)
            (bound silent_device)
  = (Ok None, polled 2 0 (bound silent_device)).
Proof.
  apply (proj2 (@find_port_elapsed_at_once Wire (bench silent_device)
                  3%nat 0x0E8D 0x2000 0 (bound silent_device)));
    [lia | vm_compute; discriminate].
Defined.

Lemma find_device_binds_first_match_witness :
  let w := mkWorld (T := Wire) None None 115200 5 [] [] O O in
  find_device (bench late_device) 1 0x0E8D 0x2000 w
  = (Ok tt,
     set_dev (Some late_device)
             (logged [LogFoundDevice (Some "/dev/ttyACM0"%string)]
                     (set_port (Some "/dev/ttyACM0"%string) (polled 1 1 w))))
  /\ find_device (unnamed_port late_device) 1 0x0E8D 0x2000 w
     = (Raise (RuntimeError DeviceNotFound),
        logged [LogFoundDevice (Some EmptyString)]
               (set_port (Some EmptyString) (polled 1 1 w))).
Proof.
  intros w.
  pose proof (@find_device_binds_first_match Wire (bench late_device)
                1%nat O 0x0E8D 0x2000 w
                {| device := "/dev/ttyACM0"; vid := Some 0x0E8D;
                   pid := Some 0x2000 |}
                eq_refl) as X.
  pose proof (@find_device_binds_first_match Wire (unnamed_port late_device)
                1%nat O 0x0E8D 0x2000 w
                {| device := EmptyString; vid := Some 0x0E8D;
                   pid := Some 0x2000 |}
                eq_refl) as Y.
  cbv zeta in X, Y.
  specialize (X (fun j Hj => match Nat.nlt_0_r j Hj with end)
                eq_refl (le_n 1)).
  specialize (Y (fun j Hj => match Nat.nlt_0_r j Hj with end)
                eq_refl (le_n 1)).
  destruct X as (Hopen & _). destruct Y as (_ & Hnone & _).
  split.
  - exact (proj1 (Hopen ltac:(discriminate)) late_device eq_refl).
  - exact (Hnone eq_refl).
Defined.

Lemma session_download_order_witness :
  session (bench (identity_device x12 x34)) 0
          {| mode_identify := true; mode_download_agent := false;
             payload := "bin/payload.bin"; verbose := false;
             arg_port := None; skip_handshake := true |}
          (bound (identity_device x12 x34))
  = (Ok tt, snd (identify (bound (identity_device x12 x34)))).
Proof.
  pose (args := {| mode_identify := true; mode_download_agent := false;
                   payload := "bin/payload.bin"%string; verbose := false;
                   arg_port := None; skip_handshake := true |}).
  pose (w := bound (identity_device x12 x34)).
  assert (identify w = (Ok tt, snd (identify w))) as Hid
      by (vm_compute; reflexivity).
  destruct (@session_download_order Wire Wire_Transport
              (bench (identity_device x12 x34)) O args w w
              (snd (identify w)) eq_refl Hid) as (Hi & _).
  exact (Hi eq_refl).
Defined.

Lemma main_with_port_witness :
  main (bench (identity_device x12 x34)) 0
       {| mode_identify := true; mode_download_agent := false;
          payload := "bin/payload.bin"; verbose := false;
          arg_port := Some "/dev/ttyUSB0"%string; skip_handshake := true |}
       (mkWorld None None 0 0 [] [] O O)
  = session (bench (identity_device x12 x34)) 0
       {| mode_identify := true; mode_download_agent := false;
          payload := "bin/payload.bin"; verbose := false;
          arg_port := Some "/dev/ttyUSB0"%string; skip_handshake := true |}
       (logged [LogWaitingForDevice; LogDeviceAlreadyFound]
               (mkWorld (Some (identity_device x12 x34))
                        (Some "/dev/ttyUSB0"%string) 115200 5 [] [] O O)).
Proof.
  apply (proj1 (@main_with_port Wire Wire_Transport
                  (bench (identity_device x12 x34)) O
                  {| mode_identify := true; mode_download_agent := false;
                     payload := "bin/payload.bin"; verbose := false;
                     arg_port := Some "/dev/ttyUSB0"%string;
                     skip_handshake := true |}
                  (mkWorld None None 0 0 [] [] O O)
                  "/dev/ttyUSB0"%string eq_refl ltac:(discriminate))).
  reflexivity.
Defined.

Lemma power_init_tests_register_echo_witness :
  fst (power_init 0x1234 0
                  (bound (pmic_device [x00; x00; x12; x34]
                                      [x00; x00; x00; x00] [x00; x00])))
  = Raise (RuntimeError (StatusIs 0x1234)).
Proof.
  exact (power_init_tests_register_echo 0x1234 0 [x00; x00; x12; x34]
           [x00; x00; x00; x00] [x00; x00] eq_refl eq_refl).
Defined.

(** X21. On a device that echoes JUMP_DA and its address in full and
    then sends a status, [jump_da] never reads that status: after the
    opcode echo it reads the first byte of the address echo, then takes
    the second and third for the two bytes it drops, and returns with
    the fourth echo byte and the whole status still unread in the input
    buffer. *)
Theorem jump_da_leaves_status_unread :
  forall (address : Z) (a status : bytes),
    to_bytes address 4 Big = Ok a ->
    exists a0 a1 a2 a3 : byte,
      a = [a0; a1; a2; a3]
      /\ jump_da address (bound (mkWire [] [[xd5]; a ++ status]))
         = (Ok tt,
            played (mkWire (a3 :: status) [])
                   [EvWrite [xd5]; EvRead 1 [xd5];
                    EvWrite a; EvRead 1 [a0]; EvRead 2 [a1; a2]]
                   (logged [LogJumpToDA address]
                           (bound (mkWire [] [[xd5]; a ++ status])))).
Proof.
  intros address a status Ha.
  destruct (to_bytes_4_inv address a Ha) as [La _].
  destruct a as [|a0 [|a1 [|a2 [|a3 [|]]]]]; try discriminate La.
  exists a0, a1, a2, a3. split; [reflexivity|].
  rewrite (jump_da_run (mkWire [] [[xd5]; [a0; a1; a2; a3] ++ status])
             (bound (mkWire [] [[xd5]; [a0; a1; a2; a3] ++ status]))
             address [a0; a1; a2; a3] eq_refl Ha).
  reflexivity.
Qed.

Lemma jump_da_leaves_status_unread_witness :
  exists a0 a1 a2 a3 : byte,
    [x00; x20; x00; x00] = [a0; a1; a2; a3]
    /\ jump_da 0x200000
               (bound (mkWire [] [[xd5]; [x00; x20; x00; x00] ++ [x00; x01]]))
       = (Ok tt,
          played (mkWire (a3 :: [x00; x01]) [])
                 [EvWrite [xd5]; EvRead 1 [xd5];
                  EvWrite [x00; x20; x00; x00]; EvRead 1 [a0];
                  EvRead 2 [a1; a2]]
                 (logged [LogJumpToDA 0x200000]
                         (bound (mkWire []
                                   [[xd5];
                                    [x00; x20; x00; x00] ++ [x00; x01]])))).
Proof.
  exact (jump_da_leaves_status_unread 0x200000 [x00; x20; x00; x00]
           [x00; x01] eq_refl).
Defined.

(* ================================================================== *)
(** ** A chip entry of a DA file *)

Lemma le_value_firstn_range (n : nat) (l : bytes) :
  0 <= le_value (firstn n l) < 256 ^ Z.of_nat n.
Proof.
  pose proof (le_value_range (firstn n l)) as Hr.
  pose proof (firstn_le_length n l) as Hl.
  assert (256 ^ Z.of_nat (length (firstn n l)) <= 256 ^ Z.of_nat n)
    by (apply Z.pow_le_mono_r; lia).
  lia.
Qed.

Lemma entry_fields (data : bytes) :
  ParseDA.bytes_field 0 (unpack_fields ParseDA.entry_format data)
  = firstn 2 data
  /\ ParseDA.int_field 1 (unpack_fields ParseDA.entry_format data)
     = le_value (firstn 2 (skipn 2 data))
  /\ ParseDA.int_field 2 (unpack_fields ParseDA.entry_format data)
     = le_value (firstn 4 (skipn 4 data))
  /\ ParseDA.int_field 3 (unpack_fields ParseDA.entry_format data)
     = le_value (firstn 4 (skipn 8 data))
  /\ ParseDA.int_field 4 (unpack_fields ParseDA.entry_format data)
     = le_value (firstn 4 (skipn 12 data)).
Proof.
  unfold ParseDA.bytes_field, ParseDA.int_field, ParseDA.entry_format.
  cbn [unpack_fields nth field_size].
  rewrite !skipn_skipn. cbn [Nat.add]. repeat split.
Qed.

Lemma da_entry_of_full_buffer (data : bytes) :
  length data = 0xDC%nat ->
  ParseDA.DAEntry_init data
  = if negb (bytes_eqb (firstn 2 data) [xda; xda]) then
      inl ParseDA.InvalidEntryMagic
    else
      inr {| ParseDA.chip_id := le_value (firstn 2 (skipn 2 data));
             ParseDA.chip_version := le_value (firstn 4 (skipn 4 data));
             ParseDA.firmware_version := le_value (firstn 4 (skipn 8 data));
             ParseDA.extra_version := le_value (firstn 4 (skipn 12 data)) |}.
Proof.
  intros L. destruct (entry_fields data) as (F0 & F1 & F2 & F3 & F4).
  unfold ParseDA.DAEntry_init, struct_unpack_le.
  change (struct_calcsize ParseDA.entry_format) with 0xDC%nat.
  rewrite (proj2 (Nat.eqb_eq (length data) 0xDC) L). cbv iota.
  now rewrite F0, F1, F2, F3, F4.
Qed.

(** X22. [DAEntry(data)] raises [struct.error] exactly when [data] does
    not have 0xDC bytes, the number [main] reads for an entry; with
    0xDC bytes it raises ['Invalid DA Entry magic.'] exactly when the
    first two bytes are not [DA DA]; otherwise it succeeds with
    [chip_id] the little-endian value of bytes 2-3 and [chip_version],
    [firmware_version], [extra_version] those of bytes 4-7, 8-11 and
    12-15, so [chip_id] is below 0x10000 and the others below
    0x100000000. *)
Theorem da_entry_layout :
  forall data : bytes,
    (ParseDA.DAEntry_init data = inl ParseDA.StructFailure
     <-> length data <> 0xDC%nat)
    /\ (ParseDA.DAEntry_init data = inl ParseDA.InvalidEntryMagic
        <-> length data = 0xDC%nat /\ firstn 2 data <> [xda; xda])
    /\ (length data = 0xDC%nat -> firstn 2 data = [xda; xda] ->
        ParseDA.DAEntry_init data
        = inr {| ParseDA.chip_id := le_value (firstn 2 (skipn 2 data));
                 ParseDA.chip_version := le_value (firstn 4 (skipn 4 data));
                 ParseDA.firmware_version :=
                   le_value (firstn 4 (skipn 8 data));
                 ParseDA.extra_version :=
                   le_value (firstn 4 (skipn 12 data)) |})
    /\ (forall entry,
           ParseDA.DAEntry_init data = inr entry ->
           0 <= ParseDA.chip_id entry < 0x10000
           /\ 0 <= ParseDA.chip_version entry < 0x100000000
           /\ 0 <= ParseDA.firmware_version entry < 0x100000000
           /\ 0 <= ParseDA.extra_version entry < 0x100000000).
Proof.
  intros data.
  destruct (entry_fields data) as (F0 & F1 & F2 & F3 & F4).
  unfold ParseDA.DAEntry_init, struct_unpack_le.
  change (struct_calcsize ParseDA.entry_format) with 0xDC%nat.
  destruct (Nat.eqb (length data) 0xDC) eqn:L; cbv iota.
  - apply Nat.eqb_eq in L. rewrite F0, F1, F2, F3, F4.
    destruct (bytes_eqb (firstn 2 data) [xda; xda]) eqn:M; cbn [negb].
    + apply bytes_eqb_eq in M.
      split; [split; [discriminate | intros Hl; contradiction]|].
      split; [split; [discriminate | intros [_ Hm]; contradiction]|].
      split; [reflexivity|].
      intros entry E. injection E as <-.
      cbn [ParseDA.chip_id ParseDA.chip_version ParseDA.firmware_version
           ParseDA.extra_version].
      split; [exact (le_value_firstn_range 2 (skipn 2 data))|].
      split; [exact (le_value_firstn_range 4 (skipn 4 data))|].
      split; [exact (le_value_firstn_range 4 (skipn 8 data))|].
      exact (le_value_firstn_range 4 (skipn 12 data)).
    + apply bytes_eqb_neq in M.
      split; [split; [discriminate | intros Hl; contradiction]|].
      split; [split; [intros _; split; assumption | reflexivity]|].
      split; [intros _ Hm; contradiction|].
      intros entry E. discriminate E.
  - apply Nat.eqb_neq in L.
    split; [split; [intros _; exact L | reflexivity]|].
    split; [split; [discriminate | intros [Hl _]; contradiction]|].
    split; [intros Hl; contradiction|].
    intros entry E. discriminate E.
Qed.

(** X23. A [DAEntry] depends only on the first sixteen bytes of its
    0xDC: two buffers of that length with the same first sixteen bytes
    give the same entry or the same failure, whatever the other 204
    bytes are. *)
Theorem da_entry_reads_sixteen_bytes :
  forall data data' : bytes,
    length data = 0xDC%nat ->
    length data' = 0xDC%nat ->
    firstn 16 data = firstn 16 data' ->
    ParseDA.DAEntry_init data = ParseDA.DAEntry_init data'.
Proof.
  intros data data' L L' E.
  assert (forall (a b : nat) (l : bytes), (b + a <= 16)%nat ->
                        firstn a (skipn b l)
                        = skipn b (firstn (b + a) (firstn 16 l))) as Hwin.
  { intros a b l Hab. rewrite firstn_firstn.
    replace (Nat.min (b + a) 16) with (b + a)%nat by lia.
    apply firstn_skipn_comm. }
  rewrite (da_entry_of_full_buffer data L), (da_entry_of_full_buffer data' L').
  change (firstn 2 data) with (firstn 2 (skipn 0 data)).
  change (firstn 2 data') with (firstn 2 (skipn 0 data')).
  rewrite !Hwin by lia. rewrite E. reflexivity.
Qed.

Lemma da_entry_layout_witness :
  let data := [xda; xda; x65; x67; x00; xca; x00; x00; x00; x00; x00; x00;
               x01; x00; x00; x00] ++ repeat x00 204 in
  ParseDA.DAEntry_init data
  = inr {| ParseDA.chip_id := 0x6765; ParseDA.chip_version := 0xCA00;
           ParseDA.firmware_version := 0; ParseDA.extra_version := 1 |}
  /\ ParseDA.DAEntry_init (repeat xda 16) = inl ParseDA.StructFailure.
Proof.
  intros data. split.
  - rewrite (proj1 (proj2 (proj2 (da_entry_layout data))) eq_refl eq_refl).
    reflexivity.
  - apply (proj2 (proj1 (da_entry_layout (repeat xda 16)))). discriminate.
Defined.

Lemma da_entry_reads_sixteen_bytes_witness :
  ParseDA.DAEntry_init
    ([xda; xda; x65; x67; x00; xca; x00; x00; x00; x00; x00; x00;
      x01; x00; x00; x00] ++ repeat x00 204)
  = ParseDA.DAEntry_init
      ([xda; xda; x65; x67; x00; xca; x00; x00; x00; x00; x00; x00;
        x01; x00; x00; x00] ++ repeat xff 204).
Proof.
  apply da_entry_reads_sixteen_bytes; reflexivity.
Defined.
